(** * ilidar-tool: wire codec, dispatch and firmware-update state machine

    A shallow embedding of [ilidar-tool.py] (HYBO iLidar-ToF host tool).
    Python integers are [Z]; a [bytearray]/[bytes] value is a [list Z] whose
    elements lie in [0, 256); the dictionaries returned by [decode_info_v2]
    are records; exceptions ([ValueError], [IndexError]) are [None]. *)

From Stdlib Require Import ZArith List Lia Bool String Ascii DecimalString.
From stdpp Require Import base list.
Import ListNotations.

Local Open Scope Z_scope.

(** ** Python byte arrays *)

Notation "'let?' x ':=' a 'in' b" :=
  (match a with Some x => b | None => None end)
  (at level 10, x name, a at level 100, b at level 200, only parsing).

Definition is_byte (v : Z) : bool := (0 <=? v) && (v <? 256).

(** [dst[i] = v] on a bytearray: [IndexError] past the end, [ValueError]
    when [v] is not in [range(0, 256)]. *)
Definition setitem (i : nat) (v : Z) (dst : list Z) : option (list Z) :=
  if is_byte v then
    if (i <? length dst)%nat then Some (<[i := v]> dst) else None
  else None.

(** [dst[lo:hi] = v] on a bytearray: the slice is replaced by the items of
    [v], whatever their number; every item must be a byte. *)
Definition setslice (lo hi : nat) (v : list Z) (dst : list Z) : option (list Z) :=
  if forallb is_byte v then Some (take lo dst ++ v ++ drop hi dst) else None.

(** [src[lo:hi]]: slices never raise, they clip. *)
Definition slice (lo hi : nat) (src : list Z) : list Z :=
  take (hi - lo) (drop lo src).

(** [for i in range(lo, lo + n): s = body(i, s)], stopping at the first
    exception. *)
Fixpoint for_range {S : Type} (lo n : nat) (body : nat -> S -> option S) (s : S)
  : option S :=
  match n with
  | O => Some s
  | Datatypes.S n' => let? s' := body lo s in for_range (Datatypes.S lo) n' body s'
  end.

(** ** The info record (F/W V1.5.0+) *)

Record InfoRecord := mkInfo {
  ilidar_version : string;
  sensor_sn : Z;
  sensor_hw_id : list Z;
  sensor_fw_ver : list Z;
  sensor_fw_date : list Z;
  sensor_fw_time : list Z;
  sensor_calib_id : Z;
  sensor_fw0_ver : list Z;
  sensor_fw1_ver : list Z;
  sensor_fw2_ver : list Z;
  sensor_model_id : Z;
  sensor_boot_ctrl : Z;
  capture_mode : Z;
  capture_row : Z;
  capture_shutter : list Z;
  capture_limit : list Z;
  capture_period_us : Z;
  capture_seq : Z;
  data_output : Z;
  data_baud : Z;
  data_sensor_ip : list Z;
  data_dest_ip : list Z;
  data_subnet : list Z;
  data_gateway : list Z;
  data_port : Z;
  data_mac_addr : list Z;
  sync : Z;
  sync_trig_delay_us : Z;
  sync_ill_delay_us : list Z;
  sync_trig_trim_us : Z;
  sync_ill_trim_us : Z;
  sync_output_delay_us : Z;
  arb : Z;
  arb_timeout : Z;
  lock : Z
}.

(** [(v >> k) & 0xFF] *)
Definition byte_at (v : Z) (k : Z) : Z := Z.land (Z.shiftr v k) 255.

Definition encode_info_v2 (src : InfoRecord) : option (list Z) :=
  let dst := replicate 166 0 in
  (* Sensor serial number (16-bit) *)
  let? dst := setitem 0 (sensor_sn src mod 256) dst in
  let? dst := setitem 1 (sensor_sn src / 256) dst in
  (* for i in range(2, 70): dst[i] = 0 *)
  let? dst := for_range 2 68 (fun i dst => setitem i 0 dst) dst in
  (* Capture mode and capture row *)
  let? dst := setitem 71 (capture_mode src) dst in
  let? dst := setitem 72 (capture_row src) dst in
  (* Capture shutter, 5 elements *)
  let? dst := for_range 0 5 (fun i dst =>
      let? s := capture_shutter src !! i in
      let? dst := setitem (73 + i * 2) (byte_at s 0) dst in
      let? s := capture_shutter src !! i in
      setitem (74 + i * 2) (byte_at s 8) dst) dst in
  (* Capture limit, 2 elements *)
  let? l0 := capture_limit src !! 0%nat in
  let? dst := setitem 83 (byte_at l0 0) dst in
  let? dst := setitem 84 (byte_at l0 8) dst in
  let? l1 := capture_limit src !! 1%nat in
  let? dst := setitem 85 (byte_at l1 0) dst in
  let? dst := setitem 86 (byte_at l1 8) dst in
  (* Capture period (32-bit) *)
  let? dst := setitem 87 (byte_at (capture_period_us src) 0) dst in
  let? dst := setitem 88 (byte_at (capture_period_us src) 8) dst in
  let? dst := setitem 89 (byte_at (capture_period_us src) 16) dst in
  let? dst := setitem 90 (byte_at (capture_period_us src) 24) dst in
  (* Capture sequence *)
  let? dst := setitem 91 (capture_seq src) dst in
  (* Data output and baud rate *)
  let? dst := setitem 92 (data_output src) dst in
  let? dst := setitem 93 (byte_at (data_baud src) 0) dst in
  let? dst := setitem 94 (byte_at (data_baud src) 8) dst in
  let? dst := setitem 95 (byte_at (data_baud src) 16) dst in
  let? dst := setitem 96 (byte_at (data_baud src) 24) dst in
  (* Sensor and destination IP addresses *)
  let? dst := setslice 97 101 (data_sensor_ip src) dst in
  let? dst := setslice 101 105 (data_dest_ip src) dst in
  let? dst := setslice 105 109 (data_subnet src) dst in
  let? dst := setslice 109 113 (data_gateway src) dst in
  (* Data port (16-bit) *)
  let? dst := setitem 113 (byte_at (data_port src) 0) dst in
  let? dst := setitem 114 (byte_at (data_port src) 8) dst in
  (* MAC address *)
  let? dst := setslice 115 121 (data_mac_addr src) dst in
  (* Sync configuration *)
  let? dst := setitem 121 (sync src) dst in
  let? dst := setitem 122 (byte_at (sync_trig_delay_us src) 0) dst in
  let? dst := setitem 123 (byte_at (sync_trig_delay_us src) 8) dst in
  let? dst := setitem 124 (byte_at (sync_trig_delay_us src) 16) dst in
  let? dst := setitem 125 (byte_at (sync_trig_delay_us src) 24) dst in
  (* Sync illumination delay, 15 elements *)
  let? dst := for_range 0 15 (fun i dst =>
      let? s := sync_ill_delay_us src !! i in
      let? dst := setitem (126 + i * 2) (byte_at s 0) dst in
      let? s := sync_ill_delay_us src !! i in
      setitem (127 + i * 2) (byte_at s 8) dst) dst in
  (* Sync trimmer values *)
  let? dst := setitem 156 (sync_trig_trim_us src) dst in
  let? dst := setitem 157 (sync_ill_trim_us src) dst in
  (* Sync output delay (16-bit) *)
  let? dst := setitem 158 (byte_at (sync_output_delay_us src) 0) dst in
  let? dst := setitem 159 (byte_at (sync_output_delay_us src) 8) dst in
  (* Arbitration settings *)
  let? dst := setitem 160 (arb src) dst in
  let? dst := setitem 161 (byte_at (arb_timeout src) 0) dst in
  let? dst := setitem 162 (byte_at (arb_timeout src) 8) dst in
  let? dst := setitem 163 (byte_at (arb_timeout src) 16) dst in
  let? dst := setitem 164 (byte_at (arb_timeout src) 24) dst in
  (* Additional flag: not written in the info packet *)
  let? dst := setitem 165 0 dst in
  Some dst.

(** [(src[hi] << 8) | src[lo]] and its 32-bit sibling. *)
Definition le16 (b0 b1 : Z) : Z := Z.lor (Z.shiftl b1 8) b0.
Definition le32 (b0 b1 b2 b3 : Z) : Z :=
  Z.lor (Z.lor (Z.lor (Z.shiftl b3 24) (Z.shiftl b2 16)) (Z.shiftl b1 8)) b0.

Definition get16 (src : list Z) (lo : nat) : option Z :=
  let? b1 := src !! (lo + 1)%nat in
  let? b0 := src !! lo in
  Some (le16 b0 b1).

Definition get32 (src : list Z) (lo : nat) : option Z :=
  let? b3 := src !! (lo + 3)%nat in
  let? b2 := src !! (lo + 2)%nat in
  let? b1 := src !! (lo + 1)%nat in
  let? b0 := src !! lo in
  Some (le32 b0 b1 b2 b3).

Definition decode_info_v2 (src : list Z) : option InfoRecord :=
  let? sn := get16 src 0 in
  let hw_id := slice 2 32 src in
  let fw_ver := slice 32 35 src in
  let fw_date := slice 35 47 src in
  let fw_time := slice 47 56 src in
  let? calib_id := get32 src 56 in
  let fw0_ver := slice 60 63 src in
  let fw1_ver := slice 63 66 src in
  let fw2_ver := slice 66 69 src in
  let? model_id := src !! 69%nat in
  let? boot_ctrl := src !! 70%nat in
  let? mode := src !! 71%nat in
  let? row := src !! 72%nat in
  let? sh0 := get16 src 73 in
  let? sh1 := get16 src 75 in
  let? sh2 := get16 src 77 in
  let? sh3 := get16 src 79 in
  let? sh4 := get16 src 81 in
  let? lim0 := get16 src 83 in
  let? lim1 := get16 src 85 in
  let? period := get32 src 87 in
  let? seq := src !! 91%nat in
  let? output := src !! 92%nat in
  let? baud := get32 src 93 in
  let sensor_ip := slice 97 101 src in
  let dest_ip := slice 101 105 src in
  let subnet := slice 105 109 src in
  let gateway := slice 109 113 src in
  let? port := get16 src 113 in
  let mac_addr := slice 115 121 src in
  let? sync_ := src !! 121%nat in
  let? trig_delay := get32 src 122 in
  let? ill0 := get16 src 126 in
  let? ill1 := get16 src 128 in
  let? ill2 := get16 src 130 in
  let? ill3 := get16 src 132 in
  let? ill4 := get16 src 134 in
  let? ill5 := get16 src 136 in
  let? ill6 := get16 src 138 in
  let? ill7 := get16 src 140 in
  let? ill8 := get16 src 142 in
  let? ill9 := get16 src 144 in
  let? ill10 := get16 src 146 in
  let? ill11 := get16 src 148 in
  let? ill12 := get16 src 150 in
  let? ill13 := get16 src 152 in
  let? ill14 := get16 src 154 in
  let? trig_trim := src !! 156%nat in
  let? ill_trim := src !! 157%nat in
  let? output_delay := get16 src 158 in
  let? arb_ := src !! 160%nat in
  let? timeout := get32 src 161 in
  let? lock_ := src !! 165%nat in
  Some {|
    ilidar_version := "1.5.X";
    sensor_sn := sn;
    sensor_hw_id := hw_id;
    sensor_fw_ver := fw_ver;
    sensor_fw_date := fw_date;
    sensor_fw_time := fw_time;
    sensor_calib_id := calib_id;
    sensor_fw0_ver := fw0_ver;
    sensor_fw1_ver := fw1_ver;
    sensor_fw2_ver := fw2_ver;
    sensor_model_id := model_id;
    sensor_boot_ctrl := boot_ctrl;
    capture_mode := mode;
    capture_row := row;
    capture_shutter := [sh0; sh1; sh2; sh3; sh4];
    capture_limit := [lim0; lim1];
    capture_period_us := period;
    capture_seq := seq;
    data_output := output;
    data_baud := baud;
    data_sensor_ip := sensor_ip;
    data_dest_ip := dest_ip;
    data_subnet := subnet;
    data_gateway := gateway;
    data_port := port;
    data_mac_addr := mac_addr;
    sync := sync_;
    sync_trig_delay_us := trig_delay;
    sync_ill_delay_us :=
      [ill0; ill1; ill2; ill3; ill4; ill5; ill6; ill7; ill8; ill9;
       ill10; ill11; ill12; ill13; ill14];
    sync_trig_trim_us := trig_trim;
    sync_ill_trim_us := ill_trim;
    sync_output_delay_us := output_delay;
    arb := arb_;
    arb_timeout := timeout;
    lock := lock_
  |}.

(** ** Valid records *)

Definition is_u16 (v : Z) : bool := (0 <=? v) && (v <? 65536).
Definition is_u32 (v : Z) : bool := (0 <=? v) && (v <? 4294967296).

Definition bytes_of_len (n : nat) (l : list Z) : bool :=
  (length l =? n)%nat && forallb is_byte l.
Definition u16s_of_len (n : nat) (l : list Z) : bool :=
  (length l =? n)%nat && forallb is_u16 l.

(** Every scalar in its 8/16/32-bit range, every array of its documented
    length. *)
Definition valid_info (r : InfoRecord) : bool :=
  is_u16 (sensor_sn r)
  && bytes_of_len 30 (sensor_hw_id r)
  && bytes_of_len 3 (sensor_fw_ver r)
  && bytes_of_len 12 (sensor_fw_date r)
  && bytes_of_len 9 (sensor_fw_time r)
  && is_u32 (sensor_calib_id r)
  && bytes_of_len 3 (sensor_fw0_ver r)
  && bytes_of_len 3 (sensor_fw1_ver r)
  && bytes_of_len 3 (sensor_fw2_ver r)
  && is_byte (sensor_model_id r)
  && is_byte (sensor_boot_ctrl r)
  && is_byte (capture_mode r)
  && is_byte (capture_row r)
  && u16s_of_len 5 (capture_shutter r)
  && u16s_of_len 2 (capture_limit r)
  && is_u32 (capture_period_us r)
  && is_byte (capture_seq r)
  && is_byte (data_output r)
  && is_u32 (data_baud r)
  && bytes_of_len 4 (data_sensor_ip r)
  && bytes_of_len 4 (data_dest_ip r)
  && bytes_of_len 4 (data_subnet r)
  && bytes_of_len 4 (data_gateway r)
  && is_u16 (data_port r)
  && bytes_of_len 6 (data_mac_addr r)
  && is_byte (sync r)
  && is_u32 (sync_trig_delay_us r)
  && u16s_of_len 15 (sync_ill_delay_us r)
  && is_byte (sync_trig_trim_us r)
  && is_byte (sync_ill_trim_us r)
  && is_u16 (sync_output_delay_us r)
  && is_byte (arb r)
  && is_u32 (arb_timeout r)
  && is_byte (lock r).

(** What survives an encode: the serial number and the writable
    parameters.  Everything stored at offsets 2..70 and the lock byte come
    back as zero, and the version tag is the decoder's constant. *)
Definition written_part (r : InfoRecord) : InfoRecord := {|
  ilidar_version := "1.5.X";
  sensor_sn := sensor_sn r;
  sensor_hw_id := replicate 30 0;
  sensor_fw_ver := replicate 3 0;
  sensor_fw_date := replicate 12 0;
  sensor_fw_time := replicate 9 0;
  sensor_calib_id := 0;
  sensor_fw0_ver := replicate 3 0;
  sensor_fw1_ver := replicate 3 0;
  sensor_fw2_ver := replicate 3 0;
  sensor_model_id := 0;
  sensor_boot_ctrl := 0;
  capture_mode := capture_mode r;
  capture_row := capture_row r;
  capture_shutter := capture_shutter r;
  capture_limit := capture_limit r;
  capture_period_us := capture_period_us r;
  capture_seq := capture_seq r;
  data_output := data_output r;
  data_baud := data_baud r;
  data_sensor_ip := data_sensor_ip r;
  data_dest_ip := data_dest_ip r;
  data_subnet := data_subnet r;
  data_gateway := data_gateway r;
  data_port := data_port r;
  data_mac_addr := data_mac_addr r;
  sync := sync r;
  sync_trig_delay_us := sync_trig_delay_us r;
  sync_ill_delay_us := sync_ill_delay_us r;
  sync_trig_trim_us := sync_trig_trim_us r;
  sync_ill_trim_us := sync_ill_trim_us r;
  sync_output_delay_us := sync_output_delay_us r;
  arb := arb r;
  arb_timeout := arb_timeout r;
  lock := 0
|}.

(** A record with live identity data, as a sensor reports it. *)
Definition sample_info : InfoRecord := {|
  ilidar_version := "1.5.X";
  sensor_sn := 456;
  sensor_hw_id := replicate 30 17;
  sensor_fw_ver := [4; 5; 1];
  sensor_fw_date := replicate 12 48;
  sensor_fw_time := replicate 9 49;
  sensor_calib_id := 305419896;
  sensor_fw0_ver := [4; 5; 1];
  sensor_fw1_ver := [4; 0; 1];
  sensor_fw2_ver := [0; 0; 0];
  sensor_model_id := 7;
  sensor_boot_ctrl := 1;
  capture_mode := 1;
  capture_row := 160;
  capture_shutter := [400; 80; 16; 0; 8000];
  capture_limit := [200; 300];
  capture_period_us := 100000;
  capture_seq := 0;
  data_output := 1;
  data_baud := 115200;
  data_sensor_ip := [192; 168; 5; 200];
  data_dest_ip := [192; 168; 5; 2];
  data_subnet := [255; 255; 255; 0];
  data_gateway := [192; 168; 5; 1];
  data_port := 7256;
  data_mac_addr := [2; 0; 0; 0; 1; 200];
  sync := 0;
  sync_trig_delay_us := 70000;
  sync_ill_delay_us := replicate 15 1000;
  sync_trig_trim_us := 3;
  sync_ill_trim_us := 4;
  sync_output_delay_us := 65535;
  arb := 0;
  arb_timeout := 4294967295;
  lock := 0
|}.

(** ** CRC-16 *)

(** CRC-16 CCITT lookup table *)
Definition CRC16Table : list Z := [
  0x0000; 0x1021; 0x2042; 0x3063; 0x4084; 0x50a5; 0x60c6; 0x70e7;
  0x8108; 0x9129; 0xa14a; 0xb16b; 0xc18c; 0xd1ad; 0xe1ce; 0xf1ef;
  0x1231; 0x0210; 0x3273; 0x2252; 0x52b5; 0x4294; 0x72f7; 0x62d6;
  0x9339; 0x8318; 0xb37b; 0xa35a; 0xd3bd; 0xc39c; 0xf3ff; 0xe3de;
  0x2462; 0x3443; 0x0420; 0x1401; 0x64e6; 0x74c7; 0x44a4; 0x5485;
  0xa56a; 0xb54b; 0x8528; 0x9509; 0xe5ee; 0xf5cf; 0xc5ac; 0xd58d;
  0x3653; 0x2672; 0x1611; 0x0630; 0x76d7; 0x66f6; 0x5695; 0x46b4;
  0xb75b; 0xa77a; 0x9719; 0x8738; 0xf7df; 0xe7fe; 0xd79d; 0xc7bc;
  0x48c4; 0x58e5; 0x6886; 0x78a7; 0x0840; 0x1861; 0x2802; 0x3823;
  0xc9cc; 0xd9ed; 0xe98e; 0xf9af; 0x8948; 0x9969; 0xa90a; 0xb92b;
  0x5af5; 0x4ad4; 0x7ab7; 0x6a96; 0x1a71; 0x0a50; 0x3a33; 0x2a12;
  0xdbfd; 0xcbdc; 0xfbbf; 0xeb9e; 0x9b79; 0x8b58; 0xbb3b; 0xab1a;
  0x6ca6; 0x7c87; 0x4ce4; 0x5cc5; 0x2c22; 0x3c03; 0x0c60; 0x1c41;
  0xedae; 0xfd8f; 0xcdec; 0xddcd; 0xad2a; 0xbd0b; 0x8d68; 0x9d49;
  0x7e97; 0x6eb6; 0x5ed5; 0x4ef4; 0x3e13; 0x2e32; 0x1e51; 0x0e70;
  0xff9f; 0xefbe; 0xdfdd; 0xcffc; 0xbf1b; 0xaf3a; 0x9f59; 0x8f78;
  0x9188; 0x81a9; 0xb1ca; 0xa1eb; 0xd10c; 0xc12d; 0xf14e; 0xe16f;
  0x1080; 0x00a1; 0x30c2; 0x20e3; 0x5004; 0x4025; 0x7046; 0x6067;
  0x83b9; 0x9398; 0xa3fb; 0xb3da; 0xc33d; 0xd31c; 0xe37f; 0xf35e;
  0x02b1; 0x1290; 0x22f3; 0x32d2; 0x4235; 0x5214; 0x6277; 0x7256;
  0xb5ea; 0xa5cb; 0x95a8; 0x8589; 0xf56e; 0xe54f; 0xd52c; 0xc50d;
  0x34e2; 0x24c3; 0x14a0; 0x0481; 0x7466; 0x6447; 0x5424; 0x4405;
  0xa7db; 0xb7fa; 0x8799; 0x97b8; 0xe75f; 0xf77e; 0xc71d; 0xd73c;
  0x26d3; 0x36f2; 0x0691; 0x16b0; 0x6657; 0x7676; 0x4615; 0x5634;
  0xd94c; 0xc96d; 0xf90e; 0xe92f; 0x99c8; 0x89e9; 0xb98a; 0xa9ab;
  0x5844; 0x4865; 0x7806; 0x6827; 0x18c0; 0x08e1; 0x3882; 0x28a3;
  0xcb7d; 0xdb5c; 0xeb3f; 0xfb1e; 0x8bf9; 0x9bd8; 0xabbb; 0xbb9a;
  0x4a75; 0x5a54; 0x6a37; 0x7a16; 0x0af1; 0x1ad0; 0x2ab3; 0x3a92;
  0xfd2e; 0xed0f; 0xdd6c; 0xcd4d; 0xbdaa; 0xad8b; 0x9de8; 0x8dc9;
  0x7c26; 0x6c07; 0x5c64; 0x4c45; 0x3ca2; 0x2c83; 0x1ce0; 0x0cc1;
  0xef1f; 0xff3e; 0xcf5d; 0xdf7c; 0xaf9b; 0xbfba; 0x8fd9; 0x9ff8;
  0x6e17; 0x7e36; 0x4e55; 0x5e74; 0x2e93; 0x3eb2; 0x0ed1; 0x1ef0
].

(** One round of [get_crc16]'s loop:
    [crc = (crc << 8) ^ CRC16Table[(crc >> 8) ^ byte]; crc &= 0xFFFF].
    An index past the table is an [IndexError]. *)
Definition crc16_step (crc byte : Z) : option Z :=
  let? t := CRC16Table !! Z.to_nat (Z.lxor (Z.shiftr crc 8) byte) in
  Some (Z.land (Z.lxor (Z.shiftl crc 8) t) 0xFFFF).

Fixpoint crc16_loop (packet : list Z) (crc : Z) : option Z :=
  match packet with
  | [] => Some crc
  | byte :: rest => let? crc := crc16_step crc byte in crc16_loop rest crc
  end.

Definition get_crc16 (packet : list Z) : option Z := crc16_loop packet 0xFFFF.

(** The bitwise definition of CRC-16/CCITT the table is checked against:
    width 16, polynomial 0x1021, initial value 0xFFFF, bits taken most
    significant first, input and output not reflected, no final XOR. *)
Definition crc16_shift (crc : Z) : Z :=
  if Z.testbit crc 15
  then Z.land (Z.lxor (Z.shiftl crc 1) 0x1021) 0xFFFF
  else Z.land (Z.shiftl crc 1) 0xFFFF.

Definition crc16_bitwise_byte (crc byte : Z) : Z :=
  Nat.iter 8 crc16_shift (Z.lxor crc (Z.shiftl byte 8)).

Definition crc16_ccitt_bitwise (packet : list Z) : Z :=
  fold_left crc16_bitwise_byte packet 0xFFFF.

(** The ASCII bytes of "123456789". *)
Definition check_input : list Z := [49; 50; 51; 52; 53; 54; 55; 56; 57].


(** ** Frames *)

Definition cmd_read_info : list Z :=
  [0xA5; 0x5A; 0x30; 0x00; 0x04; 0x00; 0x00; 0x03; 0x00; 0x00; 0xA5; 0x5A].
Definition cmd_measure : list Z :=
  [0xA5; 0x5A; 0x30; 0x00; 0x04; 0x00; 0x00; 0x01; 0x00; 0x00; 0xA5; 0x5A].
Definition cmd_pause : list Z :=
  [0xA5; 0x5A; 0x30; 0x00; 0x04; 0x00; 0x01; 0x01; 0x00; 0x00; 0xA5; 0x5A].
Definition cmd_reboot : list Z :=
  [0xA5; 0x5A; 0x30; 0x00; 0x04; 0x00; 0x02; 0x01; 0x00; 0x00; 0xA5; 0x5A].
Definition cmd_reset_factory : list Z :=
  [0xA5; 0x5A; 0x30; 0x00; 0x04; 0x00; 0x00; 0x02; 0x00; 0x00; 0xA5; 0x5A].
Definition cmd_redirect : list Z :=
  [0xA5; 0x5A; 0x30; 0x00; 0x04; 0x00; 0x00; 0x04; 0x00; 0x00; 0xA5; 0x5A].
Definition cmd_lock : list Z :=
  [0xA5; 0x5A; 0x30; 0x00; 0x04; 0x00; 0x00; 0x05; 0x00; 0x00; 0xA5; 0x5A].
Definition cmd_unlock : list Z :=
  [0xA5; 0x5A; 0x30; 0x00; 0x04; 0x00; 0x01; 0x05; 0x00; 0x00; 0xA5; 0x5A].
Definition cmd_store : list Z :=
  [0xA5; 0x5A; 0x30; 0x00; 0x04; 0x00; 0x03; 0x01; 0x00; 0x00; 0xA5; 0x5A].
Definition cmd_safe_boot : list Z :=
  [0xA5; 0x5A; 0x30; 0x00; 0x04; 0x00; 0x04; 0x01; 0x00; 0x00; 0xA5; 0x5A].
Definition cmd_flash_start : list Z :=
  [0xA5; 0x5A; 0x30; 0x00; 0x04; 0x00; 0x00; 0x06; 0x00; 0x00; 0xA5; 0x5A].
Definition cmd_flash_finish : list Z :=
  [0xA5; 0x5A; 0x30; 0x00; 0x04; 0x00; 0xFF; 0x06; 0x00; 0x00; 0xA5; 0x5A].

Definition status_header : list Z := [0xA5; 0x5A; 0x10; 0x00; 0x1C; 0x00].
Definition status_full_header : list Z := [0xA5; 0x5A; 0x11; 0x00; 0x38; 0x01].
Definition info_v2_header : list Z := [0xA5; 0x5A; 0x21; 0x00; 0xA6; 0x00].
Definition ack_header : list Z := [0xA5; 0x5A; 0x40; 0x00; 0x22; 0x00].
Definition flash_block_headder : list Z := [0xA5; 0x5A; 0x00; 0x01; 0x26; 0x04].
Definition tail : list Z := [0xA5; 0x5A].

Definition bytes_eqb (a b : list Z) : bool :=
  if decide (a = b) then true else false.

(** [bytearray(l)] on a list of integers: [ValueError] unless every item is
    a byte. *)
Definition bytearray (l : list Z) : option (list Z) :=
  if forallb is_byte l then Some l else None.

(** ** Flash blocks *)

(** An open binary file: its content and the read position. *)
Record File := mkFile { content : list Z; pos : nat }.

(** [file.read(n)] *)
Definition file_read (n : nat) (f : File) : list Z * File :=
  let data := take n (drop (pos f) (content f)) in
  (data, {| content := content f; pos := (pos f + length data)%nat |}).

(** The body of the [for _o in range(256)] loop of [cmd_update_run] up to
    the frame [flash_block], for the chunk [read_bin_data] just read. *)
Definition build_flash_block (hw_id fw_version : list Z) (_o : Z)
    (read_bin_data : list Z) : option (list Z) :=
  let flash_head := flash_block_headder in
  let? hw := bytearray hw_id in
  let flash_head := flash_head ++ hw in
  let flash_head := flash_head ++ [2; 2; 0] in
  let? fw := bytearray fw_version in
  let flash_head := flash_head ++ fw in
  let flash_body :=
    match read_bin_data with
    | [] => replicate 1024 0xFF
    | _ =>
      if negb (length read_bin_data =? 1024)%nat
      then read_bin_data ++ replicate (1024 - length read_bin_data) 0xFF
      else read_bin_data
    end in
  let? flash_crc16 := get_crc16 flash_body in
  let? flash_head := setitem 38 (Z.land _o 0xFF) flash_head in
  Some (flash_head ++ flash_body
        ++ [Z.land flash_crc16 0xFF; byte_at flash_crc16 8] ++ tail).

(** The frames the loop builds, one per iteration, in order: every
    iteration reads the next 1024 bytes of the file exactly once. *)
Fixpoint flash_blocks_from (hw_id fw_version : list Z) (f : File) (_o : Z)
    (n : nat) : option (list (list Z)) :=
  match n with
  | O => Some []
  | S n' =>
    let (read_bin_data, f') := file_read 1024 f in
    let? blk := build_flash_block hw_id fw_version _o read_bin_data in
    let? rest := flash_blocks_from hw_id fw_version f' (_o + 1) n' in
    Some (blk :: rest)
  end.

Definition flash_blocks (hw_id fw_version : list Z) (P : list Z)
  : option (list (list Z)) :=
  flash_blocks_from hw_id fw_version {| content := P; pos := 0 |} 0 256.

(** ** Hosts, targets and datagrams *)

(** An IPv4 address is its 32-bit value. *)
Definition ipv4 (a b c d : Z) : Z := a * 16777216 + b * 65536 + c * 256 + d.

(** [is_in_subnet(target_ip, subnet_ip, subnet_mask)] for a
    [subnet_mask] that is a netmask, as [get_subnet_mask] gives it:
    membership in the network [subnet_ip/subnet_mask] built with
    [strict=False], which [ipaddress] decides as
    [target & mask == subnet_ip & mask]. *)
Definition is_in_subnet (target_ip subnet_ip subnet_mask : Z) : bool :=
  Z.land target_ip subnet_mask =? Z.land subnet_ip subnet_mask.

(** An entry of [listening_list]: the data ports, the subnet mask and,
    under the key ['config'], the broadcast address. *)
Record HostItem := mkHost { port : list Z; subnet : Z; config : Z }.

(** An entry of [sockets]: the data sockets (one per port, named by the
    port), and the subnet mask and broadcast address of the interface. *)
Record Sock := mkSock { data : list Z; sock_subnet : Z; broadcast : Z }.

(** The socket-creation loop shared by the [cmd_*] functions, when every
    interface has a data port; the functions test [ports_given] before
    they use it. *)
Definition create_sockets (host_list : list (Z * HostItem)) : list (Z * Sock) :=
  map (fun '(ip, item) =>
         (ip, {| data := port item; sock_subnet := subnet item;
                 broadcast := config item |})) host_list.

(** An interface of [host_list] without a data port gets no entry in
    [sockets], and [sockets[ip]['config'] = sockConfig] is a [KeyError]. *)
Definition ports_given (host_list : list (Z * HostItem)) : bool :=
  forallb (fun e => match port (snd e) with [] => false | _ => true end)
          host_list.

Definition sensor_config_port : Z := 4906.

(** [sock['config'].sendto(payload, (dst, dport))] on the interface [via]. *)
Inductive event :=
| SendTo (via : Z) (payload : list Z) (dst : Z) (dport : Z)
| RecvFrom (via : Z) (sock_port : Z) (payload : list Z) (sender : Z).

Inductive ttype := T_ALL | T_IP | T_SN.

(** An item of [target_list]: a string holding an address, or an integer. *)
Inductive pyval := PyStr (addr : Z) | PyInt (n : Z).

#[global] Instance ttype_eq_dec : EqDecision ttype.
Proof. solve_decision. Defined.
#[global] Instance pyval_eq_dec : EqDecision pyval.
Proof. solve_decision. Defined.

(** [ipaddress.ip_address(x)]: a string is parsed, an integer is taken as
    the 32-bit value. *)
Definition ip_address (x : pyval) : Z :=
  match x with PyStr a => a | PyInt n => n end.

Inductive command :=
| c_info | c_pause | c_measure | c_lock | c_unlock | c_reboot | c_redirect
| c_reset | c_config | c_convert | c_update | c_overwrite
| c_sender | c_sender_ip | c_sender_port.

#[global] Instance command_eq_dec : EqDecision command.
Proof. solve_decision. Defined.

Record CmdMsg := mkCmd {
  cmd_command : command;
  target_type : list ttype;
  target_list : list pyval
}.

(** ** parse_arg_list *)

(** A [string] holds a Python [str] as the bytes of its UTF-8 encoding:
    the ASCII characters are themselves, and a string with a byte above
    127 holds a character outside ASCII. *)
Definition is_ascii (c : ascii) : bool := (nat_of_ascii c <? 128)%nat.

Definition is_digit (c : ascii) : bool :=
  let n := nat_of_ascii c in ((48 <=? n) && (n <=? 57))%nat.

(** A string of ASCII digits, at least one, and its value. *)
Definition ascii_digits (s : string) : bool :=
  match list_ascii_of_string s with
  | [] => false
  | cs => forallb is_digit cs
  end.

Definition digits_value (s : string) : Z :=
  fold_left (fun n c => 10 * n + (Z.of_nat (nat_of_ascii c) - 48))
            (list_ascii_of_string s) 0.

Section Digits.

(** What Python's tables say of the strings the definitions below do
    not decide: [str.isdigit] of a string with a character outside
    ASCII, and [int] of a string that is not made of ASCII digits
    ([None] for its [ValueError]). *)
Variable unicode_isdigit : string -> bool.
Variable unicode_int : string -> option Z.

(** [s.isdigit()] *)
Definition isdigit (s : string) : bool :=
  if forallb is_ascii (list_ascii_of_string s) then ascii_digits s
  else unicode_isdigit s.

(** [int(s)] *)
Definition int (s : string) : option Z :=
  if ascii_digits s then Some (digits_value s) else unicode_int s.

(** [parse_ip] stands for [ipaddress.IPv4Address]: it gives the address
    a string denotes, if any. *)
Variable parse_ip : string -> option Z.

(** The loop over the arguments; [int(arg)] can raise. *)
Fixpoint parse_targets (arg_list : list string)
    (lists : list ttype * list pyval) : option (list ttype * list pyval) :=
  match arg_list with
  | [] => Some lists
  | arg :: rest =>
    let '(type_list, data_list) := lists in
    match parse_ip arg with
    | Some a => parse_targets rest (type_list ++ [T_IP], data_list ++ [PyStr a])
    | None =>
      if isdigit arg then
        let? n := int arg in
        if (n <? 0) || (65535 <? n) then parse_targets rest lists
        else parse_targets rest (type_list ++ [T_SN], data_list ++ [PyInt n])
      else parse_targets rest lists
    end
  end.

(** The targets named after a command. *)
Definition parse_arg_list (arg_list : list string)
  : option (list ttype * list pyval * nat) :=
  if existsb (String.eqb "a") arg_list || existsb (String.eqb "all") arg_list
  then Some ([T_ALL], [PyInt 0], 1%nat)
  else
    let? lists := parse_targets arg_list ([], []) in
    Some (fst lists, snd lists, length (fst lists)).

End Digits.

(** ** cmd_sendonly *)

Inductive sendonly_result :=
| Delegated_to_cmd_run
| Key_error
| Sent (log : list event).

Definition cmd_sendonly (cmd_msg : CmdMsg) (host_list : list (Z * HostItem))
  : sendonly_result :=
  let cmd_packet :=
    match cmd_command cmd_msg with
    | c_pause => Some cmd_pause
    | c_measure => Some cmd_measure
    | c_reboot => Some cmd_reboot
    | c_redirect => Some cmd_redirect
    | _ => None
    end in
  match cmd_packet with
  | None => Delegated_to_cmd_run
  | Some cmd_packet =>
    if negb (ports_given host_list) then Key_error
    else
    let sockets := create_sockets host_list in
    if bool_decide (T_ALL ∈ target_type cmd_msg) then
      Sent (map (fun '(ip, sock) =>
                   SendTo ip cmd_packet (broadcast sock) sensor_config_port)
                sockets)
    else
      Sent (flat_map (fun target =>
              flat_map (fun '(ip, sock) =>
                if is_in_subnet (ip_address target) ip (sock_subnet sock)
                then [SendTo ip cmd_packet (broadcast sock) sensor_config_port]
                else []) sockets)
              (target_list cmd_msg))
  end.

(** ** check_command *)

(** ['x' in s] for strings. *)
Definition contains (x s : string) : bool :=
  match String.index 0 x s with Some _ => true | None => false end.

Definition check_command (argv : list string) : bool :=
  if (length argv <? 2)%nat then false
  else
    let commands := filter (fun s => String.prefix "-" s = true) (List.tl argv) in
    let commands := filter (fun s => contains "-S" s = false) commands in
    let commands := filter (fun s => contains "-I" s = false) commands in
    let commands := filter (fun s => contains "-P" s = false) commands in
    if (1 <? length commands)%nat then false else true.


(** ** Sample data *)

Definition sample_hw_id : list Z := replicate 30 17.
Definition sample_fw_version : list Z := [5; 0; 1].

(** One interface, 192.168.5.2/24, data port 7256. *)
Definition host_5 : list (Z * HostItem) :=
  [(ipv4 192 168 5 2,
    {| port := [7256]; subnet := ipv4 255 255 255 0;
       config := ipv4 192 168 5 255 |})].

(** [-p 192.168.5.200] *)
Definition pause_by_ip : CmdMsg :=
  {| cmd_command := c_pause; target_type := [T_IP];
     target_list := [PyStr (ipv4 192 168 5 200)] |}.


(** ** Programs that talk to the network *)

(** A datagram as [recvfrom] returns it: the data and the sender's address. *)
Record datagram := mkDg { dg_data : list Z; dg_sender : Z }.

(** The state of a run: the number of questions asked to the environment
    so far, and the frames sent and datagrams received, oldest first. *)
Record io := mkIo { now : nat; trace : list event }.

Inductive result (A : Type) :=
| Done (a : A) (s : io)      (* returned *)
| OutOfFuel (s : io)         (* still looping when the fuel ran out *)
| Raised (s : io).           (* uncaught exception *)
Arguments Done {A} a s.
Arguments OutOfFuel {A} s.
Arguments Raised {A} s.

Definition M (A : Type) := io -> result A.

Definition ret {A} (a : A) : M A := fun s => Done a s.

Definition bind {A B} (m : M A) (k : A -> M B) : M B :=
  fun s =>
    match m s with
    | Done a s' => k a s'
    | OutOfFuel s' => OutOfFuel s'
    | Raised s' => Raised s'
    end.

Definition raise {A} : M A := fun s => Raised s.
Definition out_of_fuel {A} : M A := fun s => OutOfFuel s.

Declare Scope io_scope.
Delimit Scope io_scope with io.
Notation "'let!' x ':=' m 'in' k" := (bind m (fun x => k))
  (at level 10, x name, m at level 100, k at level 200, only parsing) : io_scope.
Local Open Scope io_scope.

(** [for x in l: s = body(x, s)] *)
Fixpoint for_each {A S : Type} (l : list A) (body : A -> S -> M S) (s : S) : M S :=
  match l with
  | [] => ret s
  | x :: l' => let! s' := body x s in for_each l' body s'
  end.

(** Lift a step that can only raise. *)
Definition try_ {A} (o : option A) : M A :=
  match o with
  | Some a => ret a
  | None => raise
  end.

(** [l[i] = v] on a list: [IndexError] past the end. *)
Definition list_set {A} (i : nat) (v : A) (l : list A) : option (list A) :=
  if (i <? length l)%nat then Some (<[i := v]> l) else None.

(** [len(data) == n + 8 and data[:6] == header] *)
Definition is_frame (n : nat) (header data : list Z) : bool :=
  (length data =? n + 8)%nat && bytes_eqb (take 6 data) header.

(** [cmd[8:10] = bytearray([sn % 256, sn // 256])] *)
Definition with_sn (cmd : list Z) (sn : Z) : option (list Z) :=
  let? b := bytearray [sn mod 256; sn / 256] in
  setslice 8 10 b cmd.

Section Programs.

(** The environment. [recvfrom ip port t] is what the non-blocking
    [recvfrom] on the data socket bound to [(ip, port)] returns when it
    is the [t]-th question of the run: a datagram, or [None] for the
    [OSError] of an empty buffer.  [is_enter_pressed t] likewise. *)
Variable recvfrom : Z -> Z -> nat -> option datagram.
Variable is_enter_pressed : nat -> bool.

Definition sendto (via : Z) (payload : list Z) (dst dport : Z) : M unit :=
  fun s => Done tt {| now := now s;
                      trace := trace s ++ [SendTo via payload dst dport] |}.

Definition recv (ip sock_port : Z) : M (option datagram) :=
  fun s =>
    let r := recvfrom ip sock_port (now s) in
    Done r {| now := S (now s);
              trace := trace s ++
                match r with
                | Some d => [RecvFrom ip sock_port (dg_data d) (dg_sender d)]
                | None => []
                end |}.

Definition enter_pressed : M bool :=
  fun s => Done (is_enter_pressed (now s))
                {| now := S (now s); trace := trace s |}.

(** [for ip, sock in sockets.items(): sock['config'].sendto(pkt,
    (sock['broadcast'], sensor_config_port))] *)
Definition broadcast_all (sockets : list (Z * Sock)) (pkt : list Z) : M unit :=
  for_each sockets
    (fun '(ip, sock) _ => sendto ip pkt (broadcast sock) sensor_config_port) tt.

(** [for ip, sock in sockets.items(): if is_in_subnet(dst, ip,
    sock['subnet']): sock['config'].sendto(pkt, (dst, sensor_config_port))] *)
Definition send_in_subnet (sockets : list (Z * Sock)) (pkt : list Z) (dst : Z)
  : M unit :=
  for_each sockets
    (fun '(ip, sock) _ =>
       if is_in_subnet dst ip (sock_subnet sock)
       then sendto ip pkt dst sensor_config_port
       else ret tt) tt.

(** *** Discovery by serial number ([cmd_config_run], [cmd_update_run]) *)

(** The lists a discovery loop updates.  [cmd_config_run] and
    [cmd_update_run] have no [target_type]; it is [[]] there. *)
Record Found := mkFound {
  f_target_type : list ttype;
  f_target_list : list pyval;
  recv_sn_list : list Z;
  recv_info_list : list (nat * InfoRecord)
}.

(** [if info_v2['sensor_sn'] in target_list: for target_idx, target in
    enumerate(target_list): if info_v2['sensor_sn'] == target and
    recv_sn_list[target_idx] == 0: ...] *)
Definition match_serial_at (sender : Z) (info_v2 : InfoRecord) (target_idx : nat)
    (st : Found) : option Found :=
  let? target := f_target_list st !! target_idx in
  if bool_decide (PyInt (sensor_sn info_v2) = target) then
    let? r := recv_sn_list st !! target_idx in
    if r =? 0 then
      let? sns := list_set target_idx (sensor_sn info_v2) (recv_sn_list st) in
      let? tgts := list_set target_idx (PyStr sender) (f_target_list st) in
      Some {| f_target_type := f_target_type st;
              f_target_list := tgts; recv_sn_list := sns;
              recv_info_list := recv_info_list st ++ [(target_idx, info_v2)] |}
    else Some st
  else Some st.

Definition on_info_by_serial (sender : Z) (info_v2 : InfoRecord) (st : Found)
  : option Found :=
  if bool_decide (PyInt (sensor_sn info_v2) ∈ f_target_list st) then
    for_range 0 (length (f_target_list st)) (match_serial_at sender info_v2) st
  else Some st.

(** The inner [while True] of the discovery loops: empty one data socket,
    handing every info frame to [on_info] and every other datagram to
    [on_other]. *)
Fixpoint drain {S : Type} (fuel : nat) (ip sock_port : Z)
    (on_info : Z -> InfoRecord -> S -> option S)
    (on_other : Z -> M unit) (st : S) : M S :=
  match fuel with
  | O => out_of_fuel
  | Datatypes.S fuel' =>
    let! r := recv ip sock_port in
    match r with
    | None => ret st
    | Some d =>
      if is_frame 166 info_v2_header (dg_data d) then
        let! info_v2 := try_ (decode_info_v2 (slice 6 172 (dg_data d))) in
        let! st' := try_ (on_info (dg_sender d) info_v2 st) in
        drain fuel' ip sock_port on_info on_other st'
      else
        let! _ := on_other (dg_sender d) in
        drain fuel' ip sock_port on_info on_other st
    end
  end.

(** One round of a discovery loop: on every interface, broadcast
    [cmd_read_info], then empty its data sockets. *)
Definition poll_all {S : Type} (fuel : nat) (sockets : list (Z * Sock))
    (on_info : Z -> InfoRecord -> S -> option S)
    (on_other : Z -> M unit) (st : S) : M S :=
  for_each sockets
    (fun '(ip, sock) st =>
       let! _ := sendto ip cmd_read_info (broadcast sock) sensor_config_port in
       for_each (data sock)
         (fun sock_port st => drain fuel ip sock_port on_info on_other st) st)
    st.

Inductive stop := Enter_key | Found_all.

(** [0 not in recv_sn_list] *)
Definition no_zero (l : list Z) : bool := negb (bool_decide (0 ∈ l)).

(** The discovery loop of [cmd_config_run] ([on_other] does nothing) and
    of [cmd_update_run] ([on_other] pauses the sender). *)
Fixpoint find_by_serial (fuel : nat) (sockets : list (Z * Sock))
    (on_other : Z -> M unit) (st : Found) : M (stop * Found) :=
  match fuel with
  | O => out_of_fuel
  | Datatypes.S fuel' =>
    let! e := enter_pressed in
    if e then ret (Enter_key, st)
    else
      let! st' := poll_all fuel sockets on_info_by_serial on_other st in
      if no_zero (recv_sn_list st') then ret (Found_all, st')
      else find_by_serial fuel' sockets on_other st'
  end.

(** *** cmd_update_run *)

(** An entry of [bin_list], with the content of the file it names. *)
Record BinItem := mkBin {
  fw_type : string;
  fw_version : list Z;
  bin_sensor_sn : Z;
  sensor_id_arr : list Z;
  payload : list Z
}.

Inductive skip_reason :=
| Not_in_argument_list
| Already_has_firmware
| Hw_id_mismatch
| Fw0_too_old
| Fail_to_safe_boot
| Locked.

Inductive outcome := Skipped (why : skip_reason) | Updated.

(** [flush_socket(sock)] *)
Fixpoint flush_socket (fuel : nat) (ip sock_port : Z) : M unit :=
  match fuel with
  | O => out_of_fuel
  | Datatypes.S fuel' =>
    let! r := recv ip sock_port in
    match r with
    | None => ret tt
    | Some d =>
      match dg_data d with
      | [] => ret tt
      | _ => flush_socket fuel' ip sock_port
      end
    end
  end.

(** **** Safe-boot recovery *)

(** The innermost [while error == True] of the recovery, on one data
    socket; returns [error]. *)
Fixpoint await_safe_boot_on (fuel : nat) (ip sock_port : Z) (item_sn : Z)
    (error : bool) : M bool :=
  match fuel with
  | O => out_of_fuel
  | Datatypes.S fuel' =>
    if negb error then ret error
    else
      let! r := recv ip sock_port in
      match r with
      | None => ret error
      | Some d =>
        if is_frame 166 info_v2_header (dg_data d) then
          let! retry_info := try_ (decode_info_v2 (slice 6 172 (dg_data d))) in
          if sensor_sn retry_info =? item_sn then
            if sensor_boot_ctrl retry_info =? 0 then ret false
            else ret error
          else await_safe_boot_on fuel' ip sock_port item_sn error
        else await_safe_boot_on fuel' ip sock_port item_sn error
      end
  end.

(** [while error == True: broadcast cmd_read_info; for sock_read in
    sock['data']: ...] *)
Fixpoint await_safe_boot (fuel : nat) (ip : Z) (sock : Sock) (item_sn : Z)
    (error : bool) : M bool :=
  match fuel with
  | O => out_of_fuel
  | Datatypes.S fuel' =>
    if negb error then ret error
    else
      let! _ := sendto ip cmd_read_info (broadcast sock) sensor_config_port in
      let! error := for_each (data sock)
          (fun sock_port error =>
             await_safe_boot_on fuel ip sock_port item_sn error) error in
      await_safe_boot fuel' ip sock item_sn error
  end.

(** [while tries > 0: ...; tries = tries - 1] *)
Fixpoint safe_boot_tries (fuel : nat) (tries : nat) (ip : Z) (sock : Sock)
    (target_ip item_sn : Z) (error : bool) : M (nat * bool) :=
  match tries with
  | O => ret (tries, error)
  | Datatypes.S tries' =>
    let! _ := sendto ip cmd_measure target_ip sensor_config_port in
    let! _ := sendto ip cmd_safe_boot (broadcast sock) sensor_config_port in
    let! error := await_safe_boot fuel ip sock item_sn error in
    safe_boot_tries fuel tries' ip sock target_ip item_sn error
  end.

(** The re-try block entered when [sensor_boot_ctrl != 0]; returns
    [error]. *)
Definition safe_boot_recovery (fuel : nat) (sockets : list (Z * Sock))
    (target_ip item_sn : Z) : M bool :=
  let tries := 3%nat in
  let error := true in
  let! r := for_each sockets
    (fun '(ip, sock) '(tries, error) =>
       if is_in_subnet target_ip ip (sock_subnet sock)
       then safe_boot_tries fuel tries ip sock target_ip item_sn error
       else ret (tries, error))
    (tries, error) in
  ret (snd r).

(** **** The flash_start handshake *)

(** [all(byte == 0 for byte in flash_ack[8:40])] *)
Definition is_all_zero (flash_ack : list Z) : bool :=
  forallb (fun byte => byte =? 0) (slice 8 40 flash_ack).

(** The ack-reading loop of the handshake on one data socket.  The state
    is [(success, flash_ack)]; [last_config] is the interface whose
    config socket the variable [sockConfig] still names. *)
Fixpoint read_start_ack (fuel : nat) (ip sock_port : Z) (target_ip : Z)
    (last_config : Z) (st : bool * option (list Z)) : M (bool * option (list Z)) :=
  match fuel with
  | O => out_of_fuel
  | Datatypes.S fuel' =>
    if fst st then ret st
    else
      let! r := recv ip sock_port in
      match r with
      | None => ret st
      | Some d =>
        let st := (fst st, Some (dg_data d)) in
        if negb (dg_sender d =? target_ip) then
          let! _ := sendto last_config cmd_pause (dg_sender d) sensor_config_port in
          read_start_ack fuel' ip sock_port target_ip last_config st
        else if is_frame 34 ack_header (dg_data d)
                && is_all_zero (dg_data d)
        then ret (true, Some (dg_data d))
        else read_start_ack fuel' ip sock_port target_ip last_config st
      end
  end.

(** [while success == False: ...]; [last] names the sockets left in
    [sockData] and [sockConfig] by the socket-creation loop. *)
Fixpoint flash_start_handshake (fuel : nat) (sockets : list (Z * Sock))
    (last : option (Z * Z)) (target_ip sn : Z)
    (st : bool * option (list Z)) : M (bool * option (list Z)) :=
  match fuel with
  | O => out_of_fuel
  | Datatypes.S fuel' =>
    if fst st then ret st
    else
      let! pkt := try_ (with_sn cmd_flash_start sn) in
      let! st := for_each sockets
        (fun '(ip, sock) st =>
           if is_in_subnet target_ip ip (sock_subnet sock) then
             let! _ := sendto ip pkt target_ip sensor_config_port in
             let! l := try_ last in
             let! _ := flush_socket fuel (fst l) (snd l) in
             for_each (data sock)
               (fun sock_port st =>
                  read_start_ack fuel ip sock_port target_ip (fst l) st) st
           else ret st) st in
      flash_start_handshake fuel' sockets last target_ip sn st
  end.

(** **** The block transfer *)

(** The ack-reading loop of a block on one data socket; the state is the
    variable [flash_ack]. *)
Fixpoint read_block_ack (fuel : nat) (ip : Z) (sock : Sock) (sock_port : Z)
    (target_ip : Z) (flash_ack : option (list Z)) : M (option (list Z)) :=
  match fuel with
  | O => out_of_fuel
  | Datatypes.S fuel' =>
    let! r := recv ip sock_port in
    match r with
    | None => ret flash_ack
    | Some d =>
      let flash_ack := Some (dg_data d) in
      if negb (dg_sender d =? target_ip) then
        let! _ := sendto ip cmd_pause (broadcast sock) sensor_config_port in
        read_block_ack fuel' ip sock sock_port target_ip flash_ack
      else if is_frame 34 ack_header (dg_data d) then ret flash_ack
      else read_block_ack fuel' ip sock sock_port target_ip flash_ack
    end
  end.

(** [(flash_ack[8 + (_o // 8)] >> (_o % 8)) & 0x01] *)
Definition ack_bit (flash_ack : list Z) (_o : Z) : option Z :=
  let? b := flash_ack !! Z.to_nat (8 + _o / 8) in
  Some (Z.land (Z.shiftr b (_o mod 8)) 1).

(** The [while True] that sends one block until it is acknowledged. *)
Fixpoint send_block (fuel : nat) (sockets : list (Z * Sock)) (target_ip : Z)
    (_o : Z) (flash_block : list Z) (flash_ack : option (list Z))
  : M (option (list Z)) :=
  match fuel with
  | O => out_of_fuel
  | Datatypes.S fuel' =>
    let! _ := send_in_subnet sockets flash_block target_ip in
    let! flash_ack := for_each sockets
      (fun '(ip, sock) flash_ack =>
         if is_in_subnet target_ip ip (sock_subnet sock) then
           for_each (data sock)
             (fun sock_port flash_ack =>
                read_block_ack fuel ip sock sock_port target_ip flash_ack)
             flash_ack
         else ret flash_ack) flash_ack in
    let! ack := try_ flash_ack in
    if is_frame 34 ack_header ack then
      if _o <? 256 then
        let! bit := try_ (ack_bit ack _o) in
        if bit =? 0 then
          send_block fuel' sockets target_ip _o flash_block flash_ack
        else ret flash_ack
      else send_block fuel' sockets target_ip _o flash_block flash_ack
    else send_block fuel' sockets target_ip _o flash_block flash_ack
  end.

(** [for _o in range(256): ...], from block [_o] on, [n] blocks. *)
Fixpoint block_transfer (fuel : nat) (sockets : list (Z * Sock))
    (target_ip : Z) (hw_id fw : list Z) (file : File) (_o : Z) (n : nat)
    (flash_ack : option (list Z)) : M (option (list Z)) :=
  match n with
  | O => ret flash_ack
  | Datatypes.S n' =>
    let (read_bin_data, file') := file_read 1024 file in
    let! flash_block := try_ (build_flash_block hw_id fw _o read_bin_data) in
    let! flash_ack :=
      send_block fuel sockets target_ip _o flash_block flash_ack in
    block_transfer fuel sockets target_ip hw_id fw file' (_o + 1) n' flash_ack
  end.

(** **** flash_finish and verification *)

Definition is_status (data : list Z) : bool :=
  is_frame 28 status_header data || is_frame 312 status_full_header data.

(** The inner [while True] of the verification loop on one data socket;
    the state is [success]. *)
Fixpoint read_finish (fuel : nat) (ip sock_port : Z) (target_ip : Z)
    (finish_pkt fw : list Z) (success : bool) : M bool :=
  match fuel with
  | O => out_of_fuel
  | Datatypes.S fuel' =>
    let! r := recv ip sock_port in
    match r with
    | None => ret success
    | Some d =>
      if negb (dg_sender d =? target_ip) then
        let! _ := sendto ip cmd_pause (dg_sender d) sensor_config_port in
        read_finish fuel' ip sock_port target_ip finish_pkt fw success
      else if is_status (dg_data d) then
        let! _ := sendto ip cmd_read_info target_ip sensor_config_port in
        read_finish fuel' ip sock_port target_ip finish_pkt fw success
      else if is_frame 166 info_v2_header (dg_data d) then
        let! reread_info_v2 :=
          try_ (decode_info_v2 (slice 6 172 (dg_data d))) in
        if bool_decide (sensor_fw1_ver reread_info_v2 = fw) then ret true
        else
          let! _ := sendto ip finish_pkt target_ip sensor_config_port in
          ret success
      else read_finish fuel' ip sock_port target_ip finish_pkt fw success
    end
  end.

(** [while success == False: ...] *)
Fixpoint await_finish (fuel : nat) (sockets : list (Z * Sock)) (target_ip : Z)
    (finish_pkt fw : list Z) (success : bool) : M bool :=
  match fuel with
  | O => out_of_fuel
  | Datatypes.S fuel' =>
    if success then ret success
    else
      let! success := for_each sockets
        (fun '(ip, sock) success =>
           if is_in_subnet target_ip ip (sock_subnet sock) then
             for_each (data sock)
               (fun sock_port success =>
                  read_finish fuel ip sock_port target_ip finish_pkt fw success)
               success
           else ret success) success in
      await_finish fuel' sockets target_ip finish_pkt fw success
  end.

(** **** One sensor *)

(** The socket whose name is left in [sockData] (and the interface of
    [sockConfig]) once the sockets are created: the last one. *)
Definition last_sock (sockets : list (Z * Sock)) : option (Z * Z) :=
  let? e := last sockets in
  let? p := last (data (snd e)) in
  Some (fst e, p).

(** [fw_ver[2] * 10000 + fw_ver[1] * 100 + fw_ver[0]] *)
Definition fw_ver_number (fw_ver : list Z) : option Z :=
  let? major := fw_ver !! 2%nat in
  let? minor := fw_ver !! 1%nat in
  let? patch := fw_ver !! 0%nat in
  Some (major * 10000 + minor * 100 + patch).

(** The body of [if info[1]['sensor_sn'] == item['sensor_sn']:] for the
    sensor found at [target_ip] with the live record [info]; a [break]
    is [Skipped]. *)
Definition update_sensor (fuel : nat) (forced_update : bool)
    (arg_target_type : list ttype) (arg_target_list : list pyval)
    (sockets : list (Z * Sock)) (item : BinItem) (info : InfoRecord)
    (target_ip recv_sn : Z) : M outcome :=
  let! t0 := try_ (arg_target_type !! 0%nat) in
  if negb (bool_decide (t0 = T_ALL))
     && negb (bool_decide (PyStr target_ip ∈ arg_target_list))
     && negb (bool_decide (PyInt recv_sn ∈ arg_target_list))
  then ret (Skipped Not_in_argument_list)
  else
  (* Send cmd_pause to all *)
  let! _ := broadcast_all sockets cmd_pause in
  (* Check the firmware version *)
  if bool_decide (sensor_fw1_ver info = fw_version item) && negb forced_update
  then ret (Skipped Already_has_firmware)
  else
  (* Check the first 12-bytes H/W ID *)
  if negb (bool_decide (slice 0 12 (sensor_hw_id info) = sensor_id_arr item))
  then ret (Skipped Hw_id_mismatch)
  else
  (* Check the supported bootloader (FW0) version *)
  let! fw_ver := try_ (fw_ver_number (sensor_fw_ver info)) in
  if fw_ver <? 10504 then ret (Skipped Fw0_too_old)
  else
  (* Check the target is in safeboot mode *)
  let! error :=
    (if negb (sensor_boot_ctrl info =? 0)
     then safe_boot_recovery fuel sockets target_ip (bin_sensor_sn item)
     else ret false) in
  if error then ret (Skipped Fail_to_safe_boot)
  else
  (* Check the configuration locker *)
  if negb (lock info =? 0) then ret (Skipped Locked)
  else
  (* Send cmd_flash_start *)
  let! st := flash_start_handshake fuel sockets (last_sock sockets)
               target_ip (sensor_sn info) (false, None) in
  (* Send firmware data by using flash_block message *)
  let! _ := block_transfer fuel sockets target_ip (sensor_hw_id info)
              (fw_version item) {| content := payload item; pos := 0 |}
              0 256 (snd st) in
  (* Send cmd_flash_finish *)
  let! finish_pkt := try_ (with_sn cmd_flash_finish (sensor_sn info)) in
  let! _ := send_in_subnet sockets finish_pkt target_ip in
  let! _ := await_finish fuel sockets target_ip finish_pkt
              (fw_version item) false in
  (* Send cmd_pause to the sensor *)
  let! _ := send_in_subnet sockets cmd_pause target_ip in
  ret Updated.

(** [for info in recv_info_list: if info[1]['sensor_sn'] ==
    item['sensor_sn']: ...]; the state is [(sensor_updated,
    sensor_skipped)]. *)
Fixpoint update_from_infos (fuel : nat) (forced_update : bool)
    (arg_target_type : list ttype) (arg_target_list : list pyval)
    (sockets : list (Z * Sock)) (item : BinItem) (target : pyval)
    (recv_sn : Z) (infos : list (nat * InfoRecord))
    (res : list Z * list Z) : M (list Z * list Z) :=
  match infos with
  | [] => ret res
  | info :: rest =>
    if sensor_sn (snd info) =? bin_sensor_sn item then
      match target with
      | PyInt _ => raise
      | PyStr target_ip =>
        let! o := update_sensor fuel forced_update arg_target_type
                    arg_target_list sockets item (snd info) target_ip recv_sn in
        match o with
        | Skipped _ => ret (fst res, snd res ++ [bin_sensor_sn item])
        | Updated =>
          update_from_infos fuel forced_update arg_target_type arg_target_list
            sockets item target recv_sn rest
            (fst res ++ [bin_sensor_sn item], snd res)
        end
      end
    else
      update_from_infos fuel forced_update arg_target_type arg_target_list
        sockets item target recv_sn rest res
  end.

(** [any(recv_sn_list)] *)
Definition any_nonzero (l : list Z) : bool := existsb (fun sn => negb (sn =? 0)) l.

(** [list(set([x for x in l if l.count(x) > 1]))] is not empty *)
Definition has_duplicates (l : list Z) : bool :=
  existsb (fun x => (1 <? length (filter (fun y => y = x) l))%nat) l.

(** When a sender of something that is not an info frame is heard while
    sensors are looked for, it is paused. *)
Definition pause_sender (sockets : list (Z * Sock)) (sender : Z) : M unit :=
  send_in_subnet sockets cmd_pause sender.

Definition cmd_update_run (fuel : nat) (forced_update : bool) (cmd_msg : CmdMsg)
    (host_list : list (Z * HostItem)) (bin_list : list BinItem)
  : M (list Z * list Z) :=
  let arg_target_type := target_type cmd_msg in
  let arg_target_list := target_list cmd_msg in
  match bin_list with
  | [] => ret ([], [])
  | _ =>
    let target_list := map bin_sensor_sn bin_list in
    if has_duplicates target_list then ret ([], [])
    else if negb (ports_given host_list) then raise
    else
      let sockets := create_sockets host_list in
      (* Send cmd_measure to get LiDARs *)
      let! _ := broadcast_all sockets cmd_measure in
      (* Send cmd_safe_boot to all *)
      let! _ := broadcast_all sockets cmd_safe_boot in
      (* Start to find lidars *)
      let! found := find_by_serial fuel sockets (pause_sender sockets)
          {| f_target_type := [];
             f_target_list := map PyInt target_list;
             recv_sn_list := replicate (length bin_list) 0;
             recv_info_list := [] |} in
      let st := snd found in
      if negb (any_nonzero (recv_sn_list st)) then ret ([], [])
      else
        let! _ := broadcast_all sockets cmd_pause in
        let! res := for_each (imap (fun bin_idx item => (bin_idx, item)) bin_list)
          (fun '(bin_idx, item) res =>
             let! recv_sn := try_ (recv_sn_list st !! bin_idx) in
             if negb (recv_sn =? 0) then
               let! target := try_ (f_target_list st !! bin_idx) in
               update_from_infos fuel forced_update arg_target_type
                 arg_target_list sockets item target recv_sn
                 (recv_info_list st) res
             else ret res)
          ([], []) in
        (* Send cmd_reboot to all *)
        let! _ := broadcast_all sockets cmd_reboot in
        ret res
  end.

(** *** cmd_run *)

(** The [ALL] branch: a serial not seen yet gets a new slot. *)
Definition add_sensor (sender : Z) (info_v2 : InfoRecord) (st : Found) : Found :=
  if bool_decide (sensor_sn info_v2 ∈ recv_sn_list st) then st
  else {| f_target_type := f_target_type st;
          f_target_list := f_target_list st ++ [PyStr sender];
          recv_sn_list := recv_sn_list st ++ [sensor_sn info_v2];
          recv_info_list :=
            recv_info_list st ++ [(length (recv_sn_list st), info_v2)] |}.

(** The serial branch: as in the other loops, and the slot becomes an
    ['IP'] slot. *)
Definition match_serial_typed_at (sender : Z) (info_v2 : InfoRecord)
    (target_idx : nat) (st : Found) : option Found :=
  let? target := f_target_list st !! target_idx in
  if bool_decide (PyInt (sensor_sn info_v2) = target) then
    let? r := recv_sn_list st !! target_idx in
    if r =? 0 then
      let? sns := list_set target_idx (sensor_sn info_v2) (recv_sn_list st) in
      let? tgts := list_set target_idx (PyStr sender) (f_target_list st) in
      let? types := list_set target_idx T_IP (f_target_type st) in
      Some {| f_target_type := types;
              f_target_list := tgts; recv_sn_list := sns;
              recv_info_list := recv_info_list st ++ [(target_idx, info_v2)] |}
    else Some st
  else Some st.

(** The address branch: [if sender[0] == target and
    recv_sn_list[target_idx] == 0] *)
Definition match_sender_at (sender : Z) (info_v2 : InfoRecord)
    (target_idx : nat) (st : Found) : option Found :=
  let? target := f_target_list st !! target_idx in
  if bool_decide (PyStr sender = target) then
    let? r := recv_sn_list st !! target_idx in
    if r =? 0 then
      let? sns := list_set target_idx (sensor_sn info_v2) (recv_sn_list st) in
      Some {| f_target_type := f_target_type st;
              f_target_list := f_target_list st; recv_sn_list := sns;
              recv_info_list := recv_info_list st ++ [(target_idx, info_v2)] |}
    else Some st
  else Some st.

Definition on_info_cmd_run (sender : Z) (info_v2 : InfoRecord) (st : Found)
  : option Found :=
  let? t0 := f_target_type st !! 0%nat in
  if bool_decide (t0 = T_ALL) then Some (add_sensor sender info_v2 st)
  else if bool_decide (PyInt (sensor_sn info_v2) ∈ f_target_list st) then
    for_range 0 (length (f_target_list st))
      (match_serial_typed_at sender info_v2) st
  else if bool_decide (PyStr sender ∈ f_target_list st) then
    for_range 0 (length (f_target_list st)) (match_sender_at sender info_v2) st
  else Some st.

(** [target_type[0] != 'ALL' and 0 not in recv_sn_list] *)
Definition all_found (st : Found) : option bool :=
  let? t0 := f_target_type st !! 0%nat in
  Some (negb (bool_decide (t0 = T_ALL)) && no_zero (recv_sn_list st)).

Fixpoint find_targets (fuel : nat) (sockets : list (Z * Sock)) (st : Found)
  : M (stop * Found) :=
  match fuel with
  | O => out_of_fuel
  | Datatypes.S fuel' =>
    let! e := enter_pressed in
    if e then ret (Enter_key, st)
    else
      let! st' := poll_all fuel sockets on_info_cmd_run (fun _ => ret tt) st in
      let! done := try_ (all_found st') in
      if done then ret (Found_all, st')
      else find_targets fuel' sockets st'
  end.

(** The command frame of [cmd_run]; a name never bound is [None]. *)
Definition cmd_packet_of (c : command) : option (list Z) :=
  match c with
  | c_info => Some cmd_read_info
  | c_pause => Some cmd_pause
  | c_measure => Some cmd_measure
  | c_lock => Some cmd_lock
  | c_unlock => Some cmd_unlock
  | c_reboot => Some cmd_reboot
  | c_redirect => Some cmd_redirect
  | c_reset => Some cmd_reset_factory
  | _ => None
  end.

(** [for recv_sn_idx, recv_sn in enumerate(recv_sn_list): if recv_sn !=
    0: ...]; the state is the frame [cmd_packet], rewritten in place. *)
Definition dispatch (sockets : list (Z * Sock)) (st : Found)
    (cmd_packet : option (list Z)) : M (option (list Z)) :=
  for_each (imap (fun recv_sn_idx recv_sn => (recv_sn_idx, recv_sn))
                 (recv_sn_list st))
    (fun '(recv_sn_idx, recv_sn) cmd_packet =>
       if negb (recv_sn =? 0) then
         let! pkt := try_ cmd_packet in
         let! pkt := try_ (with_sn pkt recv_sn) in
         let! _ := for_each sockets
           (fun '(ip, sock) _ =>
              let! target := try_ (f_target_list st !! recv_sn_idx) in
              if is_in_subnet (ip_address target) ip (sock_subnet sock) then
                match target with
                | PyStr dst => sendto ip pkt dst sensor_config_port
                | PyInt _ => raise
                end
              else ret tt) tt in
         ret (Some pkt)
       else ret cmd_packet)
    cmd_packet.

(** [# Check target] *)
Definition initial_found (cmd_msg : CmdMsg) : Found :=
  if bool_decide (T_ALL ∈ target_type cmd_msg) then
    {| f_target_type := target_type cmd_msg; f_target_list := [];
       recv_sn_list := []; recv_info_list := [] |}
  else
    {| f_target_type := target_type cmd_msg;
       f_target_list := target_list cmd_msg;
       recv_sn_list := replicate (length (target_list cmd_msg)) 0;
       recv_info_list := [] |}.

Definition cmd_run (fuel : nat) (cmd_msg : CmdMsg)
    (host_list : list (Z * HostItem)) : M unit :=
  let st := initial_found cmd_msg in
  let cmd_packet := cmd_packet_of (cmd_command cmd_msg) in
  if negb (ports_given host_list) then raise
  else
  let sockets := create_sockets host_list in
  let! found := find_targets fuel sockets st in
  let st := snd found in
  if negb (any_nonzero (recv_sn_list st)) then ret tt
  else if bool_decide (cmd_command cmd_msg = c_info) then ret tt
  else let! _ := dispatch sockets st cmd_packet in ret tt.

End Programs.


(** ** Scenarios *)

(** A sensor as it answers [cmd_read_info]: [sample_info] with the given
    serial, slot-1 version, boot mode and lock. *)
Definition live (sn : Z) (fw1 : list Z) (boot_ctrl_ lock_ : Z) : InfoRecord :=
  let r := sample_info in
  mkInfo (ilidar_version r) sn (sensor_hw_id r) (sensor_fw_ver r)
    (sensor_fw_date r) (sensor_fw_time r) (sensor_calib_id r)
    (sensor_fw0_ver r) fw1 (sensor_fw2_ver r) (sensor_model_id r) boot_ctrl_
    (capture_mode r) (capture_row r) (capture_shutter r) (capture_limit r)
    (capture_period_us r) (capture_seq r) (data_output r) (data_baud r)
    (data_sensor_ip r) (data_dest_ip r) (data_subnet r) (data_gateway r)
    (data_port r) (data_mac_addr r) (sync r) (sync_trig_delay_us r)
    (sync_ill_delay_us r) (sync_trig_trim_us r) (sync_ill_trim_us r)
    (sync_output_delay_us r) (arb r) (arb_timeout r) lock_.

Definition live_456 : list Z -> Z -> Z -> InfoRecord := live 456.

(** The 166 bytes a sensor puts on the wire for its record: unlike
    [encode_info_v2] it fills in the identity fields and the lock. *)
Definition sensor_bytes (r : InfoRecord) : list Z :=
  [sensor_sn r mod 256; sensor_sn r / 256]
  ++ sensor_hw_id r ++ sensor_fw_ver r ++ sensor_fw_date r ++ sensor_fw_time r
  ++ [byte_at (sensor_calib_id r) 0; byte_at (sensor_calib_id r) 8;
      byte_at (sensor_calib_id r) 16; byte_at (sensor_calib_id r) 24]
  ++ sensor_fw0_ver r ++ sensor_fw1_ver r ++ sensor_fw2_ver r
  ++ [sensor_model_id r; sensor_boot_ctrl r]
  ++ match encode_info_v2 r with
     | Some b => slice 71 165 b
     | None => []
     end
  ++ [lock r].

Definition info_frame (r : InfoRecord) : list Z :=
  info_v2_header ++ sensor_bytes r ++ tail.

(** An ack frame: header, two bytes, the 32-byte bitmap, tail. *)
Definition ack_frame (bitmap : list Z) : list Z :=
  ack_header ++ [0; 0] ++ bitmap ++ tail.

(** The bitmap in which exactly the blocks [0 .. k] are marked; [k = -1]
    marks none. *)
Definition bitmap_upto (k : Z) : list Z :=
  map (fun j : nat =>
         let lo := 8 * Z.of_nat j in
         if lo + 8 <=? k + 1 then 255
         else if k + 1 <=? lo then 0
         else 2 ^ (k + 1 - lo) - 1)
      (seq 0 32).

Definition sensor_ip_200 : Z := ipv4 192 168 5 200.
Definition sensor_ip_201 : Z := ipv4 192 168 5 201.

(** [lidar_user_1_0_5_456_<hw>.bin], three bytes long. *)
Definition bin_456 : BinItem :=
  {| fw_type := "user"; fw_version := sample_fw_version; bin_sensor_sn := 456;
     sensor_id_arr := replicate 12 17; payload := [1; 2; 3] |}.

Definition start : io := {| now := 0; trace := [] |}.

(** Nothing ever arrives. *)
Definition silent : Z -> Z -> nat -> option datagram := fun _ _ _ => None.

(** The sensor at 192.168.5.200 answers as the protocol expects: the
    all-zero ack of the handshake, then after every block the bitmap with
    that block marked, and after [flash_finish] its record with the new
    slot-1 version. *)
Definition cooperative : Z -> Z -> nat -> option datagram :=
  fun _ _ t =>
    if (t =? 0)%nat then None
    else if (t <=? 257)%nat then
      Some {| dg_data := ack_frame (bitmap_upto (Z.of_nat t - 2));
              dg_sender := sensor_ip_200 |}
    else if (t =? 258)%nat then
      Some {| dg_data := info_frame (live_456 sample_fw_version 0 0);
              dg_sender := sensor_ip_200 |}
    else None.

(** The sensor at 192.168.5.200 acknowledges the handshake and then stays
    silent; the only other datagram is an ack-shaped frame from
    192.168.5.201 in which bit 0 is set. *)
Definition foreign_ack : Z -> Z -> nat -> option datagram :=
  fun _ _ t =>
    if (t =? 1)%nat then
      Some {| dg_data := ack_frame (bitmap_upto (-1)); dg_sender := sensor_ip_200 |}
    else if (t =? 2)%nat then
      Some {| dg_data := ack_frame (bitmap_upto 0); dg_sender := sensor_ip_201 |}
    else None.

(** What an event is, for reading traces. *)
Inductive kind :=
| K_cmd (opcode : list Z) (sn : list Z) (dst : Z)
| K_block (index : option Z) (dst : Z)
| K_info_frame (dst : Z)
| K_other_send
| K_ack (sender : Z) (bitmap : list Z)
| K_info (sender : Z) (fw1 : list Z)
| K_other_recv (sender : Z).

Definition kind_of (e : event) : kind :=
  match e with
  | SendTo _ p dst _ =>
    if is_frame 4 (take 6 cmd_pause) p then K_cmd (slice 6 8 p) (slice 8 10 p) dst
    else if is_frame 1062 flash_block_headder p then K_block (p !! 38%nat) dst
    else if is_frame 166 info_v2_header p then K_info_frame dst
    else K_other_send
  | RecvFrom _ _ p sender =>
    if is_frame 34 ack_header p then K_ack sender (slice 8 40 p)
    else if is_frame 166 info_v2_header p then K_info sender (slice 69 72 p)
    else K_other_recv sender
  end.

Definition final {A} (r : result A) : io :=
  match r with
  | Done _ s => s
  | OutOfFuel s => s
  | Raised s => s
  end.

(** The events of a full transfer of blocks [o .. o + n - 1] to a sensor
    that acknowledges each block at once. *)
Fixpoint transfer_kinds (dst : Z) (o : Z) (n : nat) : list kind :=
  match n with
  | O => []
  | S n' =>
    K_block (Some o) dst :: K_ack dst (bitmap_upto o)
    :: transfer_kinds dst (o + 1) n'
  end.

Definition sockets_5 : list (Z * Sock) := create_sockets host_5.
Definition broadcast_5 : Z := ipv4 192 168 5 255.

(** [--update all] / [--overwrite all] *)
Definition all_targets : CmdMsg :=
  {| cmd_command := c_update; target_type := [T_ALL]; target_list := [PyInt 0] |}.

(** [-p 0]: the serial 0 as only target. *)
Definition pause_serial_zero : CmdMsg :=
  {| cmd_command := c_pause; target_type := [T_SN]; target_list := [PyInt 0] |}.

(** A sensor with the serial 0 at 192.168.5.200 answers every
    [cmd_read_info] (the loop asks three questions per round: the key, the
    socket, the socket again); nobody else is there. *)
Definition sensor_zero_answers : Z -> Z -> nat -> option datagram :=
  fun _ _ t =>
    if (t mod 3 =? 1)%nat then
      Some {| dg_data := info_frame (live 0 [4; 0; 1] 0 0);
              dg_sender := sensor_ip_200 |}
    else None.

(** Two sensors share 192.168.5.200, one with the serial 0 and one with
    the serial 5: the first round is answered by the first, every later
    round by the second. *)
Definition serial_0_then_5 : Z -> Z -> nat -> option datagram :=
  fun _ _ t =>
    if (t mod 3 =? 1)%nat then
      Some {| dg_data := info_frame (live (if (t <? 3)%nat then 0 else 5)
                                          [4; 0; 1] 0 0);
              dg_sender := sensor_ip_200 |}
    else None.

Definition never_pressed : nat -> bool := fun _ => false.


(** ** Eligibility *)

(** The checks of [cmd_update_run] that come before the boot-mode check:
    the sensor is among the arguments, its slot-1 version differs from the
    file's unless the update is forced, the first 12 bytes of its hardware
    id are the file's, and its FW0 is at least V1.5.4. *)
Definition eligible (forced_update : bool) (arg_target_type : list ttype)
    (arg_target_list : list pyval) (item : BinItem) (info : InfoRecord)
    (target_ip recv_sn : Z) : bool :=
  match arg_target_type !! 0%nat, fw_ver_number (sensor_fw_ver info) with
  | Some t0, Some fw_ver =>
    (bool_decide (t0 = T_ALL)
     || bool_decide (PyStr target_ip ∈ arg_target_list)
     || bool_decide (PyInt recv_sn ∈ arg_target_list))
    && (negb (bool_decide (sensor_fw1_ver info = fw_version item)) || forced_update)
    && bool_decide (slice 0 12 (sensor_hw_id info) = sensor_id_arr item)
    && (10504 <=? fw_ver)
  | _, _ => false
  end.

(** The frames of [for ip, sock in sockets.items(): sendto(pkt,
    (sock['broadcast'], sensor_config_port))]. *)
Definition broadcasts (sockets : list (Z * Sock)) (pkt : list Z) : list event :=
  map (fun '(ip, sock) => SendTo ip pkt (broadcast sock) sensor_config_port)
      sockets.

(** A [cmd_flash_start] frame, whatever the serial in it. *)
Definition is_flash_start (e : event) : bool :=
  match e with
  | SendTo _ p _ _ => bytes_eqb (take 8 p) (take 8 cmd_flash_start)
  | RecvFrom _ _ _ _ => false
  end.

(** A flash-block frame. *)
Definition is_flash_block (e : event) : bool :=
  match e with
  | SendTo _ p _ _ => bytes_eqb (take 6 p) flash_block_headder
  | RecvFrom _ _ _ _ => false
  end.


(** ** Slots *)

(** The address [a] answers [cmd_read_info] with the serial [v]: some info
    frame the environment delivers comes from [a] and decodes to [v]. *)
Definition reports (recvfrom : Z -> Z -> nat -> option datagram) (a v : Z) : Prop :=
  exists ip sock_port t d r,
    recvfrom ip sock_port t = Some d /\
    is_frame 166 info_v2_header (dg_data d) = true /\
    decode_info_v2 (slice 6 172 (dg_data d)) = Some r /\
    dg_sender d = a /\ sensor_sn r = v.

Section Slots.

Variable recvfrom : Z -> Z -> nat -> option datagram.

(** The sensor at [a] has the serial 0: it never reports another one. *)
Definition only_zero (a : Z) : Prop := forall v, reports recvfrom a v -> v = 0.

(** A slot whose entry is 0 and that waits for the serial 0. *)
Definition waits_for_serial_zero (st : Found) : Prop :=
  exists idx,
    recv_sn_list st !! idx = Some 0 /\ f_target_list st !! idx = Some (PyInt 0).

(** A slot whose entry is 0 and that waits for an address whose sensor has
    the serial 0. *)
Definition waits_for_zero_address (st : Found) : Prop :=
  exists idx a,
    recv_sn_list st !! idx = Some 0 /\
    f_target_list st !! idx = Some (PyStr a) /\ only_zero a.

(** A slot that the loops of [cmd_config_run] and [cmd_update_run] never
    fill: its entry is 0 and it waits for the serial 0, or it has taken an
    address already. *)
Definition stuck_at_zero (st : Found) : Prop :=
  exists idx,
    recv_sn_list st !! idx = Some 0 /\
    (f_target_list st !! idx = Some (PyInt 0) \/
     exists a, f_target_list st !! idx = Some (PyStr a)).

(** Every filled slot holds an address that reported the serial in its
    entry. *)
Definition slots_ok (st : Found) : Prop :=
  length (recv_sn_list st) = length (f_target_list st) /\
  forall idx v, recv_sn_list st !! idx = Some v -> v <> 0 ->
    exists a, f_target_list st !! idx = Some (PyStr a) /\ reports recvfrom a v.

(** An event of [cmd_run] is a datagram received, the [cmd_read_info]
    broadcast of the discovery, or a frame sent to an address that reported
    a non-zero serial. *)
Definition to_nonzero_serial (sockets : list (Z * Sock)) (e : event) : Prop :=
  match e with
  | RecvFrom _ _ _ _ => True
  | SendTo ip pkt dst dport =>
    (exists sock, (ip, sock) ∈ sockets /\ pkt = cmd_read_info /\
                  dst = broadcast sock)
    \/ exists v, v <> 0 /\ reports recvfrom dst v
  end.

End Slots.

(** What the serial branch may do to the lists with one info frame:
    nothing, or write the serial into a slot whose entry is 0 and that
    waits for this serial; the slot then takes the sender's address. *)
Inductive serial_effect (sender sn : Z) (st st' : Found) : Prop :=
| seff_none : st' = st -> serial_effect sender sn st st'
| seff_serial idx :
    recv_sn_list st !! idx = Some 0 ->
    f_target_list st !! idx = Some (PyInt sn) ->
    recv_sn_list st' = <[idx := sn]> (recv_sn_list st) ->
    f_target_list st' = <[idx := PyStr sender]> (f_target_list st) ->
    serial_effect sender sn st st'.

(** What [cmd_run] may do besides: write the serial into a slot whose
    entry is 0 and that waits for this sender, or, with [all], open a slot
    for a new serial. *)
Inductive effect (sender sn : Z) (st st' : Found) : Prop :=
| eff_serial : serial_effect sender sn st st' -> effect sender sn st st'
| eff_sender idx :
    recv_sn_list st !! idx = Some 0 ->
    f_target_list st !! idx = Some (PyStr sender) ->
    recv_sn_list st' = <[idx := sn]> (recv_sn_list st) ->
    f_target_list st' = f_target_list st ->
    effect sender sn st st'
| eff_new :
    sn ∉ recv_sn_list st ->
    recv_sn_list st' = recv_sn_list st ++ [sn] ->
    f_target_list st' = f_target_list st ++ [PyStr sender] ->
    effect sender sn st st'.

(** Reflexive and transitive closure of a step on the lists. *)
Inductive steps (step : Found -> Found -> Prop) : Found -> Found -> Prop :=
| steps_refl st : steps step st st
| steps_step st1 st2 st3 :
    steps step st1 st2 -> step st2 st3 -> steps step st1 st3.


(** ** Definitions used by the proofs *)

(** [f] holds on the [n] integers from [lo] on. *)
Fixpoint Z_range_forallb (f : Z -> bool) (lo : Z) (n : nat) : bool :=
  match n with
  | O => true
  | S n' => f lo && Z_range_forallb f (lo + 1) n'
  end.

(** The table form of one byte round, on the register after the byte has
    been folded into its high half. *)
Definition table_form (x : Z) : option Z :=
  let? t := CRC16Table !! Z.to_nat (Z.shiftr x 8) in
  Some (Z.land (Z.lxor (Z.shiftl x 8) t) 0xFFFF).

Definition table_agrees (x : Z) : bool :=
  match table_form x with
  | Some v => v =? Nat.iter 8 crc16_shift x
  | None => false
  end.

Definition table_entry_ok (i : Z) : bool :=
  match CRC16Table !! Z.to_nat i with
  | Some t => t =? Nat.iter 8 crc16_shift (Z.shiftl i 8)
  | None => false
  end.

(** The 1024-byte payload of the frame built from a chunk: the chunk,
    filled up with 0xFF. *)
Definition padded (chunk : list Z) : list Z :=
  chunk ++ replicate (1024 - length chunk) 0xFF.

Definition crc_bytes (body : list Z) : list Z :=
  let crc := crc16_ccitt_bitwise body in [Z.land crc 0xFF; byte_at crc 8].

(** The frame for block [i] carrying [chunk], laid out field by field. *)
Definition flash_block_layout (hw_id fw_version : list Z) (i : Z)
    (chunk : list Z) : list Z :=
  flash_block_headder ++ hw_id ++ [2; 2; i] ++ fw_version
  ++ padded chunk ++ crc_bytes (padded chunk) ++ tail.

(** [spec m P Q]: whatever the state and however the run ends, [m] only
    adds events that satisfy [P] to the trace, and if it returns, its
    result satisfies [Q]. *)
Definition spec {A} (m : M A) (P : event -> Prop) (Q : A -> Prop) : Prop :=
  forall s,
    (exists new, trace (final (m s)) = trace s ++ new /\ Forall P new) /\
    (forall a s', m s = Done a s' -> Q a).

(** A program that only appends to the trace. *)
Definition grows {A} (m : M A) : Prop := spec m (fun _ => True) (fun _ => True).

(** How a discovery loop stops: the invariant holds, and it says
    everything was found only when no entry is 0. *)
Definition stopped_right (I : Found -> Prop) (r : stop * Found) : Prop :=
  I (snd r) /\ (fst r = Found_all -> no_zero (recv_sn_list (snd r)) = true).


(** ** Values wider than their field *)

(** The record [r] with every 16-bit parameter taken modulo [2^16] and
    every 32-bit parameter modulo [2^32]; the serial number and the
    one-byte parameters are left as they are. *)
Definition truncate_wide (r : InfoRecord) : InfoRecord := {|
  ilidar_version := ilidar_version r;
  sensor_sn := sensor_sn r;
  sensor_hw_id := sensor_hw_id r;
  sensor_fw_ver := sensor_fw_ver r;
  sensor_fw_date := sensor_fw_date r;
  sensor_fw_time := sensor_fw_time r;
  sensor_calib_id := sensor_calib_id r;
  sensor_fw0_ver := sensor_fw0_ver r;
  sensor_fw1_ver := sensor_fw1_ver r;
  sensor_fw2_ver := sensor_fw2_ver r;
  sensor_model_id := sensor_model_id r;
  sensor_boot_ctrl := sensor_boot_ctrl r;
  capture_mode := capture_mode r;
  capture_row := capture_row r;
  capture_shutter := map (fun v => v mod 65536) (capture_shutter r);
  capture_limit := map (fun v => v mod 65536) (capture_limit r);
  capture_period_us := capture_period_us r mod 4294967296;
  capture_seq := capture_seq r;
  data_output := data_output r;
  data_baud := data_baud r mod 4294967296;
  data_sensor_ip := data_sensor_ip r;
  data_dest_ip := data_dest_ip r;
  data_subnet := data_subnet r;
  data_gateway := data_gateway r;
  data_port := data_port r mod 65536;
  data_mac_addr := data_mac_addr r;
  sync := sync r;
  sync_trig_delay_us := sync_trig_delay_us r mod 4294967296;
  sync_ill_delay_us := map (fun v => v mod 65536) (sync_ill_delay_us r);
  sync_trig_trim_us := sync_trig_trim_us r;
  sync_ill_trim_us := sync_ill_trim_us r;
  sync_output_delay_us := sync_output_delay_us r mod 65536;
  arb := arb r;
  arb_timeout := arb_timeout r mod 4294967296;
  lock := lock r
|}.

(** ** Frames of the firmware transfer *)

(** An event that is neither a [cmd_flash_start] frame nor a flash block. *)
Definition no_flash (e : event) : Prop :=
  is_flash_start e = false /\ is_flash_block e = false.

(** ** Discovery *)

(** What a discovery round may add to the trace: a datagram received, or
    [cmd_read_info] sent to the broadcast address of an interface. *)
Definition discovery_event (sockets : list (Z * Sock)) (e : event) : Prop :=
  match e with
  | RecvFrom _ _ _ _ => True
  | SendTo ip pkt dst dport =>
    exists sock, (ip, sock) ∈ sockets /\ pkt = cmd_read_info /\
                 dst = broadcast sock /\ dport = sensor_config_port
  end.

(** The lists of a discovery with the target [all]: no serial twice, one
    address per serial, and every stored record filed under the slot of
    its serial. *)
Definition all_mode_lists (st : Found) : Prop :=
  f_target_type st !! 0%nat = Some T_ALL /\
  NoDup (recv_sn_list st) /\
  length (f_target_list st) = length (recv_sn_list st) /\
  Forall (fun entry => recv_sn_list st !! fst entry = Some (sensor_sn (snd entry)))
         (recv_info_list st).

(** ** Strings *)

(** [s.split(sep)] for a separator of one character. *)
Fixpoint split (sep : ascii) (s : string) : list string :=
  match s with
  | EmptyString => [EmptyString]
  | String c rest =>
    if Ascii.eqb c sep then EmptyString :: split sep rest
    else match split sep rest with
         | [] => [String c EmptyString]
         | w :: ws => String c w :: ws
         end
  end.

(** ** parse_arg_list: what a target is *)

(** A type and the datum stored beside it, for the arguments
    [arg_list]. *)
Definition target_of (unicode_isdigit : string -> bool)
    (unicode_int : string -> option Z) (parse_ip : string -> option Z)
    (arg_list : list string) (t : ttype) (d : pyval) : Prop :=
  match t, d with
  | T_ALL, PyInt n => n = 0
  | T_IP, PyStr a => exists arg, In arg arg_list /\ parse_ip arg = Some a
  | T_SN, PyInt n =>
    0 <= n <= 65535 /\
    exists arg, In arg arg_list /\ parse_ip arg = None /\
                isdigit unicode_isdigit arg = true /\
                int unicode_int arg = Some n
  | _, _ => False
  end.

(** ** check_command: what counts as a command *)


(** ** check_option *)

Section Options.

Variable unicode_isdigit : string -> bool.
Variable unicode_int : string -> option Z.

(** [is_ip] and [get_ip_list()], which ask [ipaddress] and the
    operating system. *)
Variable is_ip : string -> bool.
Variable host_ip_list : list string.

(** [None] is the [ValueError] of [int]. *)
Definition check_option (arg : string) : option (bool * string * Z) :=
  let ip := EmptyString in
  let port := 7256 in
  let option_arg := split ":" arg in
  let? parsed :=
    match option_arg with
    | [a] =>
      if (length (split "." a) =? 4)%nat && is_ip a then Some (Some (a, port))
      else if (length (split "." a) =? 1)%nat && isdigit unicode_isdigit a
      then let? port := int unicode_int a in Some (Some (ip, port))
      else Some None
    | [a; b] =>
      if is_ip a && isdigit unicode_isdigit b
      then let? port := int unicode_int b in Some (Some (a, port))
      else Some None
    | _ => Some None
    end in
  match parsed with
  | None => Some (false, ip, port)
  | Some (ip, port) =>
    if negb (String.eqb ip EmptyString) && negb (existsb (String.eqb ip) host_ip_list)
    then Some (false, ip, port)
    else if (port <? 0) || (65535 <? port) then Some (false, ip, port)
    else Some (true, ip, port)
  end.

(** *** The interfaces to listen on, with [-S] *)

(** [get_subnet_mask] and [get_broadcast_ip]; the latter raises
    ([None]) when [ipaddress] makes no network of the address and the
    mask. *)
Variable get_subnet_mask : string -> string.
Variable get_broadcast_ip : string -> string -> option string.

(** An entry of [listening_list]. *)
Record Listening := mkListening {
  l_port : list Z;
  l_subnet : string;
  l_config : string
}.

(** [listening_list[ip]['port'].append(p)] *)
Fixpoint append_port (ip : string) (p : Z)
    (listening_list : list (string * Listening)) : list (string * Listening) :=
  match listening_list with
  | [] => []
  | (k, item) :: rest =>
    if String.eqb k ip
    then (k, {| l_port := l_port item ++ [p]; l_subnet := l_subnet item;
                l_config := l_config item |}) :: rest
    else (k, item) :: append_port ip p rest
  end.

(** [append_port] extends the entry of [ip] and leaves the others. *)
Definition with_port (ip : string) (p : Z) (k : string) (item : Listening)
  : Listening :=
  if String.eqb k ip
  then {| l_port := l_port item ++ [p]; l_subnet := l_subnet item;
          l_config := l_config item |}
  else item.

(** [ip in listening_list] *)
Definition listed (ip : string) (listening_list : list (string * Listening))
  : bool :=
  existsb (fun e => String.eqb (fst e) ip) listening_list.

(** The statements both loops over interfaces share: the mask and the
    broadcast address are asked for, then the port is appended to the
    entry of the interface, or the entry is made. *)
Definition add_interface (listening_list : list (string * Listening))
    (ip : string) (first_port : Z) : option (list (string * Listening)) :=
  let subnet := get_subnet_mask ip in
  let? broadcast_ip := get_broadcast_ip ip subnet in
  if listed ip listening_list
  then Some (append_port ip 7256 listening_list)
  else Some (listening_list
             ++ [(ip, {| l_port := [first_port];
                         l_subnet := subnet;
                         l_config := broadcast_ip |})]).

(** One round of [for sender_option in args.sender]. *)
Definition add_sender (listening_list : list (string * Listening))
    (sender_option : string) : option (list (string * Listening)) :=
  let? checked := check_option sender_option in
  let '(option_result, option_ip, option_port) := checked in
  if option_result && negb (String.eqb option_ip EmptyString)
  then add_interface listening_list option_ip option_port
  else Some listening_list.

(** A loop whose body can raise. *)
Fixpoint fold_raising {A B} (f : A -> B -> option A) (l : list B) (a : A)
  : option A :=
  match l with
  | [] => Some a
  | x :: rest => let? a' := f a x in fold_raising f rest a'
  end.

Definition sender_listening_list (sender : list string)
  : option (list (string * Listening)) :=
  fold_raising add_sender sender [].

(** The ports the options [sender] name for the interface [ip], in
    order, invalid options left out. *)
Definition ports_named (ip : string) (sender : list string) : list Z :=
  flat_map (fun o =>
              match check_option o with
              | Some (option_result, option_ip, option_port) =>
                if option_result && negb (String.eqb option_ip EmptyString)
                   && String.eqb option_ip ip
                then [option_port] else []
              | None => []
              end)
           sender.

End Options.

(** ** read_bin_files *)

(** What [read_bin_files] keeps of a file name. *)
Record BinData := mkBinData {
  file_name : string;
  bd_fw_type : string;
  bd_fw_version : list Z;
  bd_sensor_sn : Z;
  sensor_id : string;
  bd_sensor_id_arr : list Z
}.

Section BinFiles.

(** [int(s)] and [int(s, 16)]; [None] is [ValueError]. *)
Variable py_int : string -> option Z.
Variable py_int_16 : string -> option Z.

(** [[int(id[i:i+2], 16) for i in range(2, len(id), 2)]], from the
    [k]-th pair on, [n] pairs. *)
Fixpoint id_pairs (id : string) (k n : nat) : option (list Z) :=
  match n with
  | O => Some []
  | S n' =>
    let? v := py_int_16 (substring (2 + 2 * k) 2 id) in
    let? rest := id_pairs id (S k) n' in
    Some (v :: rest)
  end.

(** [len(range(2, len(id), 2))] *)
Definition id_pair_count (id : string) : nat := (String.length id - 1) / 2.

(** The body of the loop of [read_bin_files]: [Some None] for a name that
    is passed over. *)
Definition read_bin_file (bin_file : string) : option (option BinData) :=
  let parts := split "_" bin_file in
  if (length parts =? 7)%nat then
    let? p6 := parts !! 6%nat in
    let? id := split "." p6 !! 0%nat in
    let? p1 := parts !! 1%nat in
    let? p4 := parts !! 4%nat in
    let? v4 := py_int p4 in
    let? p3 := parts !! 3%nat in
    let? v3 := py_int p3 in
    let? p2 := parts !! 2%nat in
    let? v2 := py_int p2 in
    let? p5 := parts !! 5%nat in
    let? sn := py_int p5 in
    let? arr := id_pairs id 0 (id_pair_count id) in
    Some (Some {| file_name := bin_file; bd_fw_type := p1;
                  bd_fw_version := [v4; v3; v2]; bd_sensor_sn := sn;
                  sensor_id := id; bd_sensor_id_arr := arr |})
  else Some None.

Fixpoint read_bin_files (bin_files : list string) : option (list BinData) :=
  match bin_files with
  | [] => Some []
  | bin_file :: rest =>
    let? r := read_bin_file bin_file in
    let? items := read_bin_files rest in
    Some (match r with
          | Some bin_data => bin_data :: items
          | None => items
          end)
  end.

End BinFiles.

(** The entry of [bin_list] as the update uses it, with what
    [open('bin/' + file_name, 'rb')] reads. *)
Definition bin_item (file_content : string -> list Z) (bin_data : BinData)
  : BinItem :=
  {| fw_type := bd_fw_type bin_data;
     fw_version := bd_fw_version bin_data;
     bin_sensor_sn := bd_sensor_sn bin_data;
     sensor_id_arr := bd_sensor_id_arr bin_data;
     payload := file_content ("bin/" ++ file_name bin_data)%string |}.

(** [int] on the strings of digits, [ValueError] on the others: the part
    of Python's [int] the samples need. *)
Definition int_of_digits (s : string) : option Z :=
  if ascii_digits s then Some (digits_value s) else None.

(** A firmware file name, and one with too few fields. *)
Definition sample_bin_name : string := "iTFS_FW1_1_7_0_456_0x0011.bin".


(** ** The interfaces to listen on, without options and with [-I], [-P] *)

Section ListeningLists.

Variable unicode_isdigit : string -> bool.
Variable unicode_int : string -> option Z.
Variable is_ip : string -> bool.
Variable host_ip_list : list string.
Variable get_subnet_mask : string -> string.
Variable get_broadcast_ip : string -> string -> option string.

(** [for single_ip in host_ip_list], no option given. *)
Definition default_listening_list : option (list (string * Listening)) :=
  fold_raising
    (fun listening_list single_ip =>
       add_interface get_subnet_mask get_broadcast_ip listening_list
         single_ip 7256)
    host_ip_list [].

(** With [-I] or [-P] an entry has no ['port'] until the end: it is the
    pair of ['subnet'] and ['config']. *)
Definition keyed (ip : string) (listening_list : list (string * (string * string)))
  : bool :=
  existsb (fun e => String.eqb (fst e) ip) listening_list.

(** The statements both loops over interfaces share. *)
Definition add_keyed (listening_list : list (string * (string * string)))
    (ip : string) : option (list (string * (string * string))) :=
  let subnet := get_subnet_mask ip in
  let? broadcast_ip := get_broadcast_ip ip subnet in
  if negb (keyed ip listening_list)
  then Some (listening_list ++ [(ip, (subnet, broadcast_ip))])
  else Some listening_list.

(** One round of [for sender_option in args.sender_ip]. *)
Definition add_sender_ip (listening_list : list (string * (string * string)))
    (sender_option : string) : option (list (string * (string * string))) :=
  let? checked := check_option unicode_isdigit unicode_int is_ip host_ip_list
                    sender_option in
  let '(option_result, option_ip, option_port) := checked in
  if option_result && negb (String.eqb option_ip EmptyString)
     && (option_port =? 7256)
  then add_keyed listening_list option_ip
  else Some listening_list.

(** One round of [for sender_option in args.sender_port]. *)
Definition add_sender_port (port_list : list Z) (sender_option : string)
  : option (list Z) :=
  let? checked := check_option unicode_isdigit unicode_int is_ip host_ip_list
                    sender_option in
  let '(option_result, option_ip, option_port) := checked in
  if option_result && String.eqb option_ip EmptyString
  then Some (port_list ++ [option_port])
  else Some port_list.

Definition ip_port_listening_list (sender_ip sender_port : option (list string))
  : option (list (string * Listening)) :=
  let? listening_list :=
    match sender_ip with
    | Some sender_ip => fold_raising add_sender_ip sender_ip []
    | None => fold_raising add_keyed host_ip_list []
    end in
  let? port_list :=
    match sender_port with
    | Some sender_port => fold_raising add_sender_port sender_port []
    | None => Some [7256]
    end in
  Some (map (fun e => (fst e, {| l_port := port_list;
                                 l_subnet := fst (snd e);
                                 l_config := snd (snd e) |}))
            listening_list).

(** [listening_list] as the entry point builds it from [args.sender],
    [args.sender_ip] and [args.sender_port] ([None] for an option that
    is not given); the result [None] is an exception. *)
Definition listening_list (sender sender_ip sender_port : option (list string))
  : option (list (string * Listening)) :=
  match sender, sender_ip, sender_port with
  | None, None, None => default_listening_list
  | Some sender, _, _ =>
    sender_listening_list unicode_isdigit unicode_int is_ip host_ip_list
      get_subnet_mask get_broadcast_ip sender
  | None, _, _ => ip_port_listening_list sender_ip sender_port
  end.

(** The addresses the options [-I] name with no port or with 7256, and
    the ports the options [-P] name, invalid options left out. *)
Definition interfaces_named (sender_ip : list string) : list string :=
  flat_map (fun o =>
              match check_option unicode_isdigit unicode_int is_ip
                      host_ip_list o with
              | Some (option_result, option_ip, option_port) =>
                if option_result && negb (String.eqb option_ip EmptyString)
                   && (option_port =? 7256)
                then [option_ip] else []
              | None => []
              end)
           sender_ip.

Definition bare_ports (sender_port : list string) : list Z :=
  flat_map (fun o =>
              match check_option unicode_isdigit unicode_int is_ip
                      host_ip_list o with
              | Some (option_result, option_ip, option_port) =>
                if option_result && String.eqb option_ip EmptyString
                then [option_port] else []
              | None => []
              end)
           sender_port.

(** What is expected of an entry of a listening list: the address is
    one of the host's, mask and broadcast address are that interface's,
    and every port is a port number. *)
Definition entry_ok (e : string * Listening) : Prop :=
  In (fst e) host_ip_list /\
  l_subnet (snd e) = get_subnet_mask (fst e) /\
  get_broadcast_ip (fst e) (get_subnet_mask (fst e)) = Some (l_config (snd e)) /\
  Forall (fun p => 0 <= p <= 65535) (l_port (snd e)).

(** The same of the entries that have no ports yet, none of them twice. *)
Definition partial_ok (listening_list : list (string * (string * string)))
  : Prop :=
  NoDup (map fst listening_list) /\
  List.Forall (fun e => In (fst e) host_ip_list /\
                        fst (snd e) = get_subnet_mask (fst e) /\
                        get_broadcast_ip (fst e) (get_subnet_mask (fst e))
                        = Some (snd (snd e)))
              listening_list.

End ListeningLists.

(** ** cidr_to_subnet *)

(** [str(n)] for an integer. *)
Definition str (n : Z) : string := NilZero.string_of_int (Z.to_int n).

(** A shift by a negative count is a [ValueError]. *)
Definition cidr_to_subnet (cidr : Z) : option string :=
  if 32 - cidr <? 0 then None
  else
    let mask := Z.shiftl (Z.shiftr 0xFFFFFFFF (32 - cidr)) (32 - cidr) in
    Some (String.concat "."
            (map str (map (fun i => Z.land (Z.shiftr mask i) 0xFF)
                          [24; 16; 8; 0]))).

(** ** File arguments *)

(** [s.endswith(suffix)]: [s] is [suffix], or what follows its first
    character ends with [suffix]. *)
Fixpoint endswith (suffix s : string) : bool :=
  String.eqb s suffix
  || match s with
     | EmptyString => false
     | String _ rest => endswith suffix rest
     end.

Section FileArguments.

(** [os.getcwd()], [os.path.exists], [os.path.isdir] and [os.listdir]. *)
Variable getcwd : string.
Variable path_exists : string -> bool.
Variable isdir : string -> bool.
Variable listdir : string -> option (list string).

(** [dir_path] after
    [if arg.startswith('/') == False: dir_path = dir_path + '/']. *)
Definition dir_path_for (arg : string) : string :=
  let dir_path := getcwd in
  if Bool.eqb (String.prefix "/" arg) false then (dir_path ++ "/")%string
  else dir_path.

(** One round of the loop of [parse_cvt_list], on [file_list] and
    [csv_found]. *)
Definition cvt_step (st : list string * bool) (arg : string)
  : list string * bool :=
  let '(file_list, csv_found) := st in
  if Bool.eqb csv_found false && endswith ".csv" arg then
    let dir_path := dir_path_for arg in
    if path_exists (dir_path ++ arg)%string
    then (file_list ++ [(dir_path ++ arg)%string], true)
    else (file_list, csv_found)
  else if Bool.eqb csv_found true && endswith ".json" arg then
    let dir_path := dir_path_for arg in
    (file_list ++ [(dir_path ++ arg)%string], csv_found)
  else (file_list, csv_found).

Definition parse_cvt_list (arg_list : list string) : list string * nat :=
  let '(file_list, _) := fold_left cvt_step arg_list ([], false) in
  if (length file_list =? 2)%nat then (file_list, length file_list)
  else ([], 0%nat).

(** [for f in os.listdir(dir_path): if f.endswith('.json'): ...] *)
Definition json_entries (dir_path : string) (entries file_list : list string)
  : list string :=
  fold_left (fun file_list f =>
               if endswith ".json" f
               then file_list ++ [(dir_path ++ "/" ++ f)%string]
               else file_list)
            entries file_list.

(** One round of the loop of [parse_json_list]; [os.listdir] can raise
    on a directory that cannot be read. *)
Definition json_step (file_list : list string) (arg : string)
  : option (list string) :=
  if endswith ".json" arg then
    let dir_path := dir_path_for arg in
    if path_exists (dir_path ++ arg)%string
    then Some (file_list ++ [(dir_path ++ arg)%string])
    else Some file_list
  else
    let dir_path := dir_path_for arg in
    let dir_path := (dir_path ++ arg)%string in
    if isdir dir_path
    then let? entries := listdir dir_path in
         Some (json_entries dir_path entries file_list)
    else Some file_list.

Definition parse_json_list (arg_list : list string)
  : option (list string * nat) :=
  let? file_list := fold_raising json_step arg_list [] in
  Some (file_list, length file_list).

End FileArguments.

(** Every path there is, and the directory [/home/user]. *)
Definition any_path (path : string) : bool := true.
Definition home_user : string := "/home/user".


(** ** JSON values and parameter files *)

Section JsonValues.

(** The floats of Python, of which the program only asks whether one is
    zero. *)
Variable float : Type.
Variable float_is_zero : float -> bool.

(** What [json.load] gives: [None], [bool], [int], [float], [str],
    [list] and [dict], a [dict] as its items in order, no key twice. *)
#[warnings="-register-all"] Inductive json : Type :=
| JNull
| JBool (b : bool)
| JInt (n : Z)
| JFloat (f : float)
| JStr (s : string)
| JArr (items : list json)
| JObj (fields : list (string * json)).

(** [data.get(key)]: the value, none if the key is missing. *)
Fixpoint dict_get (key : string) (fields : list (string * json))
  : option json :=
  match fields with
  | [] => None
  | (k, v) :: rest => if String.eqb k key then Some v else dict_get key rest
  end.

(** [key in data] *)
Definition has_key (key : string) (fields : list (string * json)) : bool :=
  match dict_get key fields with Some _ => true | None => false end.

(** The truth value of a Python object. *)
Definition truthy (v : json) : bool :=
  match v with
  | JNull => false
  | JBool b => b
  | JInt n => negb (n =? 0)
  | JFloat f => negb (float_is_zero f)
  | JStr s => negb (String.eqb s EmptyString)
  | JArr items => match items with [] => false | _ => true end
  | JObj fields => match fields with [] => false | _ => true end
  end.

Definition required_fields : list string :=
  ["sensor_sn"; "capture_mode"; "capture_row"; "capture_shutter";
   "capture_limit"; "capture_period_us"; "capture_seq"; "data_output";
   "data_baud"; "data_sensor_ip"; "data_dest_ip"; "data_subnet";
   "data_gateway"; "data_port"; "data_mac_addr"; "sync";
   "sync_trig_delay_us"; "sync_ill_delay_us"; "sync_trig_trim_us";
   "sync_ill_trim_us"; "sync_output_delay_us"; "arb"; "arb_timeout"]%string.

Definition validate_v1_5_x (data : list (string * json)) : bool :=
  let missing_fields :=
    List.filter (fun field => negb (has_key field data)) required_fields in
  match missing_fields with
  | _ :: _ => false
  | [] => true
  end.

(** [None] is an [AttributeError]: [data] has no [get], or the version is
    a true value that has no [startswith]. *)
Definition check_ilidar_param_version (data : json) : option bool :=
  match data with
  | JObj fields =>
    let ilidar_version :=
      match dict_get "ilidar_version" fields with
      | Some v => v
      | None => JNull
      end in
    if truthy ilidar_version then
      match ilidar_version with
      | JStr s =>
        if String.prefix "1.5" s then Some (validate_v1_5_x fields)
        else Some false
      | _ => None
      end
    else Some false
  | _ => None
  end.

(** An entry that is kept. *)
Definition accepted (data : json) : bool :=
  match check_ilidar_param_version data with
  | Some true => true
  | _ => false
  end.

(** [json.load] of the file of that name, [None] for every exception
    that opening and parsing can raise. *)
Variable load : string -> option json.

(** [for d in data] of [read_json_files]: the exception of an entry
    ends the loop, and what was appended before stays. *)
Fixpoint append_checked (json_file : string) (data : list json)
    (json_file_and_data : list (string * json)) : list (string * json) :=
  match data with
  | [] => json_file_and_data
  | d :: rest =>
    match check_ilidar_param_version d with
    | None => json_file_and_data
    | Some true =>
      append_checked json_file rest (json_file_and_data ++ [(json_file, d)])
    | Some false => append_checked json_file rest json_file_and_data
    end
  end.

(** One round of [for json_file in json_files]. *)
Definition read_json_file (json_file_and_data : list (string * json))
    (json_file : string) : list (string * json) :=
  match load json_file with
  | None => json_file_and_data
  | Some data =>
    match data with
    | JObj _ =>
      match check_ilidar_param_version data with
      | Some true => json_file_and_data ++ [(json_file, data)]
      | _ => json_file_and_data
      end
    | JArr items => append_checked json_file items json_file_and_data
    | _ => json_file_and_data
    end
  end.

Definition read_json_files (json_files : list string)
  : list (string * json) :=
  fold_left read_json_file json_files [].

(** *** cmd_convert_run *)

Variable py_int : string -> option Z.

(** [s.replace(a, b)] for single characters. *)
Fixpoint replace (a b : ascii) (s : string) : string :=
  match s with
  | EmptyString => EmptyString
  | String c rest =>
    String (if Ascii.eqb c a then b else c) (replace a b rest)
  end.

(** [row[i]] where [i] is less than [len(row)]. *)
Definition cell (row : list string) (i : nat) : string :=
  nth i row EmptyString.

(** [int(c) if c != '' else ''] *)
Definition int_or_blank (c : string) : option json :=
  if negb (String.eqb c EmptyString)
  then let? n := py_int c in Some (JInt n)
  else Some (JStr EmptyString).

(** [[int(x) for x in parts]] *)
Fixpoint ints (parts : list string) : option (list json) :=
  match parts with
  | [] => Some []
  | x :: rest =>
    let? n := py_int x in
    let? others := ints rest in
    Some (JInt n :: others)
  end.

(** [[int(x) for x in parts] if c != '' else ''] *)
Definition ints_or_blank (c : string) (parts : list string) : option json :=
  if negb (String.eqb c EmptyString)
  then let? l := ints parts in Some (JArr l)
  else Some (JStr EmptyString).

(** The cells [row[first]], ... each as [int_or_blank]. *)
Fixpoint cells_from (row : list string) (first count : nat)
  : option (list json) :=
  match count with
  | O => Some []
  | S count' =>
    let? v := int_or_blank (cell row first) in
    let? others := cells_from row (S first) count' in
    Some (v :: others)
  end.

(** The body of the loop over the rows: [None] is an exception
    ([IndexError] of [row[1]], [ValueError] of [int]), [Some None] a row
    that is passed over. *)
Definition convert_row (row : list string) : option (option json) :=
  match row !! 1%nat with
  | None => None
  | Some version =>
    if String.prefix "1.4" version then Some None
    else if String.prefix "1.5" version then
      if (length row =? 44)%nat then
        let? sensor_sn := py_int (cell row 2) in
        let? capture_mode := int_or_blank (cell row 3) in
        let? capture_row := int_or_blank (cell row 4) in
        let? capture_shutter := cells_from row 5 5 in
        let? capture_limit := cells_from row 10 2 in
        let? capture_period_us := int_or_blank (cell row 12) in
        let? capture_seq := int_or_blank (cell row 13) in
        let? data_output := int_or_blank (cell row 14) in
        let? data_baud := int_or_blank (cell row 15) in
        let? data_sensor_ip :=
          ints_or_blank (cell row 16) (split "." (cell row 16)) in
        let? data_dest_ip :=
          ints_or_blank (cell row 17) (split "." (cell row 17)) in
        let? data_subnet :=
          ints_or_blank (cell row 18) (split "." (cell row 18)) in
        let? data_gateway :=
          ints_or_blank (cell row 19) (split "." (cell row 19)) in
        let? data_port := int_or_blank (cell row 20) in
        let? data_mac_addr :=
          ints_or_blank (cell row 21)
            (split ":" (replace "_" ":" (cell row 21))) in
        let? sync := int_or_blank (cell row 22) in
        let? sync_trig_delay_us := int_or_blank (cell row 23) in
        let? sync_ill_delay_us := cells_from row 24 15 in
        let? sync_trig_trim_us := int_or_blank (cell row 39) in
        let? sync_ill_trim_us := int_or_blank (cell row 40) in
        let? sync_output_delay_us := int_or_blank (cell row 41) in
        let? arb := int_or_blank (cell row 42) in
        let? arb_timeout := int_or_blank (cell row 43) in
        Some (Some (JObj
          [("ilidar_name", JStr (cell row 0));
           ("ilidar_version", JStr version);
           ("sensor_sn", JInt sensor_sn);
           ("capture_mode", capture_mode);
           ("capture_row", capture_row);
           ("capture_shutter", JArr capture_shutter);
           ("capture_limit", JArr capture_limit);
           ("capture_period_us", capture_period_us);
           ("capture_seq", capture_seq);
           ("data_output", data_output);
           ("data_baud", data_baud);
           ("data_sensor_ip", data_sensor_ip);
           ("data_dest_ip", data_dest_ip);
           ("data_subnet", data_subnet);
           ("data_gateway", data_gateway);
           ("data_port", data_port);
           ("data_mac_addr", data_mac_addr);
           ("sync", sync);
           ("sync_trig_delay_us", sync_trig_delay_us);
           ("sync_ill_delay_us", JArr sync_ill_delay_us);
           ("sync_trig_trim_us", sync_trig_trim_us);
           ("sync_ill_trim_us", sync_ill_trim_us);
           ("sync_output_delay_us", sync_output_delay_us);
           ("arb", arb);
           ("arb_timeout", arb_timeout)]%string))
      else Some None
    else Some None
  end.

Fixpoint convert_rows (rows : list (list string)) (store_data : list json)
  : option (list json) :=
  match rows with
  | [] => Some store_data
  | row :: rest =>
    let? converted := convert_row row in
    convert_rows rest
      match converted with
      | Some data => store_data ++ [data]
      | None => store_data
      end
  end.

(** [cmd_convert_run] on the rows [csv.reader] gives: the list it hands
    to [json.dump], or the exception that ends the program before the
    output file is opened. *)
Definition cmd_convert_run (rows : list (list string)) : option (list json) :=
  convert_rows rows [].

(** A row that is converted: version 1.5 and 44 cells. *)
Definition is_converted (row : list string) : bool :=
  negb (String.prefix "1.4" (cell row 1)) && String.prefix "1.5" (cell row 1)
  && (length row =? 44)%nat.

End JsonValues.

Arguments JNull {float}.
Arguments JBool {float} b.
Arguments JInt {float} n.
Arguments JFloat {float} f.
Arguments JStr {float} s.
Arguments JArr {float} items.
Arguments JObj {float} fields.
Arguments dict_get {float} key fields.
Arguments has_key {float} key fields.
Arguments validate_v1_5_x {float} data.
Arguments check_ilidar_param_version {float} float_is_zero data.
Arguments accepted {float} float_is_zero data.
Arguments read_json_files {float} float_is_zero load json_files.
Arguments cmd_convert_run {float} py_int rows.
Arguments convert_row {float} py_int row.
Arguments convert_rows {float} py_int rows store_data.

(** The samples hold no float. *)
Inductive no_float : Set := .
Definition no_float_is_zero (f : no_float) : bool := match f with end.

Definition sample_row : list string :=
  ["lidar"; "1.5.7"; "456"; "1"; "160"; "400"; "80"; "16"; "0"; "0";
   "200"; "500"; "50000"; "0"; "1"; "115200";
   "192.168.5.200"; "192.168.5.2"; "255.255.255.0"; "192.168.5.1"; "7256";
   EmptyString; "0"; "0";
   "0"; "0"; "0"; "0"; "0"; "0"; "0"; "0"; "0"; "0"; "0"; "0"; "0"; "0"; "0";
   "0"; "0"; "0"; "0"; "0"]%string.

(** The object [sample_row] is converted to, and a parameter file that
    holds it twice, a number in between. *)
Definition sample_param : json no_float :=
  Eval cbv in
    match convert_row int_of_digits sample_row with
    | Some (Some data) => data
    | _ => JNull
    end.

Definition load_broken_list (json_file : string) : option (json no_float) :=
  Some (JArr [sample_param; JInt 5; sample_param]).

Definition load_sample (json_file : string) : option (json no_float) :=
  Some (JArr [sample_param]).


(** ** A sensor that acknowledges *)





(** ** The entry point *)

(** [sys.exit(status)]: the exit status of the process; no argument is
    [None], which exits with status zero. *)
Definition sys_exit (status : option Z) : Z :=
  match status with
  | None => 0
  | Some c => c
  end.

(** The options of the parser, by [dest], in the order of
    [parser._actions] after [help], whose attribute is never set. *)
Definition parser_actions : list command :=
  [c_info; c_pause; c_measure; c_lock; c_unlock; c_reboot; c_redirect;
   c_reset; c_config; c_convert; c_update; c_overwrite;
   c_sender; c_sender_ip; c_sender_port].

(** What [parser.parse_args()] makes of [sys.argv[1:]].  [argparse] ends
    the process itself when it rejects the command line (status 2) and,
    through [custom_help_action] and [parser.exit()], when it meets [-h]
    (status 0); else it returns the namespace [args], in which every
    option has the strings given to it or [None]. *)
Inductive parse_result :=
| Parse_error
| Parse_help
| Parsed (args : command -> option (list string)).

(** [get_command(args)]: the first option that is set, with its
    arguments. *)
Definition get_command (args : command -> option (list string))
  : option (command * list string) :=
  (fix first_set (actions : list command) :=
     match actions with
     | [] => None
     | a :: rest =>
       match args a with
       | Some arg_list => Some (a, arg_list)
       | None => first_set rest
       end
     end) parser_actions.

(** [file_msg] or [cmd_msg]. *)
Inductive message :=
| File_msg (file_list : list string)
| Cmd_msg (cmd_msg : CmdMsg).

(** How the process ends: the status it exits with, 1 for an exception
    nobody catches; [None] while it is still running. *)
Definition exit_code (r : result Z) : option Z :=
  match r with
  | Done status _ => Some status
  | Raised _ => Some 1
  | OutOfFuel _ => None
  end.

Section Main.

(** The command line and the host: [sys.argv], [get_ip_list()],
    [argparse], Python's tables of digits, [ipaddress.IPv4Address],
    [get_subnet_mask], [get_broadcast_ip] and the file system. *)
Variable argv : list string.
Variable get_ip_list : list string.
Variable parse_args : list string -> parse_result.
Variable unicode_isdigit : string -> bool.
Variable unicode_int : string -> option Z.
Variable parse_ip : string -> option Z.
Variable get_subnet_mask : string -> string.
Variable get_broadcast_ip : string -> string -> option string.
Variable getcwd : string.
Variable path_exists : string -> bool.
Variable isdir : string -> bool.
Variable listdir : string -> option (list string).

(** The network, the keyboard, and the directory [bin]:
    [get_bin_files], [None] when [os.listdir] raises; [int(s, 16)];
    the bytes of a file. *)
Variable recvfrom : Z -> Z -> nat -> option datagram.
Variable is_enter_pressed : nat -> bool.
Variable get_bin_files : option (list string).
Variable py_int_16 : string -> option Z.
Variable file_content : string -> list Z.

(** [cmd_config_run] and [cmd_convert_run] with the files they read and
    write: whatever they do, they return, raise or run on. *)
Variable cmd_config_run : list string -> list (Z * HostItem) -> M unit.
Variable cmd_convert_run_files : list string -> M unit.

(** [is_ip(s)] *)
Definition is_ip (s : string) : bool :=
  match parse_ip s with
  | Some _ => true
  | None => false
  end.

(** The arguments of the command: [None] is an exception, [Some None]
    the [sys.exit()] after ['invalid arguments for the ...command!']. *)
Definition arguments (cmd : command) (arg_list : list string)
  : option (option message) :=
  match cmd with
  | c_convert =>
    let '(file_list, file_len) := parse_cvt_list getcwd path_exists arg_list in
    if negb (file_len =? 2)%nat then Some None
    else Some (Some (File_msg file_list))
  | c_config =>
    let? parsed := parse_json_list getcwd path_exists isdir listdir arg_list in
    let '(file_list, file_len) := parsed in
    if (file_len =? 0)%nat then Some None
    else Some (Some (File_msg file_list))
  | _ =>
    let? parsed := parse_arg_list unicode_isdigit unicode_int parse_ip arg_list in
    let '(target_type, target_list, target_len) := parsed in
    if (target_len =? 0)%nat then Some None
    else Some (Some (Cmd_msg {| cmd_command := cmd;
                                target_type := target_type;
                                target_list := target_list |}))
  end.

(** [listening_list]: [None] is an exception, [Some None] the
    [sys.exit()] after ['Invaild option error!'].  [--convert] listens
    nowhere. *)
Definition interfaces (cmd : command)
    (args : command -> option (list string))
  : option (option (list (string * Listening))) :=
  if bool_decide (cmd = c_convert) then Some (Some [])
  else
    let? listening_list :=
      listening_list unicode_isdigit unicode_int is_ip get_ip_list
        get_subnet_mask get_broadcast_ip
        (args c_sender) (args c_sender_ip) (args c_sender_port) in
    let ip_num := length listening_list in
    if (ip_num =? 0)%nat then Some None else Some (Some listening_list).

(** The addresses of a listening list as their 32-bit values.  Every
    string in it is an address: [get_broadcast_ip] has made a network
    of the interface and its mask, and a broadcast address of it. *)
Definition ip_value (s : string) : Z :=
  match parse_ip s with
  | Some a => a
  | None => 0
  end.

Definition host_list_of (listening_list : list (string * Listening))
  : list (Z * HostItem) :=
  map (fun e => (ip_value (fst e),
                 {| port := l_port (snd e);
                    subnet := ip_value (l_subnet (snd e));
                    config := ip_value (l_config (snd e)) |}))
      listening_list.

(** [cmd_update_run] from its first line: the firmware files are read,
    then the update runs. *)
Definition cmd_update_run_files (fuel : nat) (forced_update : bool)
    (cmd_msg : CmdMsg) (host_list : list (Z * HostItem)) : M unit :=
  let! bin_files := try_ get_bin_files in
  match bin_files with
  | [] => ret tt
  | _ =>
    let! bin_list :=
      try_ (read_bin_files (int unicode_int) py_int_16 bin_files) in
    let! _ := cmd_update_run recvfrom is_enter_pressed fuel forced_update
                cmd_msg host_list (map (bin_item file_content) bin_list) in
    ret tt
  end.

(** [cmd_sendonly] with the frames it sends. *)
Definition cmd_sendonly_run (fuel : nat) (cmd_msg : CmdMsg)
    (host_list : list (Z * HostItem)) : M unit :=
  match cmd_sendonly cmd_msg host_list with
  | Delegated_to_cmd_run =>
    cmd_run recvfrom is_enter_pressed fuel cmd_msg host_list
  | Key_error => raise
  | Sent log =>
    fun s => Done tt {| now := now s; trace := trace s ++ log |}
  end.

(** [# Run the command functions] *)
Definition run (fuel : nat) (cmd : command) (msg : message)
    (host_list : list (Z * HostItem)) : M unit :=
  match msg with
  | File_msg file_list =>
    if bool_decide (cmd = c_convert) then cmd_convert_run_files file_list
    else cmd_config_run file_list host_list
  | Cmd_msg cmd_msg =>
    match cmd with
    | c_update => cmd_update_run_files fuel false cmd_msg host_list
    | c_overwrite => cmd_update_run_files fuel true cmd_msg host_list
    | _ =>
      if bool_decide (T_SN ∉ target_type cmd_msg)
      then cmd_sendonly_run fuel cmd_msg host_list
      else cmd_run recvfrom is_enter_pressed fuel cmd_msg host_list
    end
  end.

(** The script from its first line to its last: the status it exits
    with. *)
Definition main (fuel : nat) : M Z :=
  let host_ip_list := get_ip_list in
  if (length host_ip_list =? 0)%nat then ret (sys_exit None)
  else if negb (check_command argv) then ret (sys_exit None)
  else
    match parse_args (List.tl argv) with
    | Parse_error => ret 2
    | Parse_help => ret 0
    | Parsed args =>
      match get_command args with
      | None => ret (sys_exit None)
      | Some (cmd, arg_list) =>
        let! msg := try_ (arguments cmd arg_list) in
        match msg with
        | None => ret (sys_exit None)
        | Some msg =>
          let! net := try_ (interfaces cmd args) in
          match net with
          | None => ret (sys_exit None)
          | Some listening_list =>
            let! _ := run fuel cmd msg (host_list_of listening_list) in
            ret (sys_exit None)
          end
        end
      end
    end.

End Main.

(** *** Sample command lines *)

(** A namespace in which one more option is set. *)
Definition no_option : command -> option (list string) := fun _ => None.

Definition option_set (c : command) (arg_list : list string)
    (args : command -> option (list string)) : command -> option (list string) :=
  fun c' => if bool_decide (c' = c) then Some arg_list else args c'.

(** [argparse] on the command lines of the samples, [-p target] and
    [-p target -P port], where neither [target] nor [port] starts with a
    dash; any other line is answered as a line that [argparse] rejects,
    as it rejects [--frobnicate]. *)
Definition sample_parse_args (args : list string) : parse_result :=
  match args with
  | [o; target] =>
    if String.eqb o "-p" && negb (String.prefix "-" target)
    then Parsed (option_set c_pause [target] no_option)
    else Parse_error
  | [o; target; o'; p] =>
    if String.eqb o "-p" && negb (String.prefix "-" target)
       && String.eqb o' "-P" && negb (String.prefix "-" p)
    then Parsed (option_set c_pause [target]
                   (option_set c_sender_port [p] no_option))
    else Parse_error
  | _ => Parse_error
  end.

(** [ipaddress.IPv4Address] on the strings of the samples. *)
Definition sample_parse_ip (s : string) : option Z :=
  if String.eqb s "192.168.5.2" then Some (ipv4 192 168 5 2)
  else if String.eqb s "192.168.5.200" then Some (ipv4 192 168 5 200)
  else if String.eqb s "192.168.5.255" then Some (ipv4 192 168 5 255)
  else if String.eqb s "255.255.255.0" then Some (ipv4 255 255 255 0)
  else None.

(** The superscript two is a digit for [str.isdigit], and no number for
    [int]. *)
Definition superscript_two : string := "²".
Definition sample_unicode_isdigit (s : string) : bool :=
  String.eqb s superscript_two.
Definition sample_unicode_int (s : string) : option Z := None.

(** The host of the samples: one interface, 192.168.5.2/24, an empty
    working directory, a silent network. *)
Definition sample_main (argv get_ip_list : list string) (fuel : nat) : M Z :=
  main argv get_ip_list sample_parse_args sample_unicode_isdigit
    sample_unicode_int sample_parse_ip
    (fun _ => "255.255.255.0"%string) (fun _ _ => Some "192.168.5.255"%string)
    "/home/user" (fun _ => false) (fun _ => false) (fun _ => None)
    silent (fun _ => false) (Some []) (fun _ => None) (fun _ => [])
    (fun _ _ => ret tt) (fun _ => ret tt) fuel.


(** ** Byte arithmetic *)

Ltac Zify.zify_post_hook ::= Z.div_mod_to_equations.

Lemma byte_at_mod v k : 0 <= k -> byte_at v k = (v / 2 ^ k) mod 256.
Proof.
  intros Hk. unfold byte_at. rewrite Z.shiftr_div_pow2 by lia.
  change 255 with (Z.ones 8). rewrite Z.land_ones by lia. reflexivity.
Qed.

Lemma is_byte_spec v : is_byte v = true <-> 0 <= v < 256.
Proof. unfold is_byte. rewrite andb_true_iff, Z.leb_le, Z.ltb_lt. tauto. Qed.

Lemma is_u16_spec v : is_u16 v = true <-> 0 <= v < 65536.
Proof. unfold is_u16. rewrite andb_true_iff, Z.leb_le, Z.ltb_lt. tauto. Qed.

Lemma is_u32_spec v : is_u32 v = true <-> 0 <= v < 4294967296.
Proof. unfold is_u32. rewrite andb_true_iff, Z.leb_le, Z.ltb_lt. tauto. Qed.

Lemma is_byte_byte_at v k : is_byte (byte_at v k) = true.
Proof.
  apply is_byte_spec. unfold byte_at. change 255 with (Z.ones 8).
  rewrite Z.land_ones by lia. apply Z.mod_pos_bound. lia.
Qed.

Lemma is_byte_mod256 v : is_byte (v mod 256) = true.
Proof. apply is_byte_spec. apply Z.mod_pos_bound. lia. Qed.

Lemma is_byte_div256 v : is_u16 v = true -> is_byte (v / 256) = true.
Proof. rewrite is_u16_spec, is_byte_spec. lia. Qed.

Lemma testbit_above x k n : 0 <= x < 2 ^ k -> k <= n -> Z.testbit x n = false.
Proof.
  intros Hx Hn. destruct (Z.eq_dec x 0) as [->|Hx0]; [apply Z.bits_0|].
  apply Z.bits_above_log2; [lia|].
  assert (Z.log2 x < k); [|lia]. apply Z.log2_lt_pow2; lia.
Qed.

Lemma lor_shiftl_add b1 b0 k :
  0 <= k -> 0 <= b0 < 2 ^ k -> Z.lor (Z.shiftl b1 k) b0 = b1 * 2 ^ k + b0.
Proof.
  intros Hk Hb0. rewrite <- Z.shiftl_mul_pow2 by lia.
  rewrite <- Z.lxor_lor, <- Z.add_nocarry_lxor; trivial.
  all: apply Z.bits_inj'; intros n Hn; rewrite Z.land_spec, Z.bits_0.
  all: destruct (Z.ltb_spec n k);
    [ rewrite Z.shiftl_spec_low by lia; reflexivity
    | rewrite (testbit_above b0 k n) by lia; apply andb_false_r ].
Qed.

Lemma le16_byte_at x : is_u16 x = true -> le16 (byte_at x 0) (byte_at x 8) = x.
Proof.
  rewrite is_u16_spec. intros Hx. unfold le16. rewrite !byte_at_mod by lia.
  rewrite lor_shiftl_add by (change (2 ^ 8) with 256; lia).
  change (2 ^ 8) with 256; change (2 ^ 0) with 1. lia.
Qed.

Lemma le16_divmod x : is_u16 x = true -> le16 (x mod 256) (x / 256) = x.
Proof.
  rewrite is_u16_spec. intros Hx. unfold le16.
  rewrite lor_shiftl_add by (change (2 ^ 8) with 256; lia).
  change (2 ^ 8) with 256. lia.
Qed.

Lemma le32_byte_at x :
  is_u32 x = true ->
  le32 (byte_at x 0) (byte_at x 8) (byte_at x 16) (byte_at x 24) = x.
Proof.
  rewrite is_u32_spec. intros Hx. unfold le32. rewrite !byte_at_mod by lia.
  rewrite <- !Z.lor_assoc.
  rewrite (lor_shiftl_add _ _ 8) by (change (2 ^ 8) with 256; lia).
  rewrite (lor_shiftl_add _ _ 16)
    by (change (2 ^ 8) with 256; change (2 ^ 16) with 65536; lia).
  rewrite (lor_shiftl_add _ _ 24)
    by (change (2 ^ 8) with 256; change (2 ^ 16) with 65536;
        change (2 ^ 24) with 16777216; lia).
  change (2 ^ 8) with 256; change (2 ^ 16) with 65536; change (2 ^ 0) with 1;
  change (2 ^ 24) with 16777216. lia.
Qed.

(** ** Round trip of the info codec *)

Ltac split_andb :=
  repeat match goal with
         | H : _ && _ = true |- _ => apply andb_prop in H; destruct H
         end.

(** Expose the elements of a list whose length is a known constant. *)
Ltac explode_list l :=
  repeat (destruct l as [|? l];
          [ try discriminate | try discriminate ]).

Lemma setitem_Some i v dst :
  is_byte v = true -> (i < length dst)%nat ->
  setitem i v dst = Some (<[i := v]> dst).
Proof.
  intros Hv Hi. unfold setitem. rewrite Hv.
  apply Nat.ltb_lt in Hi. now rewrite Hi.
Qed.


Lemma setslice_Some lo hi v dst :
  forallb is_byte v = true ->
  setslice lo hi v dst = Some (take lo dst ++ v ++ drop hi dst).
Proof. intros Hv. unfold setslice. now rewrite Hv. Qed.

Ltac solve_store_side :=
  first [ assumption
        | apply is_byte_byte_at
        | apply is_byte_mod256
        | apply is_byte_div256; assumption
        | reflexivity
        | cbn [length]; lia ].

Ltac run_stores :=
  repeat first
    [ rewrite setitem_Some by solve_store_side; cbn [insert list_insert]
    | rewrite setslice_Some by assumption; cbn [firstn skipn app] ].

(** C1 (as stated, refuted): [sample_info] is valid, with
    [sensor_model_id = 7] and [sensor_boot_ctrl = 1]; the bytes at offsets
    69 and 70 of its encoding are zero, and both fields decode as 0. *)
Lemma info_roundtrip_loses_model_and_boot :
  valid_info sample_info = true /\
  exists bytes r',
    encode_info_v2 sample_info = Some bytes /\
    decode_info_v2 bytes = Some r' /\
    bytes !! 69%nat = Some 0 /\ bytes !! 70%nat = Some 0 /\
    sensor_model_id r' <> sensor_model_id sample_info /\
    sensor_boot_ctrl r' <> sensor_boot_ctrl sample_info.
Proof.
  split; [reflexivity|]. eexists; eexists.
  split; [vm_compute; reflexivity|]. split; [vm_compute; reflexivity|].
  repeat split; cbn; discriminate.
Qed.

(** C1 (amended): for every valid record [r], [encode_info_v2] succeeds
    with 166 bytes and decoding them gives back [r] on the serial number
    and on every writable parameter; the fields stored at offsets 2..70,
    which include [sensor_model_id] (69) and [sensor_boot_ctrl] (70), and
    the lock byte come back as zero. *)
Theorem info_roundtrip_written_part (r : InfoRecord) :
  valid_info r = true ->
  exists bytes,
    encode_info_v2 r = Some bytes /\
    length bytes = 166%nat /\
    decode_info_v2 bytes = Some (written_part r).
Proof.
  destruct r. unfold valid_info, bytes_of_len, u16s_of_len, written_part.
  cbn [sensor_sn sensor_hw_id sensor_fw_ver sensor_fw_date sensor_fw_time
       sensor_calib_id sensor_fw0_ver sensor_fw1_ver sensor_fw2_ver
       sensor_model_id sensor_boot_ctrl capture_mode capture_row
       capture_shutter capture_limit capture_period_us capture_seq
       data_output data_baud data_sensor_ip data_dest_ip data_subnet
       data_gateway data_port data_mac_addr sync sync_trig_delay_us
       sync_ill_delay_us sync_trig_trim_us sync_ill_trim_us
       sync_output_delay_us arb arb_timeout lock].
  intros Hv. split_andb.
  explode_list capture_shutter0. explode_list capture_limit0.
  explode_list data_sensor_ip0. explode_list data_dest_ip0.
  explode_list data_subnet0. explode_list data_gateway0.
  explode_list data_mac_addr0. explode_list sync_ill_delay_us0.
  repeat match goal with
         | H : forallb is_u16 _ = true |- _ => cbn [forallb] in H
         end.
  split_andb.
  cbv [encode_info_v2 for_range].
  cbn [sensor_sn capture_mode capture_row
       capture_shutter capture_limit capture_period_us capture_seq
       data_output data_baud data_sensor_ip data_dest_ip data_subnet
       data_gateway data_port data_mac_addr sync sync_trig_delay_us
       sync_ill_delay_us sync_trig_trim_us sync_ill_trim_us
       sync_output_delay_us arb arb_timeout
       Nat.add Nat.mul lookup list_lookup replicate].
  run_stores.
  eexists; split; [reflexivity|]. split; [reflexivity|].
  cbv [decode_info_v2 get16 get32 slice].
  cbn [lookup list_lookup Nat.add Nat.sub firstn skipn].
  rewrite le16_divmod by assumption.
  rewrite !le16_byte_at, !le32_byte_at by assumption.
  reflexivity.
Qed.

Lemma info_roundtrip_written_part_witness :
  valid_info sample_info = true /\
  exists bytes,
    encode_info_v2 sample_info = Some bytes /\
    length bytes = 166%nat /\
    decode_info_v2 bytes = Some (written_part sample_info).
Proof.
  split; [reflexivity|].
  apply (info_roundtrip_written_part sample_info). reflexivity.
Defined.


(** ** CRC-16: the table against the bitwise definition *)

Lemma Z_range_forallb_spec f n : forall lo x,
  Z_range_forallb f lo n = true -> lo <= x < lo + Z.of_nat n -> f x = true.
Proof.
  induction n as [|n IH]; intros lo x Hall Hx; [lia|].
  cbn [Z_range_forallb] in Hall. apply andb_prop in Hall as [Hlo Hrest].
  destruct (Z.eq_dec x lo) as [->|Hne]; [assumption|].
  apply (IH (lo + 1)); [assumption | lia].
Qed.

Lemma table_entries_all : Z_range_forallb table_entry_ok 0 256 = true.
Proof. vm_compute. reflexivity. Qed.

Lemma table_agrees_all :
  Z_range_forallb table_agrees 0 (Z.to_nat 65536) = true.
Proof. vm_compute. reflexivity. Qed.

Lemma table_form_bitwise x :
  0 <= x < 65536 -> table_form x = Some (Nat.iter 8 crc16_shift x).
Proof.
  intros Hx.
  pose proof (Z_range_forallb_spec _ _ 0 x table_agrees_all ltac:(lia)) as H.
  unfold table_agrees in H. destruct (table_form x) as [v|]; [|discriminate].
  apply Z.eqb_eq in H. now subst.
Qed.

Lemma lxor_bound a b k :
  0 <= k -> 0 <= a < 2 ^ k -> 0 <= b < 2 ^ k -> 0 <= Z.lxor a b < 2 ^ k.
Proof.
  intros Hk Ha Hb.
  assert (Hnn : 0 <= Z.lxor a b) by (apply Z.lxor_nonneg; lia).
  split; [assumption|].
  destruct (Z.lt_ge_cases (Z.lxor a b) (2 ^ k)) as [|Hge]; [assumption|exfalso].
  assert (Hpos : 0 < Z.lxor a b) by lia.
  pose proof (Z.bit_log2 _ Hpos) as Hbit.
  assert (k <= Z.log2 (Z.lxor a b)) by (apply Z.log2_le_pow2; lia).
  rewrite Z.lxor_spec in Hbit.
  rewrite (testbit_above a k), (testbit_above b k) in Hbit by lia.
  discriminate.
Qed.

Lemma fold_byte_range crc byte :
  0 <= crc < 65536 -> 0 <= byte < 256 ->
  0 <= Z.lxor crc (Z.shiftl byte 8) < 65536.
Proof.
  intros Hc Hb. apply (lxor_bound _ _ 16); [lia|lia|].
  rewrite Z.shiftl_mul_pow2 by lia. change (2 ^ 8) with 256.
  change (2 ^ 16) with 65536. lia.
Qed.

Lemma fold_byte_index crc byte :
  Z.shiftr (Z.lxor crc (Z.shiftl byte 8)) 8 = Z.lxor (Z.shiftr crc 8) byte.
Proof.
  rewrite Z.shiftr_lxor. f_equal. apply Z.shiftr_shiftl_l. lia.
Qed.

Lemma fold_byte_low crc byte t :
  Z.land (Z.lxor (Z.shiftl (Z.lxor crc (Z.shiftl byte 8)) 8) t) 0xFFFF
  = Z.land (Z.lxor (Z.shiftl crc 8) t) 0xFFFF.
Proof.
  apply Z.bits_inj'; intros n Hn.
  rewrite !Z.land_spec, !Z.lxor_spec, !Z.shiftl_spec, Z.lxor_spec by lia.
  change 0xFFFF with (Z.ones 16).
  destruct (Z.ltb_spec n 16).
  - rewrite (Z.shiftl_spec_low byte) by lia. now rewrite xorb_false_r.
  - rewrite Z.ones_spec_high by lia. now rewrite !andb_false_r.
Qed.

Lemma crc16_step_bitwise crc byte :
  0 <= crc < 65536 -> is_byte byte = true ->
  crc16_step crc byte = Some (crc16_bitwise_byte crc byte).
Proof.
  intros Hc Hb. apply is_byte_spec in Hb.
  pose proof (table_form_bitwise _ (fold_byte_range crc byte Hc Hb)) as H.
  unfold table_form in H. rewrite fold_byte_index in H.
  unfold crc16_step, crc16_bitwise_byte.
  destruct (CRC16Table !! _) as [t|]; [|discriminate].
  rewrite fold_byte_low in H. exact H.
Qed.

Lemma crc16_step_range crc byte v :
  crc16_step crc byte = Some v -> 0 <= v < 65536.
Proof.
  unfold crc16_step. destruct (CRC16Table !! _) as [t|]; [|discriminate].
  intros [= <-]. change 0xFFFF with (Z.ones 16). rewrite Z.land_ones by lia.
  apply Z.mod_pos_bound. lia.
Qed.

Lemma crc16_loop_bitwise packet : forall crc,
  0 <= crc < 65536 -> forallb is_byte packet = true ->
  crc16_loop packet crc = Some (fold_left crc16_bitwise_byte packet crc).
Proof.
  induction packet as [|byte rest IH]; intros crc Hc Hp; [reflexivity|].
  cbn [forallb] in Hp. apply andb_prop in Hp as [Hb Hrest].
  cbn [crc16_loop fold_left].
  pose proof (crc16_step_bitwise crc byte Hc Hb) as Hstep. rewrite Hstep.
  apply IH; [|assumption]. exact (crc16_step_range _ _ _ Hstep).
Qed.

(** C3: the table has 256 entries, each the bitwise CRC of its index taken
    as the high byte; on every byte string [get_crc16] is the bitwise
    CRC-16/CCITT (width 16, polynomial 0x1021, initial value 0xFFFF, no
    reflection, no final XOR); and the check value of "123456789" is
    0x29B1. *)
Theorem get_crc16_is_crc16_ccitt :
  length CRC16Table = 256%nat /\
  (forall i, 0 <= i < 256 ->
     CRC16Table !! Z.to_nat i = Some (Nat.iter 8 crc16_shift (Z.shiftl i 8))) /\
  (forall packet, forallb is_byte packet = true ->
     get_crc16 packet = Some (crc16_ccitt_bitwise packet)) /\
  get_crc16 check_input = Some 0x29B1.
Proof.
  split; [reflexivity|]. split; [|split].
  - intros i Hi.
    pose proof (Z_range_forallb_spec _ _ 0 i table_entries_all ltac:(lia)) as H.
    unfold table_entry_ok in H. destruct (CRC16Table !! _) as [t|]; [|discriminate].
    apply Z.eqb_eq in H. now subst.
  - intros packet Hp. apply crc16_loop_bitwise; [lia | assumption].
  - vm_compute. reflexivity.
Qed.

Lemma get_crc16_is_crc16_ccitt_witness :
  forallb is_byte check_input = true /\
  get_crc16 check_input = Some (crc16_ccitt_bitwise check_input).
Proof.
  split; [reflexivity|].
  apply (proj1 (proj2 (proj2 get_crc16_is_crc16_ccitt))). reflexivity.
Defined.


(** ** Flash-block framing *)

Lemma forallb_is_byte_app a b :
  forallb is_byte (a ++ b) = forallb is_byte a && forallb is_byte b.
Proof. apply forallb_app. Qed.

Lemma forallb_is_byte_replicate n v :
  is_byte v = true -> forallb is_byte (replicate n v) = true.
Proof. intros Hv. induction n as [|n IH]; cbn; [reflexivity|]. now rewrite Hv, IH. Qed.

Lemma forallb_is_byte_take n l :
  forallb is_byte l = true -> forallb is_byte (take n l) = true.
Proof.
  revert n. induction l as [|x l IH]; intros [|n] H; cbn in *; try reflexivity.
  apply andb_prop in H as [-> H]. cbn. now apply IH.
Qed.

Lemma forallb_is_byte_drop n l :
  forallb is_byte l = true -> forallb is_byte (drop n l) = true.
Proof.
  revert n. induction l as [|x l IH]; intros [|n] H; cbn in *; try reflexivity;
    try assumption.
  apply andb_prop in H as [_ H]. now apply IH.
Qed.

Lemma padded_length chunk : (length chunk <= 1024)%nat -> length (padded chunk) = 1024%nat.
Proof. intros H. unfold padded. rewrite length_app, length_replicate. lia. Qed.

Lemma padded_bytes chunk :
  forallb is_byte chunk = true -> forallb is_byte (padded chunk) = true.
Proof.
  intros H. unfold padded. rewrite forallb_is_byte_app, H.
  now rewrite forallb_is_byte_replicate.
Qed.

Lemma land_255_id i : 0 <= i < 256 -> Z.land i 0xFF = i.
Proof.
  intros Hi. change 0xFF with (Z.ones 8). rewrite Z.land_ones by lia.
  apply Z.mod_small. lia.
Qed.

Lemma build_flash_block_layout hw_id fw_version i chunk :
  bytes_of_len 30 hw_id = true -> bytes_of_len 3 fw_version = true ->
  forallb is_byte chunk = true -> (length chunk <= 1024)%nat ->
  0 <= i < 256 ->
  build_flash_block hw_id fw_version i chunk
  = Some (flash_block_layout hw_id fw_version i chunk).
Proof.
  unfold bytes_of_len. intros Hhw Hfw Hc Hlen Hi.
  apply andb_prop in Hhw as [Hhwl Hhwb]. apply andb_prop in Hfw as [Hfwl Hfwb].
  unfold build_flash_block, bytearray. rewrite Hhwb, Hfwb.
  assert (Hbody :
    match chunk with
    | [] => replicate 1024 0xFF
    | _ => if negb (length chunk =? 1024)%nat
           then chunk ++ replicate (1024 - length chunk) 0xFF else chunk
    end = padded chunk).
  { unfold padded. destruct chunk as [|c chunk']; [reflexivity|].
    destruct (Nat.eqb_spec (length (c :: chunk')) 1024) as [->|_]; cbn [negb].
    - rewrite Nat.sub_diag. cbn [replicate]. now rewrite app_nil_r.
    - reflexivity. }
  rewrite Hbody. unfold get_crc16.
  rewrite crc16_loop_bitwise by (try lia; now apply padded_bytes).
  explode_list hw_id. explode_list fw_version.
  rewrite land_255_id by assumption.
  cbn [app flash_block_headder].
  rewrite setitem_Some.
  - reflexivity.
  - apply is_byte_spec; lia.
  - cbn [length]. lia.
Qed.

Lemma flash_block_layout_length hw_id fw_version i chunk :
  length hw_id = 30%nat -> length fw_version = 3%nat ->
  (length chunk <= 1024)%nat ->
  length (flash_block_layout hw_id fw_version i chunk) = 1070%nat.
Proof.
  intros Hhw Hfw Hc. unfold flash_block_layout.
  rewrite !length_app, Hhw, Hfw, padded_length by assumption. reflexivity.
Qed.

(** Reading moves the position by what was read; what is left of the file
    is what follows the next 1024 bytes. *)
Lemma file_read_rest f :
  let '(chunk, f') := file_read 1024 f in
  chunk = take 1024 (drop (pos f) (content f)) /\
  content f' = content f /\
  drop (pos f') (content f') = drop 1024 (drop (pos f) (content f)).
Proof.
  unfold file_read. cbn [content pos]. split; [reflexivity|]. split; [reflexivity|].
  set (rest := drop (pos f) (content f)).
  rewrite <- drop_drop. fold rest.
  rewrite length_take.
  destruct (Nat.le_gt_cases 1024 (length rest)).
  - rewrite Nat.min_l by lia. reflexivity.
  - rewrite Nat.min_r by lia. rewrite !drop_ge by lia. reflexivity.
Qed.

Lemma flash_blocks_from_layout hw_id fw_version n : forall f o,
  bytes_of_len 30 hw_id = true -> bytes_of_len 3 fw_version = true ->
  forallb is_byte (content f) = true ->
  0 <= o -> o + Z.of_nat n <= 256 ->
  exists blocks,
    flash_blocks_from hw_id fw_version f o n = Some blocks /\
    length blocks = n /\
    forall k, (k < n)%nat ->
      blocks !! k =
      Some (flash_block_layout hw_id fw_version (o + Z.of_nat k)
              (take 1024 (drop (k * 1024) (drop (pos f) (content f))))).
Proof.
  induction n as [|n IH]; intros f o Hhw Hfw Hb Ho Hn.
  - exists []. repeat split; [intros k Hk; lia].
  - cbn [flash_blocks_from].
    pose proof (file_read_rest f) as Hread.
    destruct (file_read 1024 f) as [chunk f']. destruct Hread as (-> & Hc & Hrest).
    rewrite build_flash_block_layout; try assumption; try lia.
    2: { apply forallb_is_byte_take, forallb_is_byte_drop, Hb. }
    2: { rewrite length_take. lia. }
    destruct (IH f' (o + 1)) as (rest & -> & Hlen & Hnth);
      try assumption; try lia.
    { now rewrite Hc. }
    eexists; split; [reflexivity|]. split; [cbn [length]; lia|].
    intros [|k] Hk.
    + cbn [lookup list_lookup]. rewrite Z.add_0_r. reflexivity.
    + cbn [lookup list_lookup]. change (rest !! k = ?x) with (rest !! k = x).
      rewrite Hnth by lia. rewrite Hrest, drop_drop.
      replace (o + 1 + Z.of_nat k) with (o + Z.of_nat (S k)) by lia.
      replace (1024 + k * 1024)%nat with (S k * 1024)%nat by lia.
      reflexivity.
Qed.

Lemma flash_blocks_layout hw_id fw_version P :
  bytes_of_len 30 hw_id = true -> bytes_of_len 3 fw_version = true ->
  forallb is_byte P = true ->
  exists blocks,
    flash_blocks hw_id fw_version P = Some blocks /\
    length blocks = 256%nat /\
    forall i, (i < 256)%nat ->
      blocks !! i =
      Some (flash_block_layout hw_id fw_version (Z.of_nat i)
              (slice (i * 1024) ((i + 1) * 1024) P)).
Proof.
  intros Hhw Hfw HP.
  destruct (flash_blocks_from_layout hw_id fw_version 256
              {| content := P; pos := 0 |} 0) as (blocks & Hb & Hlen & Hnth);
    try assumption; try lia.
  exists blocks. split; [exact Hb|]. split; [exact Hlen|].
  intros i Hi. rewrite (Hnth i Hi). cbn [pos content drop]. unfold slice.
  replace ((i + 1) * 1024 - i * 1024)%nat with 1024%nat by lia.
  reflexivity.
Qed.

Lemma slice_length_le lo hi (l : list Z) : (length (slice lo hi l) <= hi - lo)%nat.
Proof. unfold slice. rewrite length_take. lia. Qed.

(** C8: for a payload [P] of at most 256 KiB, the frame built for block
    [i] carries the bytes [P[i*1024 .. (i+1)*1024]] as its 1024-byte
    payload (packet offsets 42..1066), filled with 0xFF past the end of
    [P], and every frame is 1070 bytes long. *)
Theorem flash_block_payload (P hw_id fw_version : list Z) :
  forallb is_byte P = true ->
  (length P <= 256 * 1024)%nat ->
  bytes_of_len 30 hw_id = true ->
  bytes_of_len 3 fw_version = true ->
  exists blocks,
    flash_blocks hw_id fw_version P = Some blocks /\
    length blocks = 256%nat /\
    Forall (fun blk => length blk = 1070%nat) blocks /\
    forall i blk, blocks !! i = Some blk ->
      let chunk := slice (i * 1024) ((i + 1) * 1024) P in
      slice 42 1066 blk = chunk ++ replicate (1024 - length chunk) 0xFF /\
      ((length P <= i * 1024)%nat -> slice 42 1066 blk = replicate 1024 0xFF).
Proof.
  intros HP _ Hhw Hfw.
  destruct (flash_blocks_layout hw_id fw_version P Hhw Hfw HP)
    as (blocks & Hb & Hlen & Hnth).
  assert (Hhwl : length hw_id = 30%nat).
  { unfold bytes_of_len in Hhw. apply andb_prop in Hhw as [H _].
    now apply Nat.eqb_eq in H. }
  assert (Hfwl : length fw_version = 3%nat).
  { unfold bytes_of_len in Hfw. apply andb_prop in Hfw as [H _].
    now apply Nat.eqb_eq in H. }
  exists blocks. split; [exact Hb|]. split; [exact Hlen|]. split.
  - apply Forall_lookup_2. intros i blk Hi.
    assert (i < 256)%nat as Hi' by (rewrite <- Hlen; eapply lookup_lt_Some, Hi).
    rewrite (Hnth i Hi') in Hi. injection Hi as <-.
    apply flash_block_layout_length; try assumption.
    pose proof (slice_length_le (i * 1024) ((i + 1) * 1024) P). lia.
  - intros i blk Hi chunk.
    assert (i < 256)%nat as Hi' by (rewrite <- Hlen; eapply lookup_lt_Some, Hi).
    rewrite (Hnth i Hi') in Hi. injection Hi as <-. fold chunk.
    assert (Hcl : (length chunk <= 1024)%nat).
    { pose proof (slice_length_le (i * 1024) ((i + 1) * 1024) P). subst chunk. lia. }
    assert (Hpay : slice 42 1066 (flash_block_layout hw_id fw_version (Z.of_nat i) chunk)
                   = padded chunk).
    { unfold flash_block_layout, slice.
      replace (flash_block_headder ++ hw_id ++ [2; 2; Z.of_nat i] ++ fw_version
               ++ padded chunk ++ crc_bytes (padded chunk) ++ tail)
        with ((flash_block_headder ++ hw_id ++ [2; 2; Z.of_nat i] ++ fw_version)
              ++ padded chunk ++ crc_bytes (padded chunk) ++ tail)
        by (rewrite <- !app_assoc; reflexivity).
      rewrite drop_app_length'
        by (rewrite !length_app, Hhwl, Hfwl; reflexivity).
      rewrite take_app_length' by (rewrite padded_length by assumption; reflexivity).
      reflexivity. }
    rewrite Hpay. split; [reflexivity|].
    intros Hpast. unfold padded.
    assert (chunk = []) as ->.
    { subst chunk. unfold slice. rewrite drop_ge by lia. now rewrite take_nil. }
    reflexivity.
Qed.

Lemma flash_block_payload_witness :
  forallb is_byte [1; 2; 3] = true /\
  (length [1; 2; 3] <= 256 * 1024)%nat /\
  bytes_of_len 30 sample_hw_id = true /\
  bytes_of_len 3 sample_fw_version = true /\
  exists blocks,
    flash_blocks sample_hw_id sample_fw_version [1; 2; 3] = Some blocks /\
    length blocks = 256%nat /\
    Forall (fun blk => length blk = 1070%nat) blocks /\
    forall i blk, blocks !! i = Some blk ->
      let chunk := slice (i * 1024) ((i + 1) * 1024) [1; 2; 3] in
      slice 42 1066 blk = chunk ++ replicate (1024 - length chunk) 0xFF /\
      ((length [1; 2; 3] <= i * 1024)%nat ->
       slice 42 1066 blk = replicate 1024 0xFF).
Proof.
  assert (H : (length [1; 2; 3] <= 256 * 1024)%nat) by (cbn [length]; lia).
  split; [reflexivity|]. split; [exact H|].
  split; [reflexivity|]. split; [reflexivity|].
  apply (flash_block_payload [1; 2; 3]); [reflexivity | exact H | reflexivity..].
Defined.


(** C2 (as stated, refuted): in the frame for block 1 of an empty
    firmware file the byte 44 bytes after the start of the packet (offset
    38 of the body) is payload, 0xFF, not the block index, and the body
    does not begin with [hw_id ++ [2; 2; 0] ++ fw_version]. *)
Lemma flash_block_index_not_at_body_offset_38 :
  exists blocks blk,
    flash_blocks sample_hw_id sample_fw_version [] = Some blocks /\
    blocks !! 1%nat = Some blk /\
    blk !! 44%nat <> Some 1 /\
    drop 6 blk !! 38%nat <> Some 1 /\
    take 36 (drop 6 blk) <> sample_hw_id ++ [2; 2; 0] ++ sample_fw_version.
Proof.
  destruct (flash_blocks_layout sample_hw_id sample_fw_version [])
    as (blocks & Hb & _ & Hnth); try reflexivity.
  eexists; eexists. split; [exact Hb|]. split; [apply (Hnth 1%nat); lia|].
  repeat split; vm_compute; discriminate.
Qed.

(** C2 (amended): in the frame for block [i] the block index is the byte at
    offset 38 of the packet, header included, that is offset 32 of the
    body: it replaces the third of the constant bytes [2; 2; 0], so the body
    begins with [hw_id ++ [2; 2; i] ++ fw_version]. *)
Theorem flash_block_index_at_packet_offset_38 (P hw_id fw_version : list Z) :
  forallb is_byte P = true ->
  bytes_of_len 30 hw_id = true ->
  bytes_of_len 3 fw_version = true ->
  exists blocks,
    flash_blocks hw_id fw_version P = Some blocks /\
    length blocks = 256%nat /\
    forall i blk, blocks !! i = Some blk ->
      blk !! 38%nat = Some (Z.of_nat i) /\
      take 6 blk = flash_block_headder /\
      drop 6 blk !! 32%nat = Some (Z.of_nat i) /\
      take 36 (drop 6 blk) = hw_id ++ [2; 2; Z.of_nat i] ++ fw_version.
Proof.
  intros HP Hhw Hfw.
  destruct (flash_blocks_layout hw_id fw_version P Hhw Hfw HP)
    as (blocks & Hb & Hlen & Hnth).
  exists blocks. split; [exact Hb|]. split; [exact Hlen|].
  intros i blk Hi.
  assert (i < 256)%nat as Hi' by (rewrite <- Hlen; eapply lookup_lt_Some, Hi).
  rewrite (Hnth i Hi') in Hi. injection Hi as <-.
  unfold bytes_of_len in Hhw, Hfw.
  apply andb_prop in Hhw as [Hhwl _]. apply andb_prop in Hfw as [Hfwl _].
  explode_list hw_id. explode_list fw_version.
  unfold flash_block_layout. cbn [app flash_block_headder].
  repeat split; reflexivity.
Qed.

Lemma flash_block_index_at_packet_offset_38_witness :
  forallb is_byte [1; 2; 3] = true /\
  bytes_of_len 30 sample_hw_id = true /\
  bytes_of_len 3 sample_fw_version = true /\
  exists blocks,
    flash_blocks sample_hw_id sample_fw_version [1; 2; 3] = Some blocks /\
    length blocks = 256%nat /\
    forall i blk, blocks !! i = Some blk ->
      blk !! 38%nat = Some (Z.of_nat i) /\
      take 6 blk = flash_block_headder /\
      drop 6 blk !! 32%nat = Some (Z.of_nat i) /\
      take 36 (drop 6 blk)
      = sample_hw_id ++ [2; 2; Z.of_nat i] ++ sample_fw_version.
Proof.
  split; [reflexivity|]. split; [reflexivity|]. split; [reflexivity|].
  apply (flash_block_index_at_packet_offset_38 [1; 2; 3]); reflexivity.
Defined.

(** ** cmd_sendonly *)

(** Whatever the targets, every frame [cmd_sendonly] sends goes to the
    broadcast address of an interface. *)
Lemma cmd_sendonly_only_broadcasts cmd_msg host_list log :
  cmd_sendonly cmd_msg host_list = Sent log ->
  Forall (fun e => exists ip sock pkt,
            (ip, sock) ∈ create_sockets host_list /\
            e = SendTo ip pkt (broadcast sock) sensor_config_port) log.
Proof.
  unfold cmd_sendonly.
  destruct (match cmd_command cmd_msg with
            | c_pause => Some cmd_pause | c_measure => Some cmd_measure
            | c_reboot => Some cmd_reboot | c_redirect => Some cmd_redirect
            | _ => None end) as [pkt|]; [|discriminate].
  destruct (ports_given host_list); cbn [negb]; [|discriminate].
  generalize (create_sockets host_list) as sockets. intros sockets.
  destruct (bool_decide _); intros [= <-]; apply Forall_forall; intros e He.
  - apply list_elem_of_In, in_map_iff in He as ([ip sock] & <- & Hin).
    exists ip, sock, pkt. split; [now apply list_elem_of_In | reflexivity].
  - apply list_elem_of_In, in_flat_map in He as (target & _ & He).
    apply in_flat_map in He as ([ip sock] & Hin & He).
    destruct (is_in_subnet _ _ _); [|destruct He].
    destruct He as [<-|[]].
    exists ip, sock, pkt. split; [now apply list_elem_of_In | reflexivity].
Qed.

(** C4 (the code at the failing input): [-p 192.168.5.200] on the host
    192.168.5.2/24 sends the pause frame to the broadcast address
    192.168.5.255, not to 192.168.5.200. *)
Lemma cmd_sendonly_pause_by_ip_is_broadcast :
  cmd_sendonly pause_by_ip host_5
  = Sent [SendTo (ipv4 192 168 5 2)
            [0xA5; 0x5A; 0x30; 0x00; 0x04; 0x00; 0x01; 0x01; 0x00; 0x00; 0xA5; 0x5A]
            (ipv4 192 168 5 255) 4906]
  /\ ipv4 192 168 5 255 <> ipv4 192 168 5 200.
Proof. split; [reflexivity | discriminate]. Qed.


(** ** Safe-boot recovery *)

Section SafeBoot.

Variable recvfrom : Z -> Z -> nat -> option datagram.
Variable item_sn : Z.

(** No info frame ever shows the sensor [item_sn] in safe-boot mode. *)
Hypothesis no_qualifying_reply : forall ip sock_port t d r,
  recvfrom ip sock_port t = Some d ->
  is_frame 166 info_v2_header (dg_data d) = true ->
  decode_info_v2 (slice 6 172 (dg_data d)) = Some r ->
  sensor_sn r = item_sn -> sensor_boot_ctrl r <> 0.

Lemma await_safe_boot_on_keeps_error fuel ip sock_port : forall s e s',
  await_safe_boot_on recvfrom fuel ip sock_port item_sn true s = Done e s' ->
  e = true.
Proof.
  induction fuel as [|fuel IH]; intros s e s' H; [discriminate|].
  cbn [await_safe_boot_on negb] in H. unfold bind, recv in H.
  destruct (recvfrom ip sock_port (now s)) as [d|] eqn:Hd.
  - destruct (is_frame 166 info_v2_header (dg_data d)) eqn:Hf.
    + unfold try_ in H.
      destruct (decode_info_v2 (slice 6 172 (dg_data d))) as [r|] eqn:Hr;
        [|discriminate].
      unfold ret in H.
      destruct (Z.eqb_spec (sensor_sn r) item_sn) as [Hsn|Hsn].
      * destruct (Z.eqb_spec (sensor_boot_ctrl r) 0) as [Hb|Hb].
        -- exfalso. eapply no_qualifying_reply; eauto.
        -- now injection H as <- _.
      * eapply IH, H.
    + eapply IH, H.
  - unfold ret in H. now injection H as <- _.
Qed.

Lemma await_safe_boot_ports_keep_error fuel ip ports : forall s e s',
  for_each ports
    (fun sock_port error =>
       await_safe_boot_on recvfrom fuel ip sock_port item_sn error) true s
  = Done e s' -> e = true.
Proof.
  induction ports as [|p ports IH]; intros s e s' H.
  - cbn in H. unfold ret in H. now injection H as <- _.
  - cbn [for_each] in H. unfold bind in H.
    destruct (await_safe_boot_on recvfrom fuel ip p item_sn true s)
      as [e1 s1| |] eqn:H1; try discriminate.
    apply await_safe_boot_on_keeps_error in H1 as ->. eapply IH, H.
Qed.

(** The loop that waits for the sensor's info never exits by itself. *)
Lemma await_safe_boot_never_returns fuel ip sock : forall s e s',
  await_safe_boot recvfrom fuel ip sock item_sn true s <> Done e s'.
Proof.
  induction fuel as [|fuel IH]; intros s e s' H; [discriminate|].
  cbn [await_safe_boot negb] in H. unfold bind, sendto in H.
  match type of H with
  | match for_each ?l ?f true ?s0 with _ => _ end = _ =>
    destruct (for_each l f true s0) as [e1 s1| |] eqn:H1; try discriminate
  end.
  apply await_safe_boot_ports_keep_error in H1 as ->.
  eapply IH, H.
Qed.

Lemma safe_boot_tries_never_returns fuel tries ip sock target_ip : forall s r s',
  safe_boot_tries recvfrom fuel (S tries) ip sock target_ip item_sn true s
  <> Done r s'.
Proof.
  intros s r s' H. cbn [safe_boot_tries] in H. unfold bind, sendto in H.
  match type of H with
  | match await_safe_boot ?a ?b ?c ?d ?e ?f ?s0 with _ => _ end = _ =>
    destruct (await_safe_boot a b c d e f s0) as [e1 s1| |] eqn:H1;
      try discriminate
  end.
  eapply await_safe_boot_never_returns, H1.
Qed.

(** The recovery does not terminate: whatever the fuel, it is still
    waiting, as soon as one interface reaches the sensor. *)
Lemma safe_boot_recovery_never_returns fuel sockets target_ip :
  (exists ip sock, (ip, sock) ∈ sockets /\
                   is_in_subnet target_ip ip (sock_subnet sock) = true) ->
  forall s e s',
    safe_boot_recovery recvfrom fuel sockets target_ip item_sn s <> Done e s'.
Proof.
  intros Hin s e s' H. unfold safe_boot_recovery, bind in H.
  match type of H with
  | match ?m with _ => _ end = _ =>
    destruct m as [r s1| |] eqn:H1; try discriminate
  end.
  clear H. revert s H1. generalize 2%nat as tries.
  induction sockets as [|[ip sock] sockets IH]; intros tries s H1.
  - destruct Hin as (? & ? & Hin & _). inversion Hin.
  - cbn [for_each] in H1. unfold bind in H1.
    destruct (is_in_subnet target_ip ip (sock_subnet sock)) eqn:Hsub.
    + match type of H1 with
      | match ?m with _ => _ end = _ =>
        destruct m as [r1 s2| |] eqn:H2; try discriminate
      end.
      eapply safe_boot_tries_never_returns, H2.
    + unfold ret in H1. eapply IH; [|exact H1].
      destruct Hin as (ip' & sock' & Hin & Hsub').
      apply elem_of_cons in Hin as [Heq|Hin].
      * injection Heq as -> ->. congruence.
      * eauto.
Qed.

End SafeBoot.


(** ** Reasoning about runs *)

Lemma spec_ret {A} (a : A) P (Q : A -> Prop) : Q a -> spec (ret a) P Q.
Proof.
  intros Ha s. split.
  - exists []. now rewrite app_nil_r.
  - intros a' s' [= <- _]. exact Ha.
Qed.

Lemma spec_raise {A} P (Q : A -> Prop) : spec raise P Q.
Proof.
  intros s. split; [|discriminate]. exists []. now rewrite app_nil_r.
Qed.

Lemma spec_out_of_fuel {A} P (Q : A -> Prop) : spec out_of_fuel P Q.
Proof.
  intros s. split; [|discriminate]. exists []. now rewrite app_nil_r.
Qed.

Lemma spec_try {A} (o : option A) P (Q : A -> Prop) :
  (forall a, o = Some a -> Q a) -> spec (try_ o) P Q.
Proof.
  intros H. destruct o as [a|]; [apply spec_ret; auto | apply spec_raise].
Qed.

Lemma spec_bind {A B} (m : M A) (k : A -> M B) P (Q : A -> Prop) (R : B -> Prop) :
  spec m P Q -> (forall a, Q a -> spec (k a) P R) -> spec (bind m k) P R.
Proof.
  intros Hm Hk s. destruct (Hm s) as [(new & Htr & Hnew) Hq]. unfold bind.
  destruct (m s) as [a s1|s1|s1] eqn:Hms; cbn [final] in *.
  - destruct (Hk a (Hq a s1 eq_refl) s1) as [(new' & Htr' & Hnew') Hr].
    split; [|exact Hr].
    exists (new ++ new'). rewrite Htr', Htr, app_assoc. split; [reflexivity|].
    now apply Forall_app.
  - split; [eauto | discriminate].
  - split; [eauto | discriminate].
Qed.

Lemma spec_weaken {A} (m : M A) (P P' : event -> Prop) (Q Q' : A -> Prop) :
  spec m P Q -> (forall e, P e -> P' e) -> (forall a, Q a -> Q' a) ->
  spec m P' Q'.
Proof.
  intros Hm HP HQ s. destruct (Hm s) as [(new & Htr & Hnew) Hq]. split.
  - exists new. split; [exact Htr|]. eapply Forall_impl; eauto.
  - intros a s' H. eauto.
Qed.

Lemma spec_for_each {A S} (l : list A) (body : A -> S -> M S) P (I : S -> Prop) :
  (forall x st, x ∈ l -> I st -> spec (body x st) P I) ->
  forall st, I st -> spec (for_each l body st) P I.
Proof.
  induction l as [|x l IH]; intros Hbody st Hst; cbn [for_each].
  - now apply spec_ret.
  - eapply spec_bind.
    + apply Hbody; [left | exact Hst].
    + intros st' Hst'. apply IH; [|exact Hst'].
      intros y st'' Hy. apply Hbody. now right.
Qed.

Section Logic.

Variable recvfrom : Z -> Z -> nat -> option datagram.
Variable is_enter_pressed : nat -> bool.

Lemma spec_sendto via pkt dst dport (P : event -> Prop) :
  P (SendTo via pkt dst dport) -> spec (sendto via pkt dst dport) P (fun _ => True).
Proof.
  intros He s. split; [|trivial]. exists [SendTo via pkt dst dport].
  split; [reflexivity|]. now constructor.
Qed.

(** A received datagram is one the environment delivers. *)
Lemma spec_recv ip sock_port (P : event -> Prop) :
  (forall t d, recvfrom ip sock_port t = Some d ->
               P (RecvFrom ip sock_port (dg_data d) (dg_sender d))) ->
  spec (recv recvfrom ip sock_port) P
    (fun r => forall d, r = Some d -> exists t, recvfrom ip sock_port t = Some d).
Proof.
  intros He s. unfold recv. split.
  - cbn [final trace].
    destruct (recvfrom ip sock_port (now s)) as [d|] eqn:Hd.
    + eexists; split; [reflexivity|]. constructor; [|constructor]. eauto.
    + exists []. split; [reflexivity | constructor].
  - intros r s' [= <- _] d Hd. eauto.
Qed.


Lemma spec_enter_pressed (P : event -> Prop) :
  spec (enter_pressed is_enter_pressed) P (fun _ => True).
Proof.
  intros s. split; [|trivial]. exists []. cbn. now rewrite app_nil_r.
Qed.

Lemma spec_broadcast_all sockets pkt (P : event -> Prop) :
  (forall ip sock, (ip, sock) ∈ sockets ->
                   P (SendTo ip pkt (broadcast sock) sensor_config_port)) ->
  spec (broadcast_all sockets pkt) P (fun _ => True).
Proof.
  intros He. unfold broadcast_all.
  apply (spec_for_each _ _ P (fun _ => True)); [|trivial].
  intros [ip sock] [] Hin _. apply spec_sendto. auto.
Qed.

Lemma spec_send_in_subnet sockets pkt dst (P : event -> Prop) :
  (forall ip, P (SendTo ip pkt dst sensor_config_port)) ->
  spec (send_in_subnet sockets pkt dst) P (fun _ => True).
Proof.
  intros He. unfold send_in_subnet.
  apply (spec_for_each _ _ P (fun _ => True)); [|trivial].
  intros [ip sock] [] Hin _.
  destruct (is_in_subnet _ _ _); [apply spec_sendto; auto | now apply spec_ret].
Qed.

End Logic.


(** *** Every program only appends to the trace *)




Section Grows.

Variable recvfrom : Z -> Z -> nat -> option datagram.









End Grows.


(** ** Update: the version check *)


Section VersionCheck.

Variable recvfrom : Z -> Z -> nat -> option datagram.

Lemma broadcast_all_done sockets pkt s :
  broadcast_all sockets pkt s
  = Done tt {| now := now s; trace := trace s ++ broadcasts sockets pkt |}.
Proof.
  unfold broadcast_all, broadcasts. revert s.
  induction sockets as [|[ip sock] sockets IH]; intros s; cbn [for_each map].
  - unfold ret. rewrite app_nil_r. now destruct s.
  - unfold bind, sendto. rewrite IH. cbn [now trace].
    now rewrite <- app_assoc.
Qed.





End VersionCheck.


(** The checks that follow the version check stay in force under
    [--overwrite]: a sensor whose slot-1 version is the file's but whose
    configuration is locked is skipped; nothing was sent but the
    [cmd_pause] broadcast. *)
Lemma overwrite_skips_locked_sensor :
  sensor_fw1_ver (live_456 sample_fw_version 0 1) = fw_version bin_456 /\
  exists s',
    update_sensor cooperative 3 true [T_ALL] [PyInt 0] sockets_5 bin_456
      (live_456 sample_fw_version 0 1) sensor_ip_200 456 start
    = Done (Skipped Locked) s' /\
    map kind_of (trace s') = [K_cmd [1; 1] [0; 0] broadcast_5] /\
    existsb is_flash_start (trace s') = false /\
    existsb is_flash_block (trace s') = false.
Proof.
  split; [reflexivity|]. eexists. split; [vm_compute; reflexivity|].
  repeat split; vm_compute; reflexivity.
Qed.

(** Scenario 6: [--overwrite] on a sensor that already has the file's
    version and acknowledges: the handshake, the 256 blocks in order, each
    acknowledged, [cmd_flash_finish], the record that shows the version,
    and the final [cmd_pause]. *)
Lemma overwrite_same_version_full_transfer :
  exists s',
    update_sensor cooperative 3 true [T_ALL] [PyInt 0] sockets_5 bin_456
      (live_456 sample_fw_version 0 0) sensor_ip_200 456 start
    = Done Updated s' /\
    map kind_of (trace s')
    = [K_cmd [1; 1] [0; 0] broadcast_5;
       K_cmd [0; 6] [200; 1] sensor_ip_200;
       K_ack sensor_ip_200 (bitmap_upto (-1))]
      ++ transfer_kinds sensor_ip_200 0 256
      ++ [K_cmd [255; 6] [200; 1] sensor_ip_200;
          K_info sensor_ip_200 sample_fw_version;
          K_cmd [1; 1] [0; 0] sensor_ip_200].
Proof. eexists. split; vm_compute; reflexivity. Qed.


(** ** Safe-boot recovery inside the update *)

(** A sensor that passes the checks but is not in safe-boot mode, and
    whose info never shows safe-boot mode, blocks the update for ever: the
    run never gets past the recovery, so the sensor is not skipped. *)
Lemma not_in_safe_boot_never_returns recvfrom fuel forced_update arg_target_type
    arg_target_list sockets item info target_ip recv_sn :
  (forall ip sock_port t d r,
     recvfrom ip sock_port t = Some d ->
     is_frame 166 info_v2_header (dg_data d) = true ->
     decode_info_v2 (slice 6 172 (dg_data d)) = Some r ->
     sensor_sn r = bin_sensor_sn item -> sensor_boot_ctrl r <> 0) ->
  eligible forced_update arg_target_type arg_target_list item info
    target_ip recv_sn = true ->
  sensor_boot_ctrl info <> 0 ->
  (exists ip sock, (ip, sock) ∈ sockets /\
                   is_in_subnet target_ip ip (sock_subnet sock) = true) ->
  forall s o s',
    update_sensor recvfrom fuel forced_update arg_target_type arg_target_list
      sockets item info target_ip recv_sn s <> Done o s'.
Proof.
  unfold eligible. intros Hnever Hel Hboot Hin s o s'.
  destruct (arg_target_type !! 0%nat) as [t0|] eqn:Ht0; [|discriminate].
  destruct (fw_ver_number (sensor_fw_ver info)) as [fw_ver|] eqn:Hfw;
    [|discriminate].
  apply andb_prop in Hel as [Hel Hver]. apply andb_prop in Hel as [Hel Hhw].
  apply andb_prop in Hel as [Hargs Hsame].
  unfold update_sensor. rewrite Ht0. cbn [try_]. unfold bind at 1, ret at 1.
  assert (Hnot : negb (bool_decide (t0 = T_ALL))
                 && negb (bool_decide (PyStr target_ip ∈ arg_target_list))
                 && negb (bool_decide (PyInt recv_sn ∈ arg_target_list)) = false).
  { rewrite <- !negb_orb. now rewrite Hargs. }
  rewrite Hnot. unfold bind at 1. rewrite broadcast_all_done.
  assert (Hsk : bool_decide (sensor_fw1_ver info = fw_version item)
                && negb forced_update = false).
  { revert Hsame.
    destruct (bool_decide (sensor_fw1_ver info = fw_version item)),
      forced_update; cbn; intros; first [reflexivity | discriminate]. }
  rewrite Hsk, Hhw. cbn [negb]. rewrite Hfw. cbn [try_].
  unfold bind at 1, ret at 1.
  apply Z.leb_le in Hver. destruct (Z.ltb_spec fw_ver 10504) as [|_]; [lia|].
  destruct (Z.eqb_spec (sensor_boot_ctrl info) 0) as [|_]; [contradiction|].
  cbn [negb]. unfold bind at 1.
  match goal with
  | |- match ?m with _ => _ end <> _ =>
    destruct m as [e s1|s1|s1] eqn:Hrec; try discriminate
  end.
  exfalso.
  eapply (safe_boot_recovery_never_returns recvfrom (bin_sensor_sn item));
    eauto.
Qed.

(** C6 (the code at the failing input): the sensor 456 reports
    [sensor_boot_ctrl = 1] and then stays silent.  Whatever the fuel, the
    update of that sensor never returns; after a single [cmd_measure] and a
    single [cmd_safe_boot] the tool broadcasts [cmd_read_info] again and
    again. *)
Lemma safe_boot_recovery_hangs_when_sensor_silent :
  sensor_boot_ctrl sample_info = 1 /\
  (forall fuel o s',
     update_sensor silent fuel false [T_ALL] [PyInt 0] sockets_5 bin_456
       sample_info sensor_ip_200 456 start <> Done o s') /\
  (let r := update_sensor silent 4 false [T_ALL] [PyInt 0] sockets_5 bin_456
              sample_info sensor_ip_200 456 start in
   r = OutOfFuel (final r) /\
   map kind_of (trace (final r))
   = [K_cmd [1; 1] [0; 0] broadcast_5;
      K_cmd [0; 1] [0; 0] sensor_ip_200;
      K_cmd [4; 1] [0; 0] broadcast_5;
      K_cmd [0; 3] [0; 0] broadcast_5;
      K_cmd [0; 3] [0; 0] broadcast_5;
      K_cmd [0; 3] [0; 0] broadcast_5;
      K_cmd [0; 3] [0; 0] broadcast_5]).
Proof.
  split; [reflexivity|]. split.
  - intros fuel o s'. apply not_in_safe_boot_never_returns.
    + intros ip sock_port t d r Hd. discriminate.
    + reflexivity.
    + discriminate.
    + exists (ipv4 192 168 5 2), (mkSock [7256] (ipv4 255 255 255 0) broadcast_5).
      split; [left | reflexivity].
  - vm_compute. split; reflexivity.
Qed.

(** ** Block transfer *)

(** C7 (the code at the failing input): the sensor acknowledges the
    handshake and then says nothing; an ack-shaped frame in which bit 0 is
    set arrives from another address, 192.168.5.201, after block 0 was
    sent.  Block 1 is sent although no ack of block 0 came from the
    sensor. *)
Lemma block_1_sent_on_foreign_ack :
  let r := update_sensor foreign_ack 3 true [T_ALL] [PyInt 0] sockets_5 bin_456
             (live_456 sample_fw_version 0 0) sensor_ip_200 456 start in
  map kind_of (trace (final r))
  = [K_cmd [1; 1] [0; 0] broadcast_5;
     K_cmd [0; 6] [200; 1] sensor_ip_200;
     K_ack sensor_ip_200 (bitmap_upto (-1));
     K_block (Some 0) sensor_ip_200;
     K_ack sensor_ip_201 (bitmap_upto 0);
     K_cmd [1; 1] [0; 0] broadcast_5;
     K_block (Some 1) sensor_ip_200;
     K_block (Some 1) sensor_ip_200;
     K_block (Some 1) sensor_ip_200]
  /\ sensor_ip_201 <> sensor_ip_200.
Proof. vm_compute. split; [reflexivity | discriminate]. Qed.


(** ** Discovery: what an info frame does to the slots *)

Lemma for_range_inv {S} (I : S -> Prop) (body : nat -> S -> option S) n :
  (forall i s s', I s -> body i s = Some s' -> I s') ->
  forall lo s s', I s -> for_range lo n body s = Some s' -> I s'.
Proof.
  intros Hbody. induction n as [|n IH]; intros lo s s' Hs H; cbn in H.
  - now injection H as <-.
  - destruct (body lo s) as [s1|] eqn:H1; [|discriminate]. eauto.
Qed.

Lemma list_set_Some {A} i (v : A) l l' :
  list_set i v l = Some l' -> l' = <[i := v]> l /\ (i < length l)%nat.
Proof.
  unfold list_set. destruct (Nat.ltb_spec i (length l)); [|discriminate].
  intros [= <-]. auto.
Qed.

Lemma steps_inv (step : Found -> Found -> Prop) (I : Found -> Prop) st st' :
  (forall s s', step s s' -> I s -> I s') -> steps step st st' -> I st -> I st'.
Proof. intros Hstep Hsteps. induction Hsteps; eauto. Qed.

Lemma steps_mono (step step' : Found -> Found -> Prop) st st' :
  (forall s s', step s s' -> step' s s') -> steps step st st' -> steps step' st st'.
Proof. intros Hsub Hsteps. induction Hsteps; econstructor; eauto. Qed.

Section Effects.

Variable sender : Z.
Variable info_v2 : InfoRecord.

Lemma match_serial_at_effect idx st st' :
  match_serial_at sender info_v2 idx st = Some st' ->
  serial_effect sender (sensor_sn info_v2) st st'.
Proof.
  unfold match_serial_at.
  destruct (f_target_list st !! idx) as [target|] eqn:Ht; [|discriminate].
  destruct (bool_decide_reflect (PyInt (sensor_sn info_v2) = target)) as [<-|];
    [|intros [= <-]; now apply seff_none].
  destruct (recv_sn_list st !! idx) as [r|] eqn:Hr; [|discriminate].
  destruct (Z.eqb_spec r 0) as [->|]; [|intros [= <-]; now apply seff_none].
  destruct (list_set idx _ (recv_sn_list st)) as [sns|] eqn:Hs; [|discriminate].
  destruct (list_set idx _ (f_target_list st)) as [tgts|] eqn:Hl; [|discriminate].
  apply list_set_Some in Hs as [-> _]. apply list_set_Some in Hl as [-> _].
  intros [= <-]. now apply (seff_serial _ _ _ _ idx).
Qed.

Lemma match_serial_typed_at_effect idx st st' :
  match_serial_typed_at sender info_v2 idx st = Some st' ->
  serial_effect sender (sensor_sn info_v2) st st'.
Proof.
  unfold match_serial_typed_at.
  destruct (f_target_list st !! idx) as [target|] eqn:Ht; [|discriminate].
  destruct (bool_decide_reflect (PyInt (sensor_sn info_v2) = target)) as [<-|];
    [|intros [= <-]; now apply seff_none].
  destruct (recv_sn_list st !! idx) as [r|] eqn:Hr; [|discriminate].
  destruct (Z.eqb_spec r 0) as [->|]; [|intros [= <-]; now apply seff_none].
  destruct (list_set idx _ (recv_sn_list st)) as [sns|] eqn:Hs; [|discriminate].
  destruct (list_set idx _ (f_target_list st)) as [tgts|] eqn:Hl; [|discriminate].
  destruct (list_set idx _ (f_target_type st)) as [types|]; [|discriminate].
  apply list_set_Some in Hs as [-> _]. apply list_set_Some in Hl as [-> _].
  intros [= <-]. now apply (seff_serial _ _ _ _ idx).
Qed.

Lemma match_sender_at_effect idx st st' :
  match_sender_at sender info_v2 idx st = Some st' ->
  effect sender (sensor_sn info_v2) st st'.
Proof.
  unfold match_sender_at.
  destruct (f_target_list st !! idx) as [target|] eqn:Ht; [|discriminate].
  destruct (bool_decide_reflect (PyStr sender = target)) as [<-|];
    [|intros [= <-]; now apply eff_serial, seff_none].
  destruct (recv_sn_list st !! idx) as [r|] eqn:Hr; [|discriminate].
  destruct (Z.eqb_spec r 0) as [->|];
    [|intros [= <-]; now apply eff_serial, seff_none].
  destruct (list_set idx _ (recv_sn_list st)) as [sns|] eqn:Hs; [|discriminate].
  apply list_set_Some in Hs as [-> _].
  intros [= <-]. now apply (eff_sender _ _ _ _ idx).
Qed.

Lemma add_sensor_effect st :
  effect sender (sensor_sn info_v2) st (add_sensor sender info_v2 st).
Proof.
  unfold add_sensor.
  destruct (bool_decide_reflect (sensor_sn info_v2 ∈ recv_sn_list st));
    [now apply eff_serial, seff_none | now apply eff_new].
Qed.

Lemma for_range_steps (step : Found -> Found -> Prop) body lo n st st' :
  (forall i s s', body i s = Some s' -> step s s') ->
  for_range lo n body st = Some st' -> steps step st st'.
Proof.
  intros Hbody.
  apply (for_range_inv (steps step st) body n); [|constructor].
  intros i s s' Hs H. econstructor; eauto.
Qed.

Lemma on_info_by_serial_steps st st' :
  on_info_by_serial sender info_v2 st = Some st' ->
  steps (serial_effect sender (sensor_sn info_v2)) st st'.
Proof.
  unfold on_info_by_serial. destruct (bool_decide _).
  - apply for_range_steps. intros i s s'. apply match_serial_at_effect.
  - intros [= <-]. constructor.
Qed.

Lemma on_info_cmd_run_steps st st' :
  on_info_cmd_run sender info_v2 st = Some st' ->
  steps (effect sender (sensor_sn info_v2)) st st'.
Proof.
  unfold on_info_cmd_run.
  destruct (f_target_type st !! 0%nat) as [t0|]; [|discriminate].
  destruct (bool_decide (t0 = T_ALL)).
  { intros [= <-]. econstructor; [constructor | apply add_sensor_effect]. }
  destruct (bool_decide (PyInt _ ∈ _)).
  { apply for_range_steps. intros i s s' H.
    apply eff_serial. eapply match_serial_typed_at_effect, H. }
  destruct (bool_decide (PyStr _ ∈ _)).
  { apply for_range_steps. intros i s s'. apply match_sender_at_effect. }
  intros [= <-]. constructor.
Qed.

End Effects.

(** *** What the effects preserve *)

(** Only slots whose entry is 0 are written. *)
Lemma effect_keeps_filled sender sn st st' idx v :
  effect sender sn st st' ->
  recv_sn_list st !! idx = Some v -> v <> 0 ->
  recv_sn_list st' !! idx = Some v.
Proof.
  intros [[->|j H0 _ Hr _]|j H0 _ Hr _|_ Hr _] Hv Hne; [assumption| | |].
  - rewrite Hr. rewrite list_lookup_insert_ne; [assumption|]. congruence.
  - rewrite Hr. rewrite list_lookup_insert_ne; [assumption|]. congruence.
  - rewrite Hr. now apply lookup_app_l_Some.
Qed.

(** A frame with the serial 0 fills no slot. *)
Lemma effect_zero_fills_none sender st st' idx v :
  effect sender 0 st st' ->
  recv_sn_list st' !! idx = Some v -> v <> 0 ->
  recv_sn_list st !! idx = Some v.
Proof.
  intros [[->|j H0 _ Hr _]|j H0 _ Hr _|_ Hr _] Hv Hne; [assumption| | |].
  - rewrite Hr in Hv. destruct (decide (j = idx)) as [->|].
    + rewrite list_lookup_insert_eq in Hv by (eapply lookup_lt_Some, H0).
      congruence.
    + now rewrite list_lookup_insert_ne in Hv.
  - rewrite Hr in Hv. destruct (decide (j = idx)) as [->|].
    + rewrite list_lookup_insert_eq in Hv by (eapply lookup_lt_Some, H0).
      congruence.
    + now rewrite list_lookup_insert_ne in Hv.
  - rewrite Hr in Hv. apply lookup_app_Some in Hv as [Hv|[_ Hv]]; [assumption|].
    apply list_lookup_singleton_Some in Hv as [_ <-]. congruence.
Qed.

(** The serial branch alone never fills a slot that waits for the serial 0,
    whoever answers. *)
Lemma serial_effect_stuck_at_zero sender sn st st' :
  serial_effect sender sn st st' -> stuck_at_zero st -> stuck_at_zero st'.
Proof.
  intros Heff (idx & Hz & Ht). destruct Heff as [->|j H0 Hj Hr Hl].
  - exists idx. auto.
  - exists idx. rewrite Hr, Hl. destruct (decide (j = idx)) as [->|Hne].
    + rewrite !list_lookup_insert_eq by (eapply lookup_lt_Some; eauto).
      destruct Ht as [Ht|(a & Ht)]; [|congruence].
      rewrite Hj in Ht. injection Ht as ->. eauto.
    + rewrite !list_lookup_insert_ne by assumption. auto.
Qed.

Section Preserved.

Variable recvfrom : Z -> Z -> nat -> option datagram.

(** A slot that waits for an address whose sensor has the serial 0 is
    never filled. *)
Lemma effect_waits_for_zero_address sender sn st st' :
  reports recvfrom sender sn ->
  effect sender sn st st' ->
  waits_for_zero_address recvfrom st -> waits_for_zero_address recvfrom st'.
Proof.
  intros Hrep Heff (idx & a & Hz & Ht & Ha).
  destruct Heff as [[->|j H0 Hj Hr Hl]|j H0 Hj Hr Hl|_ Hr Hl].
  - exists idx, a. auto.
  - exists idx, a. rewrite Hr, Hl.
    assert (j <> idx) by congruence.
    rewrite !list_lookup_insert_ne by assumption. auto.
  - exists idx, a. rewrite Hr, Hl. destruct (decide (j = idx)) as [->|Hne].
    + rewrite list_lookup_insert_eq by (eapply lookup_lt_Some; eauto).
      rewrite Hj in Ht. injection Ht as ->. rewrite (Ha sn Hrep). auto.
    + rewrite list_lookup_insert_ne by assumption. auto.
  - exists idx, a. rewrite Hr, Hl.
    repeat split; [now apply lookup_app_l_Some..|assumption].
Qed.

(** When an address that reports the serial 0 reports no other, a slot
    that waits for the serial 0, or has taken such an address, is never
    filled. *)
Lemma effect_waits_for_zero sender sn st st' :
  (forall a, reports recvfrom a 0 -> only_zero recvfrom a) ->
  reports recvfrom sender sn ->
  effect sender sn st st' ->
  waits_for_serial_zero st \/ waits_for_zero_address recvfrom st ->
  waits_for_serial_zero st' \/ waits_for_zero_address recvfrom st'.
Proof.
  intros Hzero Hrep Heff [(idx & Hz & Ht)|Haddr];
    [|right; eapply effect_waits_for_zero_address; eauto].
  destruct Heff as [[->|j H0 Hj Hr Hl]|j H0 Hj Hr Hl|_ Hr Hl].
  - left. exists idx. auto.
  - destruct (decide (j = idx)) as [->|Hne].
    + right. exists idx, sender. rewrite Hr, Hl.
      rewrite !list_lookup_insert_eq by (eapply lookup_lt_Some; eauto).
      rewrite Hj in Ht. injection Ht as Hsn. rewrite Hsn in *.
      repeat split. now apply Hzero.
    + left. exists idx. rewrite Hr, Hl.
      rewrite !list_lookup_insert_ne by assumption. auto.
  - left. exists idx. rewrite Hr, Hl.
    assert (j <> idx) by congruence.
    rewrite list_lookup_insert_ne by assumption. auto.
  - left. exists idx. rewrite Hr, Hl. split; now apply lookup_app_l_Some.
Qed.

Lemma effect_slots_ok sender sn st st' :
  reports recvfrom sender sn ->
  effect sender sn st st' ->
  slots_ok recvfrom st -> slots_ok recvfrom st'.
Proof.
  intros Hrep Heff [Hlen Hok].
  destruct Heff as [[->|j H0 Hj Hr Hl]|j H0 Hj Hr Hl|_ Hr Hl].
  - split; assumption.
  - split; [now rewrite Hr, Hl, !length_insert|].
    intros idx v Hv Hne. rewrite Hr in Hv. rewrite Hl.
    destruct (decide (j = idx)) as [->|Hji].
    + rewrite list_lookup_insert_eq in Hv by (eapply lookup_lt_Some; eauto).
      rewrite list_lookup_insert_eq by (eapply lookup_lt_Some; eauto).
      injection Hv as <-. eauto.
    + rewrite list_lookup_insert_ne in Hv by assumption.
      rewrite list_lookup_insert_ne by assumption. eauto.
  - split; [now rewrite Hr, Hl, length_insert|].
    intros idx v Hv Hne. rewrite Hr in Hv. rewrite Hl.
    destruct (decide (j = idx)) as [->|Hji].
    + rewrite list_lookup_insert_eq in Hv by (eapply lookup_lt_Some; eauto).
      injection Hv as <-. eauto.
    + rewrite list_lookup_insert_ne in Hv by assumption. eauto.
  - split; [rewrite Hr, Hl, !length_app; cbn; lia|].
    intros idx v Hv Hne. rewrite Hr in Hv. rewrite Hl.
    apply lookup_app_Some in Hv as [Hv|[Hge Hv]].
    + destruct (Hok idx v Hv Hne) as (a & Ha & Hsn). exists a.
      split; [now apply lookup_app_l_Some | assumption].
    + apply list_lookup_singleton_Some in Hv as [Hi <-].
      exists sender. split; [|assumption].
      assert (idx = length (f_target_list st)) as -> by lia.
      apply list_lookup_middle. reflexivity.
Qed.

End Preserved.


(** ** Discovery loops *)

Section Discovery.

Variable recvfrom : Z -> Z -> nat -> option datagram.
Variable is_enter_pressed : nat -> bool.
Section Loop.

Context {S : Type}.
Variable on_info : Z -> InfoRecord -> S -> option S.
Variable on_other : Z -> M unit.
Variable P : event -> Prop.
Variable I : S -> Prop.

Hypothesis P_recv : forall ip sock_port payload sender,
  P (RecvFrom ip sock_port payload sender).
Hypothesis on_other_spec : forall sender,
  spec (on_other sender) P (fun _ => True).
Hypothesis on_info_inv : forall sender info st st',
  reports recvfrom sender (sensor_sn info) -> I st ->
  on_info sender info st = Some st' -> I st'.

Lemma spec_drain fuel ip sock_port : forall st,
  I st -> spec (drain recvfrom fuel ip sock_port on_info on_other st) P I.
Proof.
  induction fuel as [|fuel IH]; intros st Hst; cbn [drain].
  - apply spec_out_of_fuel.
  - eapply spec_bind; [apply spec_recv; intros; apply P_recv|].
    intros [d|] Hr; [|now apply spec_ret].
    destruct (Hr d eq_refl) as (t & Ht).
    destruct (is_frame 166 info_v2_header (dg_data d)) eqn:Hf.
    + eapply spec_bind; [apply (spec_try _ _ (fun r =>
        decode_info_v2 (slice 6 172 (dg_data d)) = Some r)); auto|].
      intros info Hinfo.
      eapply spec_bind; [apply (spec_try _ _ I)|exact (IH)].
      intros st' Hst'. eapply on_info_inv; [|exact Hst|exact Hst'].
      exists ip, sock_port, t, d, info. auto.
    + eapply spec_bind; [apply on_other_spec|]. intros _ _. now apply IH.
Qed.

Lemma spec_poll_all fuel sockets : forall st,
  (forall ip sock, (ip, sock) ∈ sockets ->
     P (SendTo ip cmd_read_info (broadcast sock) sensor_config_port)) ->
  I st -> spec (poll_all recvfrom fuel sockets on_info on_other st) P I.
Proof.
  intros st Hsend Hst. unfold poll_all.
  apply (spec_for_each _ _ P I); [|exact Hst].
  intros [ip sock] st1 Hin Hst1.
  eapply spec_bind; [apply spec_sendto; auto|]. intros _ _.
  apply (spec_for_each _ _ P I); [|exact Hst1].
  intros sock_port st2 _ Hst2. now apply spec_drain.
Qed.

End Loop.

Lemma spec_find_targets fuel sockets (P : event -> Prop) (I : Found -> Prop) :
  (forall ip sock_port payload sender, P (RecvFrom ip sock_port payload sender)) ->
  (forall ip sock, (ip, sock) ∈ sockets ->
     P (SendTo ip cmd_read_info (broadcast sock) sensor_config_port)) ->
  (forall sender info st st',
     reports recvfrom sender (sensor_sn info) -> I st ->
     on_info_cmd_run sender info st = Some st' -> I st') ->
  forall st, I st ->
    spec (find_targets recvfrom is_enter_pressed fuel sockets st) P
         (stopped_right I).
Proof.
  intros Hrecv Hsend Hinv.
  induction fuel as [|fuel IH]; intros st Hst; cbn [find_targets].
  - apply spec_out_of_fuel.
  - eapply spec_bind; [apply spec_enter_pressed|]. intros e _.
    destruct e; [apply spec_ret; split; [exact Hst | discriminate]|].
    eapply spec_bind.
    { apply (spec_poll_all on_info_cmd_run (fun _ => ret tt) P I); auto.
      intros _. now apply spec_ret. }
    intros st' Hst'.
    eapply spec_bind; [apply (spec_try _ _ (fun b => all_found st' = Some b));
                       auto|].
    intros done Hdone. destruct done; [|now apply IH].
    apply spec_ret. split; [exact Hst'|]. intros _. cbn [snd].
    unfold all_found in Hdone.
    destruct (f_target_type st' !! 0%nat); [|discriminate].
    injection Hdone as Hdone. now apply andb_prop in Hdone as [_ ?].
Qed.

Lemma spec_find_by_serial fuel sockets on_other (P : event -> Prop)
    (I : Found -> Prop) :
  (forall ip sock_port payload sender, P (RecvFrom ip sock_port payload sender)) ->
  (forall ip sock, (ip, sock) ∈ sockets ->
     P (SendTo ip cmd_read_info (broadcast sock) sensor_config_port)) ->
  (forall sender, spec (on_other sender) P (fun _ => True)) ->
  (forall sender info st st',
     reports recvfrom sender (sensor_sn info) -> I st ->
     on_info_by_serial sender info st = Some st' -> I st') ->
  forall st, I st ->
    spec (find_by_serial recvfrom is_enter_pressed fuel sockets on_other st) P
         (stopped_right I).
Proof.
  intros Hrecv Hsend Hother Hinv.
  induction fuel as [|fuel IH]; intros st Hst; cbn [find_by_serial].
  - apply spec_out_of_fuel.
  - eapply spec_bind; [apply spec_enter_pressed|]. intros e _.
    destruct e; [apply spec_ret; split; [exact Hst | discriminate]|].
    eapply spec_bind.
    { apply (spec_poll_all on_info_by_serial on_other P I); auto. }
    intros st' Hst'.
    destruct (no_zero (recv_sn_list st')) eqn:Hnz; [|now apply IH].
    apply spec_ret. split; [exact Hst' | auto].
  Qed.

(** A slot whose entry is 0 keeps the loops going. *)
Lemma zero_entry_not_all st idx :
  recv_sn_list st !! idx = Some 0 -> no_zero (recv_sn_list st) = false.
Proof.
  intros Hz. unfold no_zero.
  rewrite bool_decide_eq_true_2; [reflexivity|].
  eapply list_elem_of_lookup_2, Hz.
Qed.

(** The loop of [cmd_run] never stops on 'Success to find all LiDARs!'
    while an invariant of the handler keeps some entry at 0. *)
Lemma find_targets_never_all (I : Found -> Prop) fuel sockets st s st' s' :
  (forall st, I st -> exists idx, recv_sn_list st !! idx = Some 0) ->
  (forall sender info st st',
     reports recvfrom sender (sensor_sn info) -> I st ->
     on_info_cmd_run sender info st = Some st' -> I st') ->
  I st ->
  find_targets recvfrom is_enter_pressed fuel sockets st s
  <> Done (Found_all, st') s'.
Proof.
  intros Hzero Hinv Hst H.
  destruct (spec_find_targets fuel sockets (fun _ => True) I
              (fun _ _ _ _ => Logic.I) (fun _ _ _ => Logic.I) Hinv st Hst s)
    as [_ Hq].
  destruct (Hq _ _ H) as [Hst' Hnz]. cbn [fst snd] in *.
  destruct (Hzero _ Hst') as (idx & Hidx).
  rewrite (zero_entry_not_all _ _ Hidx) in Hnz. now specialize (Hnz eq_refl).
Qed.

(** Nor do the loops of [cmd_config_run] and [cmd_update_run], whatever
    the sensors answer. *)
Lemma find_by_serial_never_all fuel sockets on_other st s st' s' :
  (forall sender, grows (on_other sender)) ->
  stuck_at_zero st ->
  find_by_serial recvfrom is_enter_pressed fuel sockets on_other st s
  <> Done (Found_all, st') s'.
Proof.
  intros Hother Hst H.
  assert (Hinv : forall sender info st st',
            reports recvfrom sender (sensor_sn info) -> stuck_at_zero st ->
            on_info_by_serial sender info st = Some st' -> stuck_at_zero st').
  { intros sender info st1 st2 _ Hz Hrun.
    apply on_info_by_serial_steps in Hrun.
    eapply steps_inv; [|exact Hrun|exact Hz].
    intros ? ?. apply serial_effect_stuck_at_zero. }
  destruct (spec_find_by_serial fuel sockets on_other (fun _ => True)
              stuck_at_zero (fun _ _ _ _ => Logic.I) (fun _ _ _ => Logic.I)
              Hother Hinv st Hst s) as [_ Hq].
  destruct (Hq _ _ H) as [(idx & Hidx & _) Hnz]. cbn [fst snd] in *.
  rewrite (zero_entry_not_all _ _ Hidx) in Hnz. now specialize (Hnz eq_refl).
Qed.

Lemma on_info_cmd_run_slots_ok sender info st st' :
  reports recvfrom sender (sensor_sn info) -> slots_ok recvfrom st ->
  on_info_cmd_run sender info st = Some st' -> slots_ok recvfrom st'.
Proof.
  intros Hsn Hz H. apply on_info_cmd_run_steps in H.
  eapply steps_inv; [|exact H|exact Hz].
  intros s s' Heff. eapply effect_slots_ok; eauto.
Qed.

(** *** Dispatch *)

Lemma imap_pair_lookup {A} (l : list A) i x :
  (i, x) ∈ imap (fun i x => (i, x)) l -> l !! i = Some x.
Proof.
  intros H. apply list_elem_of_lookup in H as (j & Hj).
  rewrite list_lookup_imap in Hj.
  destruct (l !! j) as [y|] eqn:Hy; [|discriminate].
  cbn in Hj. injection Hj as Hji Hyx. now subst.
Qed.

Lemma spec_dispatch sockets st cmd_packet :
  slots_ok recvfrom st ->
  spec (dispatch sockets st cmd_packet) (to_nonzero_serial recvfrom sockets)
       (fun _ => True).
Proof.
  intros [_ Hok]. unfold dispatch.
  apply (spec_for_each _ _ _ (fun _ => True)); [|trivial].
  intros [idx recv_sn] pkt0 Hin _. apply imap_pair_lookup in Hin.
  destruct (Z.eqb_spec recv_sn 0) as [|Hne]; cbn [negb]; [now apply spec_ret|].
  destruct (Hok idx recv_sn Hin Hne) as (a & Ha & Hsn).
  eapply (spec_bind _ _ _ (fun _ => True)); [now apply spec_try|]. intros pkt _.
  eapply (spec_bind _ _ _ (fun _ => True)); [now apply spec_try|]. intros pkt' _.
  eapply (spec_bind _ _ _ (fun _ => True)); [|intros; now apply spec_ret].
  apply (spec_for_each _ _ _ (fun _ => True)); [|trivial].
  intros [ip sock] [] _ _. rewrite Ha. cbn [try_].
  eapply (spec_bind _ _ _ (fun t => t = PyStr a)); [now apply spec_ret|].
  intros target ->. cbn [ip_address].
  destruct (is_in_subnet _ _ _); [|now apply spec_ret].
  apply spec_sendto. right. eauto.
Qed.

Lemma initial_slots_ok cmd_msg : slots_ok recvfrom (initial_found cmd_msg).
Proof.
  unfold initial_found. destruct (bool_decide _); split; cbn.
  - reflexivity.
  - intros idx v Hv. now rewrite lookup_nil in Hv.
  - apply length_replicate.
  - intros idx v Hv Hne. apply lookup_replicate in Hv as [-> _]. congruence.
Qed.

(** Every frame [cmd_run] sends is a [cmd_read_info] broadcast or goes to
    an address that reported a non-zero serial. *)
Lemma spec_cmd_run fuel cmd_msg host_list :
  spec (cmd_run recvfrom is_enter_pressed fuel cmd_msg host_list)
       (to_nonzero_serial recvfrom (create_sockets host_list)) (fun _ => True).
Proof.
  unfold cmd_run.
  destruct (ports_given host_list); cbn [negb]; [|apply spec_raise].
  eapply spec_bind.
  { apply (spec_find_targets fuel _ _ (slots_ok recvfrom)).
    - intros; exact Logic.I.
    - intros ip sock Hin. left. eauto.
    - intros. eapply on_info_cmd_run_slots_ok; eauto.
    - apply initial_slots_ok. }
  intros [stp st] [Hok _]. cbn [snd] in *.
  destruct (negb _); [now apply spec_ret|].
  destruct (bool_decide _); [now apply spec_ret|].
  eapply spec_bind; [now apply spec_dispatch|]. intros; now apply spec_ret.
Qed.

End Discovery.

(** ** Update: the transfer to a sensor that acknowledges *)

Section FullTransfer.

Variable recvfrom : Z -> Z -> nat -> option datagram.
Variables ip sock_port mask bcast target_ip : Z.

Hypothesis Hsub : is_in_subnet target_ip ip mask = true.















End FullTransfer.


(** ** The claims on the update and on discovery *)




Lemma steps_keep_filled sender sn st st' :
  steps (effect sender sn) st st' ->
  forall idx v, recv_sn_list st !! idx = Some v -> v <> 0 ->
                recv_sn_list st' !! idx = Some v.
Proof.
  induction 1 as [|st1 st2 st3 _ IH Hstep]; intros idx v Hv Hne; [assumption|].
  eapply effect_keeps_filled; eauto.
Qed.

Lemma steps_zero_fill_none sender st st' :
  steps (effect sender 0) st st' ->
  forall idx v, recv_sn_list st' !! idx = Some v -> v <> 0 ->
                recv_sn_list st !! idx = Some v.
Proof.
  induction 1 as [|st1 st2 st3 _ IH Hstep]; intros idx v Hv Hne; [assumption|].
  apply IH; [|assumption]. eapply effect_zero_fills_none; eauto.
Qed.

(** The slot of a target of [cmd_run] starts with the entry 0. *)
Lemma initial_slot cmd_msg t :
  T_ALL ∉ target_type cmd_msg -> t ∈ target_list cmd_msg ->
  exists idx, recv_sn_list (initial_found cmd_msg) !! idx = Some 0 /\
              f_target_list (initial_found cmd_msg) !! idx = Some t.
Proof.
  intros Hall Hin. unfold initial_found.
  rewrite bool_decide_eq_false_2 by exact Hall.
  apply list_elem_of_lookup in Hin as (idx & Hidx).
  exists idx. cbn [recv_sn_list f_target_list]. split; [|exact Hidx].
  apply lookup_replicate. split; [reflexivity|]. eapply lookup_lt_Some, Hidx.
Qed.

(** So does the slot of a configuration or firmware file. *)
Lemma by_serial_slot (serials : list Z) types infos :
  0 ∈ serials ->
  stuck_at_zero {| f_target_type := types; f_target_list := map PyInt serials;
                   recv_sn_list := replicate (length serials) 0;
                   recv_info_list := infos |}.
Proof.
  intros Hin. apply list_elem_of_lookup in Hin as (idx & Hidx).
  exists idx. cbn [recv_sn_list f_target_list]. split.
  - apply lookup_replicate. split; [reflexivity|]. eapply lookup_lt_Some, Hidx.
  - left. now rewrite list_lookup_fmap, Hidx.
Qed.

(** C10 (amended): in the discovery loops a slot is taken as not yet found
    exactly when its entry in [recv_sn_list] is 0, although [parse_arg_list]
    accepts the serial 0 as a target.  (1) An info frame only writes slots
    whose entry is 0, and a frame with the serial 0 fills none.  (2) A loop
    that stops because everything was found has no 0 left.  (3) In
    [cmd_config_run] and [cmd_update_run] a file for the serial 0 keeps the
    loop from ever stopping that way.  (4) In [cmd_run] so does a target
    address whose sensor has the serial 0, and (5) so does the target
    serial 0 as long as an address that reports the serial 0 reports no
    other.  (6) Every frame [cmd_run] sends is the [cmd_read_info]
    broadcast or goes to an address that reported a non-zero serial. *)
Theorem serial_zero_is_never_found
    (recvfrom : Z -> Z -> nat -> option datagram)
    (is_enter_pressed : nat -> bool) :
  (forall unicode_isdigit unicode_int parse_ip, parse_ip "0"%string = None ->
     parse_arg_list unicode_isdigit unicode_int parse_ip ["0"%string]
     = Some ([T_SN], [PyInt 0], 1%nat)) /\
  (forall sender info st st',
     on_info_cmd_run sender info st = Some st' \/
     on_info_by_serial sender info st = Some st' ->
     (forall idx v, recv_sn_list st !! idx = Some v -> v <> 0 ->
                    recv_sn_list st' !! idx = Some v) /\
     (sensor_sn info = 0 ->
      forall idx v, recv_sn_list st' !! idx = Some v -> v <> 0 ->
                    recv_sn_list st !! idx = Some v)) /\
  (forall fuel sockets st s r s',
     find_targets recvfrom is_enter_pressed fuel sockets st s = Done r s' \/
     find_by_serial recvfrom is_enter_pressed fuel sockets (fun _ => ret tt) st s
     = Done r s' \/
     find_by_serial recvfrom is_enter_pressed fuel sockets (pause_sender sockets)
       st s = Done r s' ->
     fst r = Found_all -> 0 ∉ recv_sn_list (snd r)) /\
  (forall fuel sockets (serials : list Z) s st' s',
     0 ∈ serials ->
     let st := {| f_target_type := []; f_target_list := map PyInt serials;
                  recv_sn_list := replicate (length serials) 0;
                  recv_info_list := [] |} in
     find_by_serial recvfrom is_enter_pressed fuel sockets (fun _ => ret tt) st s
     <> Done (Found_all, st') s' /\
     find_by_serial recvfrom is_enter_pressed fuel sockets (pause_sender sockets)
       st s <> Done (Found_all, st') s') /\
  (forall fuel sockets cmd_msg a s st' s',
     T_ALL ∉ target_type cmd_msg -> PyStr a ∈ target_list cmd_msg ->
     only_zero recvfrom a ->
     find_targets recvfrom is_enter_pressed fuel sockets (initial_found cmd_msg) s
     <> Done (Found_all, st') s') /\
  (forall fuel sockets cmd_msg s st' s',
     T_ALL ∉ target_type cmd_msg -> PyInt 0 ∈ target_list cmd_msg ->
     (forall a, reports recvfrom a 0 -> only_zero recvfrom a) ->
     find_targets recvfrom is_enter_pressed fuel sockets (initial_found cmd_msg) s
     <> Done (Found_all, st') s') /\
  (forall fuel cmd_msg host_list s,
     exists new,
       trace (final (cmd_run recvfrom is_enter_pressed fuel cmd_msg host_list s))
       = trace s ++ new /\
       Forall (to_nonzero_serial recvfrom (create_sockets host_list)) new).
Proof.
  assert (Hgrow_ret : forall sender : Z, grows (ret tt : M unit))
    by (intros; now apply spec_ret).
  assert (Hgrow_pause : forall sockets sender, grows (pause_sender sockets sender))
    by (intros; now apply spec_send_in_subnet).
  split; [|split; [|split; [|split; [|split; [|split]]]]].
  - intros unicode_isdigit unicode_int parse_ip Hip.
    unfold parse_arg_list. cbn. now rewrite Hip.
  - intros sender info st st' H.
    assert (Heff : steps (effect sender (sensor_sn info)) st st').
    { destruct H as [H|H]; [now apply on_info_cmd_run_steps|].
      apply on_info_by_serial_steps in H.
      eapply steps_mono; [|exact H]. intros ? ?. apply eff_serial. }
    split.
    + now apply (steps_keep_filled sender (sensor_sn info)).
    + intros Hz. rewrite Hz in Heff. now apply (steps_zero_fill_none sender).
  - intros fuel sockets st s r s' H Hall.
    assert (Hnz : no_zero (recv_sn_list (snd r)) = true).
    { destruct H as [H|[H|H]].
      - destruct (spec_find_targets recvfrom is_enter_pressed fuel
                    sockets (fun _ => True) (fun _ => True)
                    (fun _ _ _ _ => Logic.I) (fun _ _ _ => Logic.I)
                    (fun _ _ _ _ _ _ _ => Logic.I) st Logic.I s) as [_ Hq].
        destruct (Hq _ _ H) as [_ Hn]. exact (Hn Hall).
      - destruct (spec_find_by_serial recvfrom is_enter_pressed fuel
                    sockets (fun _ => ret tt) (fun _ => True) (fun _ => True)
                    (fun _ _ _ _ => Logic.I) (fun _ _ _ => Logic.I)
                    Hgrow_ret (fun _ _ _ _ _ _ _ => Logic.I) st Logic.I s)
          as [_ Hq].
        destruct (Hq _ _ H) as [_ Hn]. exact (Hn Hall).
      - destruct (spec_find_by_serial recvfrom is_enter_pressed fuel
                    sockets (pause_sender sockets) (fun _ => True) (fun _ => True)
                    (fun _ _ _ _ => Logic.I) (fun _ _ _ => Logic.I)
                    (Hgrow_pause sockets) (fun _ _ _ _ _ _ _ => Logic.I)
                    st Logic.I s) as [_ Hq].
        destruct (Hq _ _ H) as [_ Hn]. exact (Hn Hall). }
    unfold no_zero in Hnz. apply negb_true_iff, bool_decide_eq_false in Hnz.
    exact Hnz.
  - intros fuel sockets serials s st' s' Hin st.
    pose proof (by_serial_slot serials [] [] Hin) as Hst.
    split; now apply find_by_serial_never_all.
  - intros fuel sockets cmd_msg a s st' s' Hall Hin Ha.
    apply (find_targets_never_all recvfrom is_enter_pressed
             (waits_for_zero_address recvfrom)).
    + intros st (idx & b & Hz & _). eauto.
    + intros sender info st1 st2 Hrep Hz Hrun.
      apply on_info_cmd_run_steps in Hrun.
      eapply steps_inv; [|exact Hrun|exact Hz].
      intros ? ? Heff. eapply effect_waits_for_zero_address; eauto.
    + destruct (initial_slot cmd_msg _ Hall Hin) as (idx & Hz & Ht).
      exists idx, a. auto.
  - intros fuel sockets cmd_msg s st' s' Hall Hin Hzero.
    apply (find_targets_never_all recvfrom is_enter_pressed
             (fun st => waits_for_serial_zero st \/
                        waits_for_zero_address recvfrom st)).
    + intros st [(idx & Hz & _)|(idx & b & Hz & _)]; eauto.
    + intros sender info st1 st2 Hrep Hz Hrun.
      apply on_info_cmd_run_steps in Hrun.
      eapply (steps_inv _ (fun st => waits_for_serial_zero st \/
                                      waits_for_zero_address recvfrom st));
        [|exact Hrun|exact Hz].
      intros ? ? Heff. eapply effect_waits_for_zero; eauto.
    + left. destruct (initial_slot cmd_msg _ Hall Hin) as (idx & Hz & Ht).
      exists idx. auto.
  - intros fuel cmd_msg host_list s.
    destruct (spec_cmd_run recvfrom is_enter_pressed fuel cmd_msg
                host_list s) as [Htr _].
    exact Htr.
Qed.

Lemma sensor_zero_answers_only_zero a : only_zero sensor_zero_answers a.
Proof.
  intros v (ip & sock_port & t & d & r & Hd & _ & Hr & _ & Hv).
  unfold sensor_zero_answers in Hd.
  destruct (t mod 3 =? 1)%nat; [|discriminate]. injection Hd as <-.
  vm_compute in Hr. injection Hr as <-. now rewrite <- Hv.
Defined.

Lemma serial_zero_is_never_found_witness :
  (T_ALL ∉ target_type pause_serial_zero) /\
  (PyInt 0 ∈ target_list pause_serial_zero) /\
  (forall a, reports sensor_zero_answers a 0 -> only_zero sensor_zero_answers a) /\
  (forall fuel st' s',
     find_targets sensor_zero_answers never_pressed fuel sockets_5
       (initial_found pause_serial_zero) start <> Done (Found_all, st') s').
Proof.
  assert (H1 : T_ALL ∉ target_type pause_serial_zero).
  { intros Hin. apply list_elem_of_In in Hin. destruct Hin as [Hin|[]].
    discriminate. }
  assert (H2 : PyInt 0 ∈ target_list pause_serial_zero) by left.
  assert (H3 : forall a, reports sensor_zero_answers a 0 ->
                         only_zero sensor_zero_answers a)
    by (intros a _; apply sensor_zero_answers_only_zero).
  pose proof (serial_zero_is_never_found sensor_zero_answers never_pressed)
    as (_ & _ & _ & _ & _ & Hnever & _).
  split; [exact H1|]. split; [exact H2|]. split; [exact H3|].
  intros fuel st' s'.
  exact (Hnever fuel sockets_5 pause_serial_zero start st' s' H1 H2 H3).
Defined.

(** C10 (as stated, refuted): with [-p 0] and two sensors at one address
    that have the serials 0 and 5, the
    first answer binds the slot of the serial 0 to the address, the second
    fills it through the address.  The loop stops on 'Success to find all
    LiDARs!' in the second round, and [cmd_pause] goes to the sensor with
    the serial 5. *)
Lemma serial_zero_target_found_by_address :
  (PyInt 0 ∈ target_list pause_serial_zero) /\
  (exists st' s',
     find_targets serial_0_then_5 never_pressed 3 sockets_5
       (initial_found pause_serial_zero) start = Done (Found_all, st') s' /\
     recv_sn_list st' = [5] /\ f_target_list st' = [PyStr sensor_ip_200]) /\
  exists s',
    cmd_run serial_0_then_5 never_pressed 3 pause_serial_zero host_5 start
    = Done tt s' /\
    map kind_of (trace s')
    = [K_cmd [0; 3] [0; 0] broadcast_5; K_info sensor_ip_200 [4; 0; 1];
       K_cmd [0; 3] [0; 0] broadcast_5; K_info sensor_ip_200 [4; 0; 1];
       K_cmd [1; 1] [5; 0] sensor_ip_200].
Proof.
  split; [left|]. split.
  - eexists _, _. split; [vm_compute; reflexivity|]. split; reflexivity.
  - eexists. split; vm_compute; reflexivity.
Qed.

(** What [-p 0] does when the sensor with the serial 0 answers: the frame
    is taken, the slot takes the sender's address, its entry stays 0;
    the loop goes on asking and no [cmd_pause] is ever sent. *)
Lemma pause_serial_zero_run :
  let r := cmd_run sensor_zero_answers never_pressed 3 pause_serial_zero host_5
             start in
  r = OutOfFuel (final r) /\
  map kind_of (trace (final r))
  = [K_cmd [0; 3] [0; 0] broadcast_5; K_info sensor_ip_200 [4; 0; 1];
     K_cmd [0; 3] [0; 0] broadcast_5; K_info sensor_ip_200 [4; 0; 1];
     K_cmd [0; 3] [0; 0] broadcast_5; K_info sensor_ip_200 [4; 0; 1]].
Proof. vm_compute. split; reflexivity. Qed.

(** ** Exit status *)

Section ExitStatus.

Variable argv : list string.
Variable get_ip_list : list string.
Variable parse_args : list string -> parse_result.
Variable unicode_isdigit : string -> bool.
Variable unicode_int : string -> option Z.
Variable parse_ip : string -> option Z.
Variable get_subnet_mask : string -> string.
Variable get_broadcast_ip : string -> string -> option string.
Variable getcwd : string.
Variable path_exists : string -> bool.
Variable isdir : string -> bool.
Variable listdir : string -> option (list string).
Variable recvfrom : Z -> Z -> nat -> option datagram.
Variable is_enter_pressed : nat -> bool.
Variable get_bin_files : option (list string).
Variable py_int_16 : string -> option Z.
Variable file_content : string -> list Z.
Variable cmd_config_run : list string -> list (Z * HostItem) -> M unit.
Variable cmd_convert_run_files : list string -> M unit.


End ExitStatus.


(** The other ways to end: [-p 192.168.5.200] completes after one frame
    (status 0); [argparse] rejects [--frobnicate] (status 2); [int]
    raises on the digit [²] that [isdigit] accepts, and [-P 99999] leaves
    the interface without a port, so that [cmd_sendonly] raises
    [KeyError] (status 1). *)
Lemma exit_status_samples :
  sample_main ["ilidar-tool.py"; "-p"; "192.168.5.200"]%string
    ["192.168.5.2"]%string 3 start
  = Done 0 {| now := 0;
              trace := [SendTo (ipv4 192 168 5 2) cmd_pause
                          (ipv4 192 168 5 255) sensor_config_port] |} /\
  sample_main ["ilidar-tool.py"; "--frobnicate"]%string ["192.168.5.2"]%string
    3 start = Done 2 start /\
  sample_main ["ilidar-tool.py"; "-p"; superscript_two]%string
    ["192.168.5.2"]%string 3 start = Raised start /\
  sample_main ["ilidar-tool.py"; "-p"; "192.168.5.200"; "-P"; "99999"]%string
    ["192.168.5.2"]%string 3 start = Raised start /\
  exit_code (Raised start : result Z) = Some 1.
Proof. repeat split; vm_compute; reflexivity. Qed.



(** * Further properties *)

(** ** The info codec at its bounds *)

Lemma get16_is_Some src lo : (lo + 1 < length src)%nat -> is_Some (get16 src lo).
Proof.
  intros H. unfold get16.
  destruct (lookup_lt_is_Some_2 src (lo + 1)%nat H) as [b1 ->].
  destruct (lookup_lt_is_Some_2 src lo ltac:(lia)) as [b0 ->]. eauto.
Qed.

Lemma get32_is_Some src lo : (lo + 3 < length src)%nat -> is_Some (get32 src lo).
Proof.
  intros H. unfold get32.
  destruct (lookup_lt_is_Some_2 src (lo + 3)%nat H) as [b3 ->].
  destruct (lookup_lt_is_Some_2 src (lo + 2)%nat ltac:(lia)) as [b2 ->].
  destruct (lookup_lt_is_Some_2 src (lo + 1)%nat ltac:(lia)) as [b1 ->].
  destruct (lookup_lt_is_Some_2 src lo ltac:(lia)) as [b0 ->]. eauto.
Qed.

(** Take the next [let?] of a run that is known to succeed. *)
Ltac next_let H :=
  match type of H with
  | match ?e with Some _ => _ | None => None end = Some _ =>
    let E := fresh "E" in destruct e eqn:E; [|discriminate H]
  end.

Lemma slice_take lo hi n (l : list Z) :
  (hi <= n)%nat -> slice lo hi (take n l) = slice lo hi l.
Proof.
  intros H. unfold slice. rewrite List.skipn_firstn_comm, List.firstn_firstn.
  f_equal. lia.
Qed.

Lemma decode_info_v2_None src :
  decode_info_v2 src = None <-> (length src < 166)%nat.
Proof.
  split.
  - intros Hnone. destruct (Nat.lt_ge_cases (length src) 166) as [|Hlen];
      [assumption|exfalso].
    revert Hnone. unfold decode_info_v2.
    repeat first
      [ match goal with
        | |- context [get16 src ?lo] =>
          let b := fresh "v" in
          destruct (get16_is_Some src lo ltac:(lia)) as [b ->]
        | |- context [get32 src ?lo] =>
          let b := fresh "v" in
          destruct (get32_is_Some src lo ltac:(lia)) as [b ->]
        | |- context [src !! ?i] =>
          let b := fresh "v" in
          destruct (lookup_lt_is_Some_2 src i ltac:(lia)) as [b ->]
        end ].
    discriminate.
  - intros Hlen. destruct (decode_info_v2 src) as [r|] eqn:Hr; [exfalso|reflexivity].
    unfold decode_info_v2 in Hr. repeat next_let Hr.
    match goal with
    | E : src !! 165%nat = Some _ |- _ => apply lookup_lt_Some in E; lia
    end.
Qed.

(** X1: [decode_info_v2] reads index 165, and nothing above: it raises
    [IndexError] exactly on inputs shorter than 166 bytes, and whatever
    follows the first 166 bytes is ignored. *)
Theorem decode_info_v2_needs_166_bytes (src : list Z) :
  (decode_info_v2 src = None <-> (length src < 166)%nat) /\
  ((166 <= length src)%nat -> decode_info_v2 src = decode_info_v2 (take 166 src)).
Proof.
  split; [apply decode_info_v2_None|].
  intros Hlen. unfold decode_info_v2, get16, get32.
  rewrite !slice_take by lia. rewrite !lookup_take_lt by lia. reflexivity.
Qed.

Lemma decode_info_v2_needs_166_bytes_witness :
  (166 <= length (sensor_bytes sample_info ++ [1%Z; 2%Z]))%nat /\
  decode_info_v2 (sensor_bytes sample_info ++ [1; 2])
  = decode_info_v2 (take 166 (sensor_bytes sample_info ++ [1; 2])).
Proof.
  assert (H : (166 <= length (sensor_bytes sample_info ++ [1%Z; 2%Z]))%nat)
    by (vm_compute; lia).
  split; [exact H|].
  exact (proj2 (decode_info_v2_needs_166_bytes _) H).
Defined.

Lemma le16_add b0 b1 : is_byte b0 = true -> le16 b0 b1 = b1 * 256 + b0.
Proof.
  rewrite is_byte_spec. intros H0. unfold le16.
  rewrite lor_shiftl_add by (change (2 ^ 8) with 256; lia). reflexivity.
Qed.

Lemma le32_add b0 b1 b2 b3 :
  is_byte b0 = true -> is_byte b1 = true -> is_byte b2 = true ->
  is_byte b3 = true ->
  le32 b0 b1 b2 b3 = b3 * 16777216 + b2 * 65536 + b1 * 256 + b0.
Proof.
  rewrite !is_byte_spec. intros H0 H1 H2 H3. unfold le32.
  rewrite <- !Z.lor_assoc.
  rewrite (lor_shiftl_add b1 b0 8) by (change (2 ^ 8) with 256; lia).
  rewrite (lor_shiftl_add b2 _ 16)
    by (change (2 ^ 8) with 256; change (2 ^ 16) with 65536; lia).
  rewrite (lor_shiftl_add b3 _ 24)
    by (change (2 ^ 8) with 256; change (2 ^ 16) with 65536;
        change (2 ^ 24) with 16777216; lia).
  change (2 ^ 8) with 256; change (2 ^ 16) with 65536;
  change (2 ^ 24) with 16777216. lia.
Qed.

Section Le.

Variables b0 b1 b2 b3 : Z.
Hypothesis H0 : is_byte b0 = true.
Hypothesis H1 : is_byte b1 = true.
Hypothesis H2 : is_byte b2 = true.
Hypothesis H3 : is_byte b3 = true.

Lemma le16_is_u16 : is_u16 (le16 b0 b1) = true.
Proof.
  rewrite le16_add by assumption. apply is_u16_spec.
  apply is_byte_spec in H0, H1. lia.
Qed.

Lemma le32_is_u32 : is_u32 (le32 b0 b1 b2 b3) = true.
Proof.
  rewrite le32_add by assumption. apply is_u32_spec.
  apply is_byte_spec in H0, H1, H2, H3. lia.
Qed.

Lemma le16_mod : le16 b0 b1 mod 256 = b0.
Proof.
  rewrite le16_add by assumption. apply is_byte_spec in H0, H1. lia.
Qed.

Lemma le16_div : le16 b0 b1 / 256 = b1.
Proof.
  rewrite le16_add by assumption. apply is_byte_spec in H0, H1. lia.
Qed.

Lemma byte_at_le16_0 : byte_at (le16 b0 b1) 0 = b0.
Proof.
  rewrite byte_at_mod, le16_add by (assumption || lia).
  apply is_byte_spec in H0, H1. change (2 ^ 0) with 1. lia.
Qed.

Lemma byte_at_le16_8 : byte_at (le16 b0 b1) 8 = b1.
Proof.
  rewrite byte_at_mod, le16_add by (assumption || lia).
  apply is_byte_spec in H0, H1. change (2 ^ 8) with 256. lia.
Qed.

Lemma byte_at_le32_0 : byte_at (le32 b0 b1 b2 b3) 0 = b0.
Proof.
  rewrite byte_at_mod, le32_add by (assumption || lia).
  apply is_byte_spec in H0, H1, H2, H3. change (2 ^ 0) with 1. lia.
Qed.

Lemma byte_at_le32_8 : byte_at (le32 b0 b1 b2 b3) 8 = b1.
Proof.
  rewrite byte_at_mod, le32_add by (assumption || lia).
  apply is_byte_spec in H0, H1, H2, H3. change (2 ^ 8) with 256. lia.
Qed.

Lemma byte_at_le32_16 : byte_at (le32 b0 b1 b2 b3) 16 = b2.
Proof.
  rewrite byte_at_mod, le32_add by (assumption || lia).
  apply is_byte_spec in H0, H1, H2, H3. change (2 ^ 16) with 65536. lia.
Qed.

Lemma byte_at_le32_24 : byte_at (le32 b0 b1 b2 b3) 24 = b3.
Proof.
  rewrite byte_at_mod, le32_add by (assumption || lia).
  apply is_byte_spec in H0, H1, H2, H3. change (2 ^ 24) with 16777216. lia.
Qed.

End Le.

(** X2: a frame body that is decoded and encoded again keeps the serial
    number (offsets 0 and 1) and the writable parameters (offsets 71 to
    164); the read-only bytes at offsets 2 to 70 and the lock byte come
    out as zero.  The record in between is a valid one. *)
Theorem encode_decode_blanks_read_only (src : list Z) :
  length src = 166%nat -> forallb is_byte src = true ->
  exists r,
    decode_info_v2 src = Some r /\
    valid_info r = true /\
    encode_info_v2 r
    = Some (take 2 src ++ replicate 69 0 ++ slice 71 165 src ++ [0]).
Proof.
  intros Hlen Hbytes.
  do 166 (destruct src as [|? src]; [discriminate Hlen|]).
  destruct src; [clear Hlen|discriminate Hlen].
  cbn [forallb] in Hbytes. split_andb.
  eexists. split; [reflexivity|].
  cbn [sensor_sn capture_mode capture_row
       capture_shutter capture_limit capture_period_us capture_seq
       data_output data_baud data_sensor_ip data_dest_ip data_subnet
       data_gateway data_port data_mac_addr sync sync_trig_delay_us
       sync_ill_delay_us sync_trig_trim_us sync_ill_trim_us
       sync_output_delay_us arb arb_timeout].
  split.
  - unfold valid_info, bytes_of_len, u16s_of_len, slice.
    cbn [sensor_sn sensor_hw_id sensor_fw_ver sensor_fw_date sensor_fw_time
         sensor_calib_id sensor_fw0_ver sensor_fw1_ver sensor_fw2_ver
         sensor_model_id sensor_boot_ctrl capture_mode capture_row
         capture_shutter capture_limit capture_period_us capture_seq
         data_output data_baud data_sensor_ip data_dest_ip data_subnet
         data_gateway data_port data_mac_addr sync sync_trig_delay_us
         sync_ill_delay_us sync_trig_trim_us sync_ill_trim_us
         sync_output_delay_us arb arb_timeout lock
         Nat.sub firstn skipn take drop length Nat.eqb forallb].
    rewrite !le16_is_u16, !le32_is_u32 by assumption.
    repeat match goal with
           | H : is_byte ?b = true |- _ => rewrite H; clear H
           end.
    reflexivity.
  - cbv [encode_info_v2 for_range].
    cbn [sensor_sn capture_mode capture_row
         capture_shutter capture_limit capture_period_us capture_seq
         data_output data_baud data_sensor_ip data_dest_ip data_subnet
         data_gateway data_port data_mac_addr sync sync_trig_delay_us
         sync_ill_delay_us sync_trig_trim_us sync_ill_trim_us
         sync_output_delay_us arb arb_timeout
         Nat.add Nat.mul lookup list_lookup replicate].
    rewrite le16_mod, le16_div by assumption.
    rewrite !byte_at_le16_0, !byte_at_le16_8 by assumption.
    rewrite !byte_at_le32_0, !byte_at_le32_8, !byte_at_le32_16, !byte_at_le32_24
      by assumption.
    unfold slice. cbn [Nat.sub firstn skipn take drop].
    assert (Hfour : forall a b c d : Z,
              is_byte a = true -> is_byte b = true -> is_byte c = true ->
              is_byte d = true -> forallb is_byte [a; b; c; d] = true).
    { intros a b c d Ha Hb Hc Hd. cbn. now rewrite Ha, Hb, Hc, Hd. }
    assert (Hsix : forall a b c d e f : Z,
              is_byte a = true -> is_byte b = true -> is_byte c = true ->
              is_byte d = true -> is_byte e = true -> is_byte f = true ->
              forallb is_byte [a; b; c; d; e; f] = true).
    { intros a b c d e f Ha Hb Hc Hd He Hf. cbn.
      now rewrite Ha, Hb, Hc, Hd, He, Hf. }
    repeat first
      [ rewrite setitem_Some by solve_store_side; cbn [insert list_insert]
      | rewrite setslice_Some by (first [apply Hfour | apply Hsix]; assumption);
        cbn [firstn skipn take drop app] ].
    reflexivity.
Qed.

Lemma encode_decode_blanks_read_only_witness :
  length (sensor_bytes sample_info) = 166%nat /\
  forallb is_byte (sensor_bytes sample_info) = true /\
  exists r,
    decode_info_v2 (sensor_bytes sample_info) = Some r /\
    valid_info r = true /\
    encode_info_v2 r
    = Some (take 2 (sensor_bytes sample_info) ++ replicate 69 0
            ++ slice 71 165 (sensor_bytes sample_info) ++ [0]).
Proof.
  assert (H1 : length (sensor_bytes sample_info) = 166%nat) by reflexivity.
  assert (H2 : forallb is_byte (sensor_bytes sample_info) = true)
    by (vm_compute; reflexivity).
  split; [exact H1|]. split; [exact H2|].
  exact (encode_decode_blanks_read_only (sensor_bytes sample_info) H1 H2).
Defined.


(** ** What [encode_info_v2] accepts *)

Lemma setitem_inv i v dst dst' :
  setitem i v dst = Some dst' ->
  is_byte v = true /\ (i < length dst)%nat /\ length dst' = length dst.
Proof.
  unfold setitem. destruct (is_byte v); [|discriminate].
  destruct (Nat.ltb_spec i (length dst)); [|discriminate].
  intros [= <-]. rewrite length_insert. auto.
Qed.

Lemma for_range_length (body : nat -> list Z -> option (list Z))
    (P : nat -> Prop) n :
  (forall i d d', body i d = Some d' -> length d' = length d /\ P i) ->
  forall lo d d', for_range lo n body d = Some d' ->
    length d' = length d /\ forall i, (lo <= i < lo + n)%nat -> P i.
Proof.
  intros Hbody. induction n as [|n IH]; intros lo d d' H; cbn [for_range] in H.
  - injection H as <-. split; [reflexivity|lia].
  - destruct (body lo d) as [d1|] eqn:E; [|discriminate].
    destruct (Hbody _ _ _ E) as [Hl Hp].
    destruct (IH _ _ _ H) as [Hl' Hp']. split; [congruence|].
    intros i Hi. destruct (decide (i = lo)) as [->|]; [assumption|].
    apply Hp'. lia.
Qed.

(** One statement of a run that succeeds, with the length of the array
    before and after it. *)
Section Steps.

Context {B : Type}.
Variable dst : list Z.
Variable n : nat.
Variable k : list Z -> option B.
Variable b : B.
Hypothesis Hlen : length dst = n.

Lemma step_setitem i v :
  (let? d := setitem i v dst in k d) = Some b ->
  is_byte v = true /\ (i < n)%nat /\
  exists d, length d = n /\ k d = Some b.
Proof.
  destruct (setitem i v dst) as [d|] eqn:E; [|discriminate].
  apply setitem_inv in E as (Hv & Hi & Hd). intros Hk.
  split; [assumption|]. split; [lia|]. exists d. split; [lia|assumption].
Qed.

Lemma step_setslice lo hi v :
  (lo <= n)%nat ->
  (let? d := setslice lo hi v dst in k d) = Some b ->
  forallb is_byte v = true /\
  exists d, length d = (lo + length v + (n - hi))%nat /\ k d = Some b.
Proof.
  intros Hlo. unfold setslice. destruct (forallb is_byte v); [|discriminate].
  intros Hk. split; [reflexivity|]. eexists. split; [|exact Hk].
  rewrite !length_app, length_take, length_drop. lia.
Qed.

Lemma step_for_range (body : nat -> list Z -> option (list Z))
    (P : nat -> Prop) lo m :
  (forall i d d', body i d = Some d' -> length d' = length d /\ P i) ->
  (let? d := for_range lo m body dst in k d) = Some b ->
  (forall i, (lo <= i < lo + m)%nat -> P i) /\
  exists d, length d = n /\ k d = Some b.
Proof.
  intros Hbody. destruct (for_range lo m body dst) as [d|] eqn:E;
    [|discriminate].
  destruct (for_range_length body P m Hbody _ _ _ E) as [Hd Hp].
  intros Hk. split; [assumption|]. exists d. split; [lia|assumption].
Qed.

End Steps.

Lemma step_lookup {B} (l : list Z) i (k : Z -> option B) b :
  (let? s := l !! i in k s) = Some b ->
  (i < length l)%nat /\ exists s, k s = Some b.
Proof.
  destruct (l !! i) as [s|] eqn:E; [|discriminate].
  apply lookup_lt_Some in E. eauto.
Qed.

(** The body of the loops over [capture_shutter] and
    [sync_ill_delay_us]. *)
Lemma two_byte_store (l : list Z) (a b i : nat) d d' :
  (let? s := l !! i in
   let? dst := setitem a (byte_at s 0) d in
   let? s := l !! i in
   setitem b (byte_at s 8) dst) = Some d' ->
  length d' = length d /\ (i < length l)%nat.
Proof.
  destruct (l !! i) as [s|] eqn:E; [|discriminate].
  destruct (setitem a _ d) as [d1|] eqn:E1; [|discriminate].
  intros E2. apply setitem_inv in E1 as (_ & _ & ?), E2 as (_ & _ & ?).
  apply lookup_lt_Some in E. split; [congruence|assumption].
Qed.

Ltac enc_step r H Hl :=
  let Hl' := fresh "Hl" in
  first
    [ apply (step_setitem _ _ _ _ Hl) in H;
      destruct H as (? & ? & ? & Hl' & H)
    | apply (step_setslice _ _ _ _ Hl) in H;
      [ destruct H as (? & ? & Hl' & H) | clear; lia ]
    | apply (step_for_range _ _ _ _ Hl _ (fun _ => True)) in H;
      [ destruct H as (_ & ? & Hl' & H)
      | intros ? ? ? Hs; apply setitem_inv in Hs; tauto ]
    | apply (step_for_range _ _ _ _ Hl _
               (fun i => (i < length (capture_shutter r))%nat)) in H;
      [ destruct H as (? & ? & Hl' & H)
      | intros ? ? ?; apply two_byte_store ]
    | apply (step_for_range _ _ _ _ Hl _
               (fun i => (i < length (sync_ill_delay_us r))%nat)) in H;
      [ destruct H as (? & ? & Hl' & H)
      | intros ? ? ?; apply two_byte_store ] ];
  clear Hl; rename Hl' into Hl.

(** X3: [encode_info_v2] returns only when the serial number is a 16-bit
    value, every parameter stored in one byte is a byte, the address
    fields hold bytes and the three lists are long enough; any other
    record raises.  The array it returns has 166 bytes when the address
    fields have their 4, 4, 4, 4 and 6 bytes, and as many more or fewer
    as these fields have. *)
Theorem encode_info_v2_accepts (r : InfoRecord) (bytes : list Z) :
  encode_info_v2 r = Some bytes ->
  is_u16 (sensor_sn r) = true /\
  forallb is_byte [capture_mode r; capture_row r; capture_seq r; data_output r;
                   sync r; sync_trig_trim_us r; sync_ill_trim_us r; arb r]
  = true /\
  forallb is_byte (data_sensor_ip r ++ data_dest_ip r ++ data_subnet r
                   ++ data_gateway r ++ data_mac_addr r) = true /\
  (5 <= length (capture_shutter r))%nat /\
  (2 <= length (capture_limit r))%nat /\
  (15 <= length (sync_ill_delay_us r))%nat /\
  length bytes
  = (144 + length (data_sensor_ip r) + length (data_dest_ip r)
     + length (data_subnet r) + length (data_gateway r)
     + length (data_mac_addr r))%nat.
Proof.
  cbv [encode_info_v2]. intros H.
  pose proof (length_replicate 166 0) as Hl.
  repeat first
    [ enc_step r H Hl
    | apply step_lookup in H; destruct H as (? & ? & H) ].
  injection H as <-.
  split; [|split; [|split]].
  - apply is_u16_spec.
    repeat match goal with
           | H : is_byte (sensor_sn r mod 256) = true |- _ =>
             apply is_byte_spec in H; revert H
           | H : is_byte (sensor_sn r / 256) = true |- _ =>
             apply is_byte_spec in H; revert H
           end.
    clear. lia.
  - cbn [forallb].
    repeat match goal with
           | H : is_byte ?v = true |- context [is_byte ?v] => rewrite H
           end.
    reflexivity.
  - rewrite !forallb_app.
    repeat match goal with
           | H : forallb is_byte ?l = true |- context [forallb is_byte ?l] =>
             rewrite H
           end.
    reflexivity.
  - repeat match goal with
           | H : forall i, _ -> (i < length _)%nat |- _ =>
             first [ specialize (H 14%nat ltac:(clear; lia))
                   | specialize (H 4%nat ltac:(clear; lia)) ]
           end.
    repeat split.
    + match goal with
      | H : (4 < length (capture_shutter r))%nat |- _ => clear -H; lia
      end.
    + match goal with
      | H : (1 < length (capture_limit r))%nat |- _ => clear -H; lia
      end.
    + match goal with
      | H : (14 < length (sync_ill_delay_us r))%nat |- _ => clear -H; lia
      end.
    + clear -Hl. lia.
Qed.

Lemma encode_info_v2_accepts_witness :
  exists bytes,
    encode_info_v2 sample_info = Some bytes /\
    is_u16 (sensor_sn sample_info) = true /\
    length bytes = 166%nat.
Proof.
  assert (E : exists bytes, encode_info_v2 sample_info = Some bytes)
    by (eexists; vm_compute; reflexivity).
  destruct E as [bytes E]. exists bytes. split; [exact E|].
  destruct (encode_info_v2_accepts sample_info bytes E)
    as (Hsn & _ & _ & _ & _ & _ & Hlen).
  split; [exact Hsn | exact Hlen].
Defined.


(** ** Values wider than their field *)

Lemma byte_at_mod_pow2 v k n :
  0 <= k -> k + 8 <= n -> byte_at (v mod 2 ^ n) k = byte_at v k.
Proof.
  intros Hk Hn. unfold byte_at. apply Z.bits_inj'. intros i Hi.
  rewrite !Z.land_spec, !Z.shiftr_spec by assumption.
  change 255 with (Z.ones 8).
  destruct (Z.ltb_spec i 8).
  - rewrite Z.mod_pow2_bits_low by lia. reflexivity.
  - rewrite Z.ones_spec_high by lia. now rewrite !andb_false_r.
Qed.

Lemma byte_at_wrap16 v k :
  k = 0 \/ k = 8 -> byte_at (v mod 65536) k = byte_at v k.
Proof. intros [->| ->]; apply (byte_at_mod_pow2 v _ 16); lia. Qed.

Lemma byte_at_wrap32 v k :
  k = 0 \/ k = 8 \/ k = 16 \/ k = 24 ->
  byte_at (v mod 4294967296) k = byte_at v k.
Proof. intros [->|[->|[->| ->]]]; apply (byte_at_mod_pow2 v _ 32); lia. Qed.

Lemma for_range_ext {S} (body body' : nat -> S -> option S) n :
  (forall i s, body i s = body' i s) ->
  forall lo s, for_range lo n body s = for_range lo n body' s.
Proof.
  intros Hext. induction n as [|n IH]; intros lo s; [reflexivity|].
  cbn [for_range]. rewrite Hext. destruct (body' lo s); [apply IH|reflexivity].
Qed.

Lemma two_byte_store_wrap16 (l : list Z) (a b : nat) i d :
  (let? s := map (fun v => v mod 65536) l !! i in
   let? dst := setitem a (byte_at s 0) d in
   let? s := map (fun v => v mod 65536) l !! i in
   setitem b (byte_at s 8) dst)
  = (let? s := l !! i in
     let? dst := setitem a (byte_at s 0) d in
     let? s := l !! i in
     setitem b (byte_at s 8) dst).
Proof.
  change (map (fun v => v mod 65536) l) with ((fun v => v mod 65536) <$> l).
  rewrite list_lookup_fmap. destruct (l !! i) as [s|]; [|reflexivity].
  cbn [fmap option_fmap option_map]. rewrite !byte_at_wrap16 by auto.
  reflexivity.
Qed.

(** X4: a 16-bit or 32-bit parameter is stored byte by byte under a mask, so
    only its low 16 or 32 bits count: a value outside the range of its
    field, negative ones included, is encoded as the value it is
    congruent to and nothing is raised. *)
Theorem encode_info_v2_truncates (r : InfoRecord) :
  encode_info_v2 (truncate_wide r) = encode_info_v2 r.
Proof.
  cbv [encode_info_v2].
  cbn [truncate_wide sensor_sn capture_mode capture_row
       capture_shutter capture_limit capture_period_us capture_seq
       data_output data_baud data_sensor_ip data_dest_ip data_subnet
       data_gateway data_port data_mac_addr sync sync_trig_delay_us
       sync_ill_delay_us sync_trig_trim_us sync_ill_trim_us
       sync_output_delay_us arb arb_timeout].
  rewrite !byte_at_wrap16, !byte_at_wrap32 by auto.
  change (map (fun v => v mod 65536) (capture_limit r))
    with ((fun v => v mod 65536) <$> capture_limit r).
  rewrite !list_lookup_fmap.
  repeat first
    [ rewrite (for_range_ext _ _ 5 (fun i d =>
                 two_byte_store_wrap16 (capture_shutter r)
                   (73 + i * 2) (74 + i * 2) i d))
    | rewrite (for_range_ext _ _ 15 (fun i d =>
                 two_byte_store_wrap16 (sync_ill_delay_us r)
                   (126 + i * 2) (127 + i * 2) i d))
    | match goal with
      | |- (let? _ := _ <$> ?e in _) = _ =>
        destruct e; cbn [fmap option_fmap option_map];
        [rewrite ?byte_at_wrap16 by auto | reflexivity]
      | |- (let? _ := ?e in _) = _ => destruct e; [|reflexivity]
      end ].
  reflexivity.
Qed.


(** ** What the CRC detects *)

(** One shift of the register can be undone: the bit shifted out is the
    lowest bit of the result. *)
Lemma crc16_shift_undone :
  Z_range_forallb
    (fun c =>
       let s := crc16_shift c in
       (if Z.odd s then Z.lor (Z.shiftr (Z.lxor s 0x1021) 1) 0x8000
        else Z.shiftr s 1) =? c)
    0 (Z.to_nat 65536) = true.
Proof. vm_compute. reflexivity. Qed.

Lemma crc16_shift_range c : 0 <= crc16_shift c < 65536.
Proof.
  unfold crc16_shift. change 0xFFFF with (Z.ones 16).
  destruct (Z.testbit c 15); rewrite Z.land_ones by lia;
    apply Z.mod_pos_bound; lia.
Qed.

Lemma crc16_shift_inj c1 c2 :
  0 <= c1 < 65536 -> 0 <= c2 < 65536 ->
  crc16_shift c1 = crc16_shift c2 -> c1 = c2.
Proof.
  intros H1 H2 Heq.
  pose proof (Z_range_forallb_spec _ _ 0 c1 crc16_shift_undone ltac:(lia)) as E1.
  pose proof (Z_range_forallb_spec _ _ 0 c2 crc16_shift_undone ltac:(lia)) as E2.
  cbv beta zeta in E1, E2. rewrite Heq in E1.
  apply Z.eqb_eq in E1, E2. congruence.
Qed.

Lemma iter_shift_range n c : 0 <= c < 65536 -> 0 <= Nat.iter n crc16_shift c < 65536.
Proof. intros Hc. destruct n; [assumption|]. cbn. apply crc16_shift_range. Qed.

Lemma iter_shift_inj n : forall c1 c2,
  0 <= c1 < 65536 -> 0 <= c2 < 65536 ->
  Nat.iter n crc16_shift c1 = Nat.iter n crc16_shift c2 -> c1 = c2.
Proof.
  induction n as [|n IH]; intros c1 c2 H1 H2 Heq; [assumption|].
  cbn [Nat.iter nat_rect] in Heq. apply IH; [assumption..|].
  apply crc16_shift_inj; [apply iter_shift_range; assumption..|assumption].
Qed.

Lemma lxor_cancel_r a b c : Z.lxor a c = Z.lxor b c -> a = b.
Proof.
  intros H. apply (f_equal (fun v => Z.lxor v c)) in H.
  now rewrite !Z.lxor_assoc, Z.lxor_nilpotent, !Z.lxor_0_r in H.
Qed.

Lemma lxor_cancel_l a b c : Z.lxor c a = Z.lxor c b -> a = b.
Proof. rewrite !(Z.lxor_comm c). apply lxor_cancel_r. Qed.

Lemma crc16_bitwise_byte_range crc byte :
  0 <= crc < 65536 -> 0 <= crc16_bitwise_byte crc byte < 65536.
Proof. intros _. unfold crc16_bitwise_byte. cbn. apply crc16_shift_range. Qed.

(** For a given byte the next register determines the register before,
    and for a given register it determines the byte. *)
Lemma crc16_bitwise_byte_inj c1 c2 x y :
  0 <= c1 < 65536 -> 0 <= c2 < 65536 -> 0 <= x < 256 -> 0 <= y < 256 ->
  crc16_bitwise_byte c1 x = crc16_bitwise_byte c2 y ->
  Z.lxor c1 (Z.shiftl x 8) = Z.lxor c2 (Z.shiftl y 8).
Proof.
  intros H1 H2 Hx Hy Heq. unfold crc16_bitwise_byte in Heq.
  apply iter_shift_inj in Heq; [assumption|now apply fold_byte_range..].
Qed.

Lemma fold_crc_range packet : forall crc,
  0 <= crc < 65536 -> 0 <= fold_left crc16_bitwise_byte packet crc < 65536.
Proof.
  induction packet as [|b rest IH]; intros crc Hc; [assumption|].
  cbn [fold_left]. apply IH. now apply crc16_bitwise_byte_range.
Qed.

Lemma fold_crc_inj packet : forall c1 c2,
  forallb is_byte packet = true ->
  0 <= c1 < 65536 -> 0 <= c2 < 65536 ->
  fold_left crc16_bitwise_byte packet c1 = fold_left crc16_bitwise_byte packet c2 ->
  c1 = c2.
Proof.
  induction packet as [|b rest IH]; intros c1 c2 Hp H1 H2 Heq; [assumption|].
  cbn [forallb] in Hp. apply andb_prop in Hp as [Hb Hrest].
  apply is_byte_spec in Hb. cbn [fold_left] in Heq.
  apply IH in Heq; [|assumption|now apply crc16_bitwise_byte_range..].
  apply crc16_bitwise_byte_inj in Heq; [|assumption..].
  now apply lxor_cancel_r in Heq.
Qed.

(** X5: [get_crc16] tells apart any two byte strings of the same length that
    differ in exactly one byte: a frame with one corrupted byte never
    has the CRC of the original. *)
Theorem get_crc16_detects_one_byte (before after : list Z) (x y : Z) :
  forallb is_byte before = true -> forallb is_byte after = true ->
  is_byte x = true -> is_byte y = true ->
  x <> y ->
  get_crc16 (before ++ x :: after) <> get_crc16 (before ++ y :: after).
Proof.
  intros Hbefore Hafter Hx Hy Hne. unfold get_crc16.
  rewrite !crc16_loop_bitwise;
    try (rewrite forallb_app; cbn [forallb];
         rewrite Hbefore, ?Hx, ?Hy, Hafter; reflexivity);
    try lia.
  rewrite !fold_left_app. cbn [fold_left].
  set (c := fold_left crc16_bitwise_byte before 65535).
  assert (Hc : 0 <= c < 65536) by (apply fold_crc_range; lia).
  intros [= Heq]. apply is_byte_spec in Hx, Hy.
  apply fold_crc_inj in Heq;
    [|assumption|now apply crc16_bitwise_byte_range..].
  apply crc16_bitwise_byte_inj in Heq; [|assumption..].
  apply lxor_cancel_l in Heq. rewrite !Z.shiftl_mul_pow2 in Heq by lia.
  apply Hne. lia.
Qed.

Lemma get_crc16_detects_one_byte_witness :
  forallb is_byte [49; 50] = true /\ forallb is_byte [53] = true /\
  is_byte 51 = true /\ is_byte 52 = true /\ 51 <> 52 /\
  get_crc16 ([49; 50] ++ 51 :: [53]) <> get_crc16 ([49; 50] ++ 52 :: [53]).
Proof.
  assert (H1 : forallb is_byte [49; 50] = true) by reflexivity.
  assert (H2 : forallb is_byte [53] = true) by reflexivity.
  assert (H3 : is_byte 51 = true) by reflexivity.
  assert (H4 : is_byte 52 = true) by reflexivity.
  assert (H5 : 51 <> 52) by discriminate.
  repeat (split; [assumption|]).
  exact (get_crc16_detects_one_byte [49; 50] [53] 51 52 H1 H2 H3 H4 H5).
Defined.


(** ** Who is flashed *)

Section NoFlash.

Variable recvfrom : Z -> Z -> nat -> option datagram.

Lemma recv_no_flash ip sock_port :
  spec (recv recvfrom ip sock_port) no_flash (fun _ => True).
Proof.
  eapply spec_weaken; [apply (spec_recv recvfrom _ _ no_flash)| |]; trivial.
  intros t d _. split; reflexivity.
Qed.

Lemma await_safe_boot_on_no_flash fuel ip sock_port item_sn : forall error,
  spec (await_safe_boot_on recvfrom fuel ip sock_port item_sn error)
       no_flash (fun _ => True).
Proof.
  induction fuel as [|fuel IH]; intros error; cbn [await_safe_boot_on].
  - apply spec_out_of_fuel.
  - destruct (negb error); [now apply spec_ret|].
    eapply (spec_bind _ _ _ (fun _ => True)); [apply recv_no_flash|].
    intros [d|] _; [|now apply spec_ret].
    destruct (is_frame _ _ _); [|apply IH].
    eapply (spec_bind _ _ _ (fun _ => True)); [now apply spec_try|].
    intros retry_info _.
    destruct (_ =? item_sn); [|apply IH].
    destruct (_ =? 0); now apply spec_ret.
Qed.

Lemma await_safe_boot_no_flash fuel ip sock item_sn : forall error,
  spec (await_safe_boot recvfrom fuel ip sock item_sn error)
       no_flash (fun _ => True).
Proof.
  induction fuel as [|fuel IH]; intros error; cbn [await_safe_boot].
  - apply spec_out_of_fuel.
  - destruct (negb error); [now apply spec_ret|].
    eapply (spec_bind _ _ _ (fun _ => True));
      [apply spec_sendto; split; reflexivity|].
    intros _ _. eapply (spec_bind _ _ _ (fun _ => True)); [|intros; apply IH].
    apply (spec_for_each _ _ _ (fun _ => True)); [|trivial].
    intros sock_port e _ _. apply await_safe_boot_on_no_flash.
Qed.

Lemma safe_boot_tries_no_flash fuel ip sock target_ip item_sn tries :
  forall error,
    spec (safe_boot_tries recvfrom fuel tries ip sock target_ip item_sn error)
         no_flash (fun _ => True).
Proof.
  induction tries as [|tries IH]; intros error; cbn [safe_boot_tries].
  - now apply spec_ret.
  - eapply (spec_bind _ _ _ (fun _ => True));
      [apply spec_sendto; split; reflexivity|].
    intros _ _. eapply (spec_bind _ _ _ (fun _ => True));
      [apply spec_sendto; split; reflexivity|].
    intros _ _. eapply (spec_bind _ _ _ (fun _ => True));
      [apply await_safe_boot_no_flash|].
    intros error' _. apply IH.
Qed.

Lemma safe_boot_recovery_no_flash fuel sockets target_ip item_sn :
  spec (safe_boot_recovery recvfrom fuel sockets target_ip item_sn)
       no_flash (fun _ => True).
Proof.
  unfold safe_boot_recovery.
  eapply (spec_bind _ _ _ (fun _ => True)); [|intros; now apply spec_ret].
  apply (spec_for_each _ _ _ (fun _ => True)); [|trivial].
  intros [ip sock] [tries error] _ _.
  destruct (is_in_subnet _ _ _); [|now apply spec_ret].
  apply safe_boot_tries_no_flash.
Qed.

(** A sensor that fails one of the checks gets no frame of the
    transfer. *)
Lemma update_sensor_no_flash fuel forced_update
    arg_target_type arg_target_list sockets item info target_ip recv_sn :
  eligible forced_update arg_target_type arg_target_list item info
    target_ip recv_sn = false \/ lock info <> 0 ->
  spec (update_sensor recvfrom fuel forced_update arg_target_type
          arg_target_list sockets item info target_ip recv_sn)
       no_flash (fun o => o <> Updated).
Proof.
  intros Hno. unfold update_sensor.
  eapply (spec_bind _ _ _ (fun t0 => arg_target_type !! 0%nat = Some t0));
    [now apply spec_try|].
  intros t0 Ht0.
  destruct (negb (bool_decide (t0 = T_ALL))
            && negb (bool_decide (PyStr target_ip ∈ arg_target_list))
            && negb (bool_decide (PyInt recv_sn ∈ arg_target_list)))
    eqn:Hargs; [now apply spec_ret|].
  eapply (spec_bind _ _ _ (fun _ => True)).
  { apply spec_broadcast_all. intros; split; reflexivity. }
  intros _ _.
  destruct (bool_decide (sensor_fw1_ver info = fw_version item)
            && negb forced_update) eqn:Hsame; [now apply spec_ret|].
  destruct (bool_decide (slice 0 12 (sensor_hw_id info) = sensor_id_arr item))
    eqn:Hhw; cbn [negb]; [|now apply spec_ret].
  eapply (spec_bind _ _ _
            (fun v => fw_ver_number (sensor_fw_ver info) = Some v));
    [now apply spec_try|].
  intros fw_ver Hfw.
  destruct (Z.ltb_spec fw_ver 10504) as [|Hver]; [now apply spec_ret|].
  eapply (spec_bind _ _ _ (fun _ => True)).
  { destruct (negb (sensor_boot_ctrl info =? 0));
      [apply safe_boot_recovery_no_flash | now apply spec_ret]. }
  intros error _. destruct error; [now apply spec_ret|].
  destruct (Z.eqb_spec (lock info) 0) as [Hlock|_]; cbn [negb];
    [|now apply spec_ret].
  exfalso. destruct Hno as [Hel|Hl]; [|contradiction].
  unfold eligible in Hel. rewrite Ht0, Hfw, Hhw in Hel.
  rewrite <- !negb_orb in Hargs. apply negb_false_iff in Hargs.
  rewrite Hargs in Hel.
  assert (negb (bool_decide (sensor_fw1_ver info = fw_version item))
          || forced_update = true) as Hv.
  { revert Hsame. destruct (bool_decide _), forced_update; cbn;
      intros; first [reflexivity | discriminate]. }
  rewrite Hv in Hel. cbn [andb] in Hel. apply Z.leb_gt in Hel. lia.
Qed.

(** X6: [cmd_flash_start] and the flash blocks go only to a sensor that is
    among the arguments, whose slot-1 version differs from the file's
    (unless the update is forced), whose hardware id is the file's,
    whose FW0 is at least V1.5.4 and that is not locked.  For any other
    sensor, whatever arrives from the network and however long the run
    lasts, neither is sent and the sensor is not reported as updated. *)
Theorem update_sensor_flashes_only_eligible fuel forced_update
    arg_target_type arg_target_list sockets item info target_ip recv_sn s :
  eligible forced_update arg_target_type arg_target_list item info
    target_ip recv_sn = false \/ lock info <> 0 ->
  (exists new,
     trace (final (update_sensor recvfrom fuel forced_update arg_target_type
                     arg_target_list sockets item info target_ip recv_sn s))
     = trace s ++ new /\ Forall no_flash new) /\
  forall s',
    update_sensor recvfrom fuel forced_update arg_target_type
      arg_target_list sockets item info target_ip recv_sn s
    <> Done Updated s'.
Proof.
  intros Hno.
  destruct (update_sensor_no_flash fuel forced_update arg_target_type
              arg_target_list sockets item info target_ip recv_sn Hno s)
    as [Htr Hq].
  split; [exact Htr|]. intros s' Hrun. exact (Hq _ _ Hrun eq_refl).
Qed.

End NoFlash.

Lemma update_sensor_flashes_only_eligible_witness :
  (eligible true [T_ALL] [PyInt 0] bin_456 (live_456 [4; 0; 1] 0 1)
     sensor_ip_200 456 = false \/ lock (live_456 [4; 0; 1] 0 1) <> 0) /\
  (exists new,
     trace (final (update_sensor cooperative 5 true [T_ALL] [PyInt 0] sockets_5
                     bin_456 (live_456 [4; 0; 1] 0 1) sensor_ip_200 456 start))
     = trace start ++ new /\ Forall no_flash new) /\
  forall s',
    update_sensor cooperative 5 true [T_ALL] [PyInt 0] sockets_5 bin_456
      (live_456 [4; 0; 1] 0 1) sensor_ip_200 456 start <> Done Updated s'.
Proof.
  assert (H : eligible true [T_ALL] [PyInt 0] bin_456 (live_456 [4; 0; 1] 0 1)
                sensor_ip_200 456 = false \/ lock (live_456 [4; 0; 1] 0 1) <> 0)
    by (right; discriminate).
  split; [exact H|].
  exact (update_sensor_flashes_only_eligible cooperative 5 true [T_ALL]
           [PyInt 0] sockets_5 bin_456 (live_456 [4; 0; 1] 0 1) sensor_ip_200
           456 start H).
Defined.


(** ** Discovery with the target [all], and the command [info] *)

Lemma add_sensor_all_mode sender info st :
  all_mode_lists st -> all_mode_lists (add_sensor sender info st).
Proof.
  intros (Hty & Hnd & Hlen & Hinfo). unfold add_sensor.
  destruct (bool_decide_reflect (sensor_sn info ∈ recv_sn_list st)) as [|Hnew];
    [repeat split; assumption|].
  repeat split; cbn [f_target_type f_target_list recv_sn_list recv_info_list].
  - exact Hty.
  - apply NoDup_app. repeat split; [assumption | | apply NoDup_singleton].
    intros x Hx Hx'. apply list_elem_of_In in Hx'. destruct Hx' as [<-|[]].
    contradiction.
  - rewrite !length_app. cbn [length]. lia.
  - apply Forall_app. split.
    + eapply Forall_impl; [exact Hinfo|]. intros [idx r] Hr. cbn [fst snd] in *.
      now apply lookup_app_l_Some.
    + constructor; [|constructor]. cbn [fst snd].
      apply list_lookup_middle. reflexivity.
Qed.

Lemma on_info_cmd_run_all_mode sender info st st' :
  all_mode_lists st -> on_info_cmd_run sender info st = Some st' ->
  all_mode_lists st'.
Proof.
  intros Hst. unfold on_info_cmd_run. destruct Hst as (Hty & Hrest).
  rewrite Hty. rewrite bool_decide_eq_true_2 by reflexivity.
  intros [= <-]. apply add_sensor_all_mode. split; assumption.
Qed.

Section AllMode.

Variable recvfrom : Z -> Z -> nat -> option datagram.
Variable is_enter_pressed : nat -> bool.

(** X7: with the target [all] the loop of [cmd_run] has no way to know that
    every sensor has answered: it returns only when the Enter key is
    pressed.  What it returns then lists no serial twice, one address
    for each serial, and each stored record under the slot of its
    serial. *)
Theorem find_targets_all_stops_on_enter fuel sockets st s r s' :
  all_mode_lists st ->
  find_targets recvfrom is_enter_pressed fuel sockets st s = Done r s' ->
  fst r = Enter_key /\ all_mode_lists (snd r).
Proof.
  revert st s. induction fuel as [|fuel IH]; intros st s Hst;
    cbn [find_targets]; [discriminate|].
  unfold bind at 1. cbn [enter_pressed].
  destruct (is_enter_pressed (now s)).
  { intros [= <- _]. split; [reflexivity | assumption]. }
  unfold bind at 1.
  match goal with
  | |- context [poll_all ?rf ?f ?so ?oi ?oo st ?s0] =>
    destruct (spec_poll_all rf oi oo (fun _ => True) all_mode_lists
                (fun _ _ _ _ => Logic.I)
                (fun _ => spec_ret tt _ (fun _ => True) Logic.I)
                (fun sender info st1 st2 _ =>
                   on_info_cmd_run_all_mode sender info st1 st2)
                f so st (fun _ _ _ => Logic.I) Hst s0) as [_ Hq];
      destruct (poll_all rf f so oi oo st s0) as [st1 s1|s1|s1] eqn:Hpoll;
      [|discriminate..]
  end.
  specialize (Hq _ _ eq_refl). unfold bind at 1, all_found.
  destruct Hq as (Hty & Hrest). rewrite Hty. cbn [try_]. unfold ret at 1.
  rewrite bool_decide_eq_true_2 by reflexivity. cbn [negb andb].
  apply IH. split; assumption.
Qed.

(** X8: the command [info] only asks: whatever the targets, [cmd_run]
    sends nothing but [cmd_read_info] to the broadcast addresses of
    the interfaces. *)
Theorem cmd_run_info_only_asks fuel cmd_msg host_list s :
  cmd_command cmd_msg = c_info ->
  exists new,
    trace (final (cmd_run recvfrom is_enter_pressed fuel cmd_msg host_list s))
    = trace s ++ new /\
    Forall (discovery_event (create_sockets host_list)) new.
Proof.
  intros Hcmd.
  assert (Hspec : spec (cmd_run recvfrom is_enter_pressed fuel cmd_msg host_list)
                       (discovery_event (create_sockets host_list))
                       (fun _ => True)).
  { unfold cmd_run.
    destruct (ports_given host_list); cbn [negb]; [|apply spec_raise].
    eapply spec_bind.
    { apply (spec_find_targets recvfrom is_enter_pressed fuel _ _
               (fun _ => True)).
      - intros; exact Logic.I.
      - intros ip sock Hin. exists sock. auto.
      - trivial.
      - trivial. }
    intros [stp st] _. cbn [snd].
    destruct (negb _); [now apply spec_ret|].
    rewrite bool_decide_eq_true_2 by exact Hcmd. now apply spec_ret. }
  destruct (Hspec s) as [Htr _]. exact Htr.
Qed.

End AllMode.

Lemma find_targets_all_stops_on_enter_witness :
  all_mode_lists (initial_found all_targets) /\
  exists r s',
    find_targets sensor_zero_answers (fun t => (3 <=? t)%nat) 4 sockets_5
      (initial_found all_targets) start = Done r s' /\
    fst r = Enter_key /\ all_mode_lists (snd r).
Proof.
  assert (H : all_mode_lists (initial_found all_targets)).
  { repeat split; [apply NoDup_nil_2 | constructor]. }
  split; [exact H|].
  destruct (find_targets sensor_zero_answers (fun t => (3 <=? t)%nat) 4 sockets_5
              (initial_found all_targets) start) as [r s'|s'|s'] eqn:E;
    [|exfalso; revert E; vm_compute; discriminate..].
  exists r, s'. split; [reflexivity|].
  exact (find_targets_all_stops_on_enter sensor_zero_answers
           (fun t => (3 <=? t)%nat) 4 sockets_5 _ start r s' H E).
Defined.

Lemma cmd_run_info_only_asks_witness :
  cmd_command {| cmd_command := c_info; target_type := [T_SN];
                 target_list := [PyInt 456] |} = c_info /\
  exists new,
    trace (final (cmd_run cooperative never_pressed 3
                    {| cmd_command := c_info; target_type := [T_SN];
                       target_list := [PyInt 456] |} host_5 start))
    = trace start ++ new /\
    Forall (discovery_event (create_sockets host_5)) new.
Proof.
  split; [reflexivity|].
  exact (cmd_run_info_only_asks cooperative never_pressed 3
           {| cmd_command := c_info; target_type := [T_SN];
              target_list := [PyInt 456] |} host_5 start eq_refl).
Defined.


(** ** Firmware files for the same serial *)

Lemma count_not_in (x : Z) l : x ∉ l -> filter (fun y => y = x) l = [].
Proof.
  induction l as [|y l IH]; intros Hx; [reflexivity|].
  rewrite not_elem_of_cons in Hx. destruct Hx as [Hne Hx].
  rewrite filter_cons_False by congruence. auto.
Qed.

Lemma count_in (x : Z) l : x ∈ l -> (0 < length (filter (fun y => y = x) l))%nat.
Proof.
  intros Hx. destruct (filter (fun y => y = x) l) as [|y l'] eqn:E;
    [|cbn [length]; lia].
  assert (x ∈ filter (fun y => y = x) l) as Hin
    by (apply list_elem_of_filter; auto).
  rewrite E in Hin. now apply elem_of_nil in Hin.
Qed.

Lemma NoDup_count (l : list Z) :
  NoDup l <-> forall x, (length (filter (fun y => y = x) l) <= 1)%nat.
Proof.
  induction l as [|y l IH].
  - split; [intros _ x; cbn; lia | intros _; apply NoDup_nil_2].
  - rewrite NoDup_cons, IH. split.
    + intros [Hy Hl] x. destruct (decide (y = x)) as [->|Hne].
      * rewrite filter_cons_True by reflexivity.
        rewrite count_not_in by assumption. cbn. lia.
      * rewrite filter_cons_False by assumption. apply Hl.
    + intros H. split.
      * intros Hy. specialize (H y). rewrite filter_cons_True in H by reflexivity.
        pose proof (count_in y l Hy). cbn [length] in H. lia.
      * intros x. specialize (H x). destruct (decide (y = x)) as [->|Hne].
        -- rewrite filter_cons_True in H by reflexivity. cbn [length] in H. lia.
        -- now rewrite filter_cons_False in H by assumption.
Qed.

Lemma has_duplicates_spec l : has_duplicates l = true <-> ~ NoDup l.
Proof.
  unfold has_duplicates. rewrite NoDup_count, existsb_exists. split.
  - intros (x & _ & Hx) H. apply Nat.ltb_lt in Hx. specialize (H x). lia.
  - intros H.
    destruct (existsb (fun x => (1 <? length (filter (fun y => y = x) l))%nat) l)
      eqn:E; [now apply existsb_exists in E|].
    exfalso. apply H. intros x.
    destruct (decide (x ∈ l)) as [Hin|Hnot];
      [|rewrite count_not_in by assumption; cbn; lia].
    destruct (Nat.ltb_spec 1 (length (filter (fun y => y = x) l))) as [Hlt|];
      [|assumption].
    exfalso. apply not_true_iff_false in E. apply E, existsb_exists.
    exists x. split; [now apply list_elem_of_In|]. now apply Nat.ltb_lt.
Qed.

(** X9: with no firmware file, or with two files for the same serial number,
    [cmd_update_run] gives up before it opens a socket: nothing is sent,
    nothing is read, no sensor is reported as updated or skipped. *)
Theorem cmd_update_run_needs_distinct_serials
    (recvfrom : Z -> Z -> nat -> option datagram)
    (is_enter_pressed : nat -> bool) fuel forced_update cmd_msg host_list
    bin_list s :
  bin_list = [] \/ ~ NoDup (map bin_sensor_sn bin_list) ->
  cmd_update_run recvfrom is_enter_pressed fuel forced_update cmd_msg host_list
    bin_list s = Done ([], []) s.
Proof.
  intros [->|Hdup]; [reflexivity|]. unfold cmd_update_run.
  destruct bin_list as [|item rest]; [reflexivity|].
  apply has_duplicates_spec in Hdup. now rewrite Hdup.
Qed.

Lemma cmd_update_run_needs_distinct_serials_witness :
  ([bin_456; bin_456] = [] \/ ~ NoDup (map bin_sensor_sn [bin_456; bin_456])) /\
  cmd_update_run cooperative never_pressed 5 false all_targets host_5
    [bin_456; bin_456] start = Done ([], []) start.
Proof.
  assert (H : [bin_456; bin_456] = [] \/
              ~ NoDup (map bin_sensor_sn [bin_456; bin_456])).
  { right. intros Hnd. apply NoDup_cons in Hnd as [Hnot _].
    apply Hnot. left. }
  split; [exact H|].
  exact (cmd_update_run_needs_distinct_serials cooperative never_pressed 5 false
           all_targets host_5 [bin_456; bin_456] start H).
Defined.


(** ** Sender options *)

Lemma split_nonempty sep s : split sep s <> [].
Proof.
  destruct s as [|c rest]; cbn [split]; [discriminate|].
  destruct (Ascii.eqb c sep); [discriminate|].
  destruct (split sep rest); discriminate.
Qed.

(** A string that splits into one piece is that piece. *)
Lemma split_one sep s a : split sep s = [a] -> a = s.
Proof.
  revert a. induction s as [|c rest IH]; intros a; cbn [split].
  - now intros [= <-].
  - destruct (Ascii.eqb c sep).
    + intros [= _ H]. now apply split_nonempty in H.
    + destruct (split sep rest) as [|w ws] eqn:E;
        [now apply split_nonempty in E|].
      intros [= <- ->]. now rewrite (IH w eq_refl).
Qed.

(** A loop that did not raise ran its last round from the lists the
    rounds before it left. *)
Lemma fold_raising_snoc {A B} (f : A -> B -> option A) l x a r :
  fold_raising f (l ++ [x]) a = Some r ->
  exists a', fold_raising f l a = Some a' /\ f a' x = Some r.
Proof.
  revert a. induction l as [|y l IH]; intros a; cbn [app fold_raising].
  - destruct (f a x) as [a'|] eqn:E; [|discriminate].
    intros [= <-]. exists a. split; [reflexivity | assumption].
  - destruct (f a y) as [a'|]; [|discriminate]. apply IH.
Qed.

Section OptionFacts.

Variable unicode_isdigit : string -> bool.
Variable unicode_int : string -> option Z.
Variable is_ip : string -> bool.
Variable host_ip_list : list string.

(** X10: an option [check_option] accepts names a port between 0 and 65535
    and either no address, or an address of one of the host's
    interfaces.  A bare address comes with the default port 7256, a bare
    number is the port, and [address:number] gives both. *)
Theorem check_option_accepts arg ip port :
  is_ip EmptyString = false ->
  check_option unicode_isdigit unicode_int is_ip host_ip_list arg
  = Some (true, ip, port) ->
  0 <= port <= 65535 /\
  ((ip = EmptyString /\ isdigit unicode_isdigit arg = true /\
    int unicode_int arg = Some port) \/
   (is_ip ip = true /\ In ip host_ip_list /\
    ((arg = ip /\ port = 7256) \/
     exists number, split ":" arg = [ip; number] /\
                    isdigit unicode_isdigit number = true /\
                    int unicode_int number = Some port))).
Proof.
  intros Hempty. unfold check_option.
  set (parsed := match split ":" arg with
                 | [a] => _ | _ => _ end).
  assert (Hparsed : forall i p, parsed = Some (Some (i, p)) ->
            (i = EmptyString /\ isdigit unicode_isdigit arg = true /\
             int unicode_int arg = Some p) \/
            (is_ip i = true /\
             ((arg = i /\ p = 7256) \/
              exists number, split ":" arg = [i; number] /\
                             isdigit unicode_isdigit number = true /\
                             int unicode_int number = Some p))).
  { subst parsed. intros i p.
    destruct (split ":" arg) as [|a [|b [|c rest]]] eqn:E; try discriminate.
    - apply split_one in E as ->.
      destruct (is_ip arg) eqn:Hip.
      + destruct (length _ =? 4)%nat; cbn [andb].
        * intros [= <- <-]. right. split; [assumption|]. left. split; reflexivity.
        * destruct (_ && isdigit unicode_isdigit arg) eqn:Hd; [|discriminate].
          apply andb_prop in Hd as [_ Hd].
          destruct (int unicode_int arg) as [n|] eqn:Hn; [|discriminate].
          intros [= <- <-]. left. repeat split; assumption.
      + rewrite andb_false_r.
        destruct (_ && isdigit unicode_isdigit arg) eqn:Hd; [|discriminate].
        apply andb_prop in Hd as [_ Hd].
        destruct (int unicode_int arg) as [n|] eqn:Hn; [|discriminate].
        intros [= <- <-]. left. repeat split; assumption.
    - destruct (is_ip a && isdigit unicode_isdigit b) eqn:Hab; [|discriminate].
      apply andb_prop in Hab as [Ha Hb].
      destruct (int unicode_int b) as [n|] eqn:Hn; [|discriminate].
      intros [= <- <-].
      right. split; [assumption|]. right. exists b.
      repeat split; assumption. }
  destruct parsed as [[[i p]|]|]; [|discriminate..].
  specialize (Hparsed i p eq_refl).
  destruct (negb (String.eqb i EmptyString) && negb (existsb (String.eqb i) host_ip_list))
    eqn:Hhost; [discriminate|].
  destruct ((p <? 0) || (65535 <? p)) eqn:Hrange; [discriminate|].
  intros [= <- <-]. apply orb_false_elim in Hrange as [Hlo Hhi].
  apply Z.ltb_ge in Hlo, Hhi. split; [lia|].
  destruct Hparsed as [Hbare|[Hip Hform]]; [left; assumption|].
  right. split; [assumption|]. split; [|assumption].
  destruct (String.eqb_spec i EmptyString) as [->|Hne]; [congruence|].
  cbn [negb andb] in Hhost. apply negb_false_iff in Hhost.
  apply existsb_exists in Hhost as (x & Hin & Hx).
  apply String.eqb_eq in Hx. now subst.
Qed.

Variable get_subnet_mask : string -> string.
Variable get_broadcast_ip : string -> string -> option string.

Lemma append_port_In ip p ll k item :
  NoDup (map fst ll) -> In (k, item) ll ->
  In (k, with_port ip p k item) (append_port ip p ll).
Proof.
  induction ll as [|[k' item'] rest IH]; intros Hnd Hin; [destruct Hin|].
  cbn [map fst] in Hnd. apply NoDup_cons in Hnd as [Hk' Hnd].
  cbn [append_port]. unfold with_port.
  destruct (String.eqb_spec k' ip) as [->|Hne].
  - destruct Hin as [[= <- <-]|Hin].
    + rewrite String.eqb_refl. now left.
    + destruct (String.eqb_spec k ip) as [->|]; [|now right].
      exfalso. apply Hk'. apply list_elem_of_In, in_map_iff.
      now exists (ip, item).
  - destruct Hin as [[= <- <-]|Hin].
    + destruct (String.eqb_spec k' ip); [contradiction|]. now left.
    + right. now apply IH.
Qed.

Lemma keys_append_port ip p ll : map fst (append_port ip p ll) = map fst ll.
Proof.
  induction ll as [|[k item] rest IH]; [reflexivity|].
  cbn [append_port]. destruct (String.eqb k ip); cbn [map fst]; congruence.
Qed.

Lemma listed_spec ip ll : listed ip ll = true <-> In ip (map fst ll).
Proof.
  unfold listed. rewrite existsb_exists, in_map_iff. split.
  - intros ([k item] & Hin & Hk). apply String.eqb_eq in Hk.
    exists (k, item). auto.
  - intros ([k item] & Hk & Hin). exists (k, item).
    split; [assumption|]. now apply String.eqb_eq.
Qed.

Lemma replicate_snoc {A} n (x : A) : replicate n x ++ [x] = x :: replicate n x.
Proof. induction n as [|n IH]; [reflexivity|]. cbn. now rewrite IH. Qed.

(** What a list of interfaces holds for the ports [ports] named for
    [ip]. *)
Lemma add_interface_ports ll ll' oip oport :
  add_interface get_subnet_mask get_broadcast_ip ll oip oport = Some ll' ->
  NoDup (map fst ll) ->
  NoDup (map fst ll') /\
  forall ip (ports : list Z),
    match ports with
    | [] => ~ In ip (map fst ll)
    | first :: later =>
      exists item, In (ip, item) ll /\
        l_port item = first :: replicate (length later) 7256 /\
        l_subnet item = get_subnet_mask ip /\
        get_broadcast_ip ip (get_subnet_mask ip) = Some (l_config item)
    end ->
    match ports ++ (if String.eqb oip ip then [oport] else []) with
    | [] => ~ In ip (map fst ll')
    | first :: later =>
      exists item, In (ip, item) ll' /\
        l_port item = first :: replicate (length later) 7256 /\
        l_subnet item = get_subnet_mask ip /\
        get_broadcast_ip ip (get_subnet_mask ip) = Some (l_config item)
    end.
Proof.
  unfold add_interface.
  destruct (get_broadcast_ip oip (get_subnet_mask oip)) as [bc|] eqn:Hbc;
    [|discriminate].
  destruct (listed oip ll) eqn:Hl; intros [= <-] Hnd.
  - split; [now rewrite keys_append_port|].
    intros ip ports IH. rewrite keys_append_port.
    destruct (String.eqb_spec oip ip) as [->|Hne].
    + apply listed_spec in Hl.
      destruct ports as [|first later]; [contradiction|].
      destruct IH as (item & Hin & Hp & Hs & Hc). cbn [app].
      exists (with_port ip 7256 ip item).
      split; [now apply append_port_In|].
      unfold with_port. rewrite String.eqb_refl.
      cbn [l_port l_subnet l_config]. rewrite Hp, length_app. cbn [length app].
      rewrite Nat.add_1_r. cbn [replicate]. rewrite <- replicate_snoc.
      auto.
    + rewrite app_nil_r.
      destruct ports as [|first later]; [assumption|].
      destruct IH as (item & Hin & Hp & Hs & Hc).
      exists (with_port oip 7256 ip item).
      split; [now apply append_port_In|].
      unfold with_port. destruct (String.eqb_spec ip oip); [congruence|].
      auto.
  - assert (Hnot : ~ In oip (map fst ll)).
    { intros Hin. apply listed_spec in Hin. congruence. }
    split.
    { rewrite map_app. cbn [map fst]. apply NoDup_app.
      repeat split; [assumption| |apply NoDup_singleton].
      intros x Hx Hx'. apply list_elem_of_In in Hx, Hx'.
      destruct Hx' as [<-|[]]. contradiction. }
    intros ip ports IH.
    destruct (String.eqb_spec oip ip) as [->|Hne].
    + destruct ports as [|first later].
      * cbn [app]. eexists. split; [apply in_or_app; right; left; reflexivity|].
        cbn. auto.
      * destruct IH as (item & Hin & _). exfalso. apply Hnot.
        apply in_map_iff. now exists (ip, item).
    + rewrite app_nil_r.
      destruct ports as [|first later].
      * rewrite map_app, in_app_iff. cbn [map fst In].
        intros [H|[H|[]]]; [contradiction | congruence].
      * destruct IH as (item & Hin & Hrest). exists item.
        split; [apply in_or_app; now left | assumption].
Qed.

(** X11: with [-S], when no option makes the script raise, an interface is
    listened on as soon as one valid option names it, and on one port
    for each such option: the port of the first, and 7256 for every
    later one, whatever port that option names.  Its subnet mask and
    broadcast address are the interface's. *)
Theorem sender_listening_list_ports sender ip ll :
  sender_listening_list unicode_isdigit unicode_int is_ip host_ip_list
    get_subnet_mask get_broadcast_ip sender = Some ll ->
  match ports_named unicode_isdigit unicode_int is_ip host_ip_list ip sender with
  | [] => ~ In ip (map fst ll)
  | first :: later =>
    exists item, In (ip, item) ll /\
      l_port item = first :: replicate (length later) 7256 /\
      l_subnet item = get_subnet_mask ip /\
      get_broadcast_ip ip (get_subnet_mask ip) = Some (l_config item)
  end.
Proof.
  unfold sender_listening_list. intros Hll.
  enough (Hinv :
    NoDup (map fst ll) /\
    forall ip,
      match ports_named unicode_isdigit unicode_int is_ip host_ip_list ip
              sender with
      | [] => ~ In ip (map fst ll)
      | first :: later =>
        exists item,
          In (ip, item) ll /\
          l_port item = first :: replicate (length later) 7256 /\
          l_subnet item = get_subnet_mask ip /\
          get_broadcast_ip ip (get_subnet_mask ip) = Some (l_config item)
      end) by apply Hinv.
  clear ip. revert ll Hll.
  induction sender as [|o sender IH] using rev_ind; intros ll Hll.
  - cbn [fold_raising] in Hll. injection Hll as <-.
    split; [apply NoDup_nil_2|]. intros ip. cbn. tauto.
  - apply fold_raising_snoc in Hll as (ll0 & Hll0 & Hstep).
    destruct (IH ll0 Hll0) as [Hnd Hports]. clear IH.
    unfold add_sender in Hstep. unfold ports_named.
    destruct (check_option unicode_isdigit unicode_int is_ip host_ip_list o)
      as [[[ok oip] oport]|] eqn:Ho; [|discriminate].
    destruct (ok && negb (String.eqb oip EmptyString)) eqn:Hok.
    2: { injection Hstep as <-. split; [assumption|]. intros ip.
         rewrite flat_map_app. cbn [flat_map]. rewrite Ho, Hok.
         cbn [andb]. rewrite !app_nil_r. apply Hports. }
    destruct (add_interface_ports _ _ _ _ Hstep Hnd) as [Hnd' Hnext].
    split; [assumption|]. intros ip.
    rewrite flat_map_app. cbn [flat_map]. rewrite Ho, Hok.
    cbn [andb]. rewrite app_nil_r.
    apply Hnext. apply Hports.
Qed.

End OptionFacts.

Lemma check_option_accepts_witness :
  (fun s => String.eqb s "192.168.5.2") EmptyString = false /\
  check_option (fun _ => false) (fun _ => None)
    (fun s => String.eqb s "192.168.5.2") ["192.168.5.2"%string]
    "192.168.5.2:8000" = Some (true, "192.168.5.2"%string, 8000) /\
  0 <= 8000 <= 65535.
Proof.
  assert (H1 : (fun s => String.eqb s "192.168.5.2") EmptyString = false)
    by reflexivity.
  assert (H2 : check_option (fun _ => false) (fun _ => None)
                 (fun s => String.eqb s "192.168.5.2")
                 ["192.168.5.2"%string] "192.168.5.2:8000"
               = Some (true, "192.168.5.2"%string, 8000)) by reflexivity.
  split; [exact H1|]. split; [exact H2|].
  exact (proj1 (check_option_accepts _ _ _ _ _ _ _ H1 H2)).
Defined.

Lemma sender_listening_list_ports_witness :
  exists item,
    In ("192.168.5.2"%string, item)
       [("192.168.5.2"%string,
         {| l_port := [8000; 7256]; l_subnet := "255.255.255.0";
            l_config := "192.168.5.255" |})] /\
    l_port item = 8000 :: replicate (length [9000]) 7256 /\
    l_subnet item = "255.255.255.0"%string /\
    Some "192.168.5.255"%string = Some (l_config item).
Proof.
  exact (sender_listening_list_ports (fun _ => false) (fun _ => None)
           (fun s => String.eqb s "192.168.5.2") ["192.168.5.2"%string]
           (fun _ => "255.255.255.0"%string)
           (fun _ _ => Some "192.168.5.255"%string)
           ["192.168.5.2:8000"%string; "192.168.5.2:9000"%string]
           "192.168.5.2" _ eq_refl).
Defined.


(** ** The targets of a command *)

Lemma existsb_eqb_In x l : existsb (String.eqb x) l = true <-> In x l.
Proof.
  rewrite existsb_exists. split.
  - intros (y & Hy & Heq). apply String.eqb_eq in Heq. now subst.
  - intros Hin. exists x. split; [assumption | apply String.eqb_refl].
Qed.

Section ParseArgs.

Variable unicode_isdigit : string -> bool.
Variable unicode_int : string -> option Z.
Variable parse_ip : string -> option Z.

(** The loop of [parse_arg_list] over [l], a part of [arg_list]. *)
Lemma parse_targets_inv arg_list l : forall types data types' data',
  (forall arg, In arg l -> In arg arg_list) ->
  Forall2 (target_of unicode_isdigit unicode_int parse_ip arg_list) types data ->
  ~ In T_ALL types ->
  parse_targets unicode_isdigit unicode_int parse_ip l (types, data)
  = Some (types', data') ->
  Forall2 (target_of unicode_isdigit unicode_int parse_ip arg_list) types' data' /\
  ~ In T_ALL types' /\
  (length types' <= length types + length l)%nat.
Proof.
  induction l as [|arg l IH]; intros types data types' data' Hsub Hok Hall.
  - cbn [parse_targets length]. intros [= <- <-].
    repeat split; [assumption..|lia].
  - cbn [parse_targets].
    assert (Hsub' : forall a, In a l -> In a arg_list)
      by (intros a Ha; apply Hsub; now right).
    assert (Harg : In arg arg_list) by (apply Hsub; now left).
    assert (Hnext : forall t d,
              target_of unicode_isdigit unicode_int parse_ip arg_list t d ->
              t <> T_ALL ->
              parse_targets unicode_isdigit unicode_int parse_ip l
                (types ++ [t], data ++ [d]) = Some (types', data') ->
              Forall2 (target_of unicode_isdigit unicode_int parse_ip arg_list)
                types' data' /\
              ~ In T_ALL types' /\
              (length types' <= length types + length (arg :: l))%nat).
    { intros t d Ht Hne Hrun.
      destruct (IH (types ++ [t]) (data ++ [d]) types' data' Hsub')
        as (H1 & H2 & H3); [| |exact Hrun|].
      - apply Forall2_app; [assumption|]. now constructor.
      - rewrite in_app_iff. cbn [In]. intuition congruence.
      - rewrite length_app in H3. cbn [length] in *.
        repeat split; [assumption..|lia]. }
    assert (Hskip :
              parse_targets unicode_isdigit unicode_int parse_ip l (types, data)
              = Some (types', data') ->
              Forall2 (target_of unicode_isdigit unicode_int parse_ip arg_list)
                types' data' /\
              ~ In T_ALL types' /\
              (length types' <= length types + length (arg :: l))%nat).
    { intros Hrun.
      destruct (IH types data types' data' Hsub' Hok Hall Hrun) as (H1 & H2 & H3).
      cbn [length]. repeat split; [assumption..|lia]. }
    destruct (parse_ip arg) as [a|] eqn:Hip.
    + apply Hnext; [|discriminate]. cbn. eauto.
    + destruct (isdigit unicode_isdigit arg) eqn:Hd; [|exact Hskip].
      destruct (int unicode_int arg) as [n|] eqn:Hn; [|discriminate].
      destruct ((n <? 0) || (65535 <? n)) eqn:Hr; [exact Hskip|].
      apply Hnext; [|discriminate]. cbn.
      apply orb_false_elim in Hr as [Hlo Hhi]. apply Z.ltb_ge in Hlo, Hhi.
      split; [lia|]. exists arg. auto.
Qed.

(** The loop raises exactly at an argument that is no address, that
    [isdigit] takes and [int] refuses. *)
Lemma parse_targets_raises l : forall lists,
  parse_targets unicode_isdigit unicode_int parse_ip l lists = None
  <-> exists arg, In arg l /\ parse_ip arg = None /\
                  isdigit unicode_isdigit arg = true /\
                  int unicode_int arg = None.
Proof.
  induction l as [|arg l IH]; intros [types data]; cbn [parse_targets].
  - split; [discriminate | intros (? & [] & _)].
  - destruct (parse_ip arg) as [a|] eqn:Hip.
    + rewrite IH. split; intros (x & Hin & Hx).
      * exists x. split; [now right | assumption].
      * destruct Hin as [<-|Hin]; [destruct Hx; congruence|].
        exists x. auto.
    + destruct (isdigit unicode_isdigit arg) eqn:Hd.
      * destruct (int unicode_int arg) as [n|] eqn:Hn.
        -- assert (Hrest : forall lists',
               parse_targets unicode_isdigit unicode_int parse_ip l lists' = None
               <-> exists x, In x (arg :: l) /\ parse_ip x = None /\
                             isdigit unicode_isdigit x = true /\
                             int unicode_int x = None).
           { intros lists'. rewrite IH. split; intros (x & Hin & Hx).
             - exists x. split; [now right | assumption].
             - destruct Hin as [<-|Hin]; [destruct Hx as (_ & _ & ?); congruence|].
               exists x. auto. }
           cbn. destruct ((n <? 0) || (65535 <? n)); apply Hrest.
        -- cbn. split; [intros _ | reflexivity].
           exists arg. split; [now left | auto].
      * rewrite IH. split; intros (x & Hin & Hx).
        -- exists x. split; [now right | assumption].
        -- destruct Hin as [<-|Hin]; [destruct Hx as (_ & ? & _); congruence|].
           exists x. auto.
Qed.

(** X12: what [parse_arg_list] does.  It raises exactly when neither ['a']
    nor ['all'] is among the arguments and one of them, not an address,
    passes [isdigit] while [int] refuses it.  Otherwise it returns as
    many data as types, the count of them, and never more targets than
    arguments.  Each pair is a target of the command line: [ALL] with 0,
    an address that one argument denotes, or a serial number between 0
    and 65535 that [int] reads from an argument that is not an address.
    [ALL] is there exactly when ['a'] or ['all'] is among the arguments,
    and then it is the only target, whatever else was named. *)
Theorem parse_arg_list_targets (arg_list : list string) :
  (parse_arg_list unicode_isdigit unicode_int parse_ip arg_list = None
   <-> ~ In "a"%string arg_list /\ ~ In "all"%string arg_list /\
       exists arg, In arg arg_list /\ parse_ip arg = None /\
                   isdigit unicode_isdigit arg = true /\
                   int unicode_int arg = None) /\
  forall types data n,
    parse_arg_list unicode_isdigit unicode_int parse_ip arg_list
    = Some (types, data, n) ->
    n = length types /\ (n <= length arg_list)%nat /\
    Forall2 (target_of unicode_isdigit unicode_int parse_ip arg_list) types data /\
    (In T_ALL types <-> In "a"%string arg_list \/ In "all"%string arg_list) /\
    (In T_ALL types -> types = [T_ALL]).
Proof.
  unfold parse_arg_list.
  destruct (existsb (String.eqb "a") arg_list
            || existsb (String.eqb "all") arg_list) eqn:Hall.
  - apply orb_prop in Hall. rewrite !existsb_eqb_In in Hall. split.
    { split; [discriminate|]. intros (Ha & Hal & _). tauto. }
    intros types data n [= <- <- <-].
    split; [reflexivity|]. split.
    { cbn [length]. destruct arg_list; [|cbn [length]; lia].
      destruct Hall as [[]|[]]. }
    split; [repeat constructor|]. split; [|reflexivity].
    split; [intros _; exact Hall | intros _; now left].
  - apply orb_false_elim in Hall as [Ha Hal].
    assert (Hna : ~ In "a"%string arg_list)
      by (rewrite <- existsb_eqb_In, Ha; discriminate).
    assert (Hnal : ~ In "all"%string arg_list)
      by (rewrite <- existsb_eqb_In, Hal; discriminate).
    split.
    { rewrite <- (parse_targets_raises arg_list ([], [])).
      destruct (parse_targets _ _ _ arg_list ([], [])); cbn.
      - split; [discriminate | intros (_ & _ & ?); discriminate].
      - tauto. }
    intros types data n.
    destruct (parse_targets _ _ _ arg_list ([], [])) as [[types' data']|] eqn:Hrun;
      [|discriminate].
    cbn [fst snd]. intros [= <- <- <-].
    destruct (parse_targets_inv arg_list arg_list [] [] types' data'
                (fun _ H => H) (List.Forall2_nil _) (fun H => H) Hrun)
      as (Hok & Hnot & Hlen).
    cbn [length] in Hlen.
    split; [reflexivity|]. split; [lia|]. split; [assumption|].
    split; [|intros; contradiction].
    split; [intros; contradiction | tauto].
Qed.

End ParseArgs.

(** ** The command line *)



Lemma parse_arg_list_targets_witness :
  parse_arg_list sample_unicode_isdigit sample_unicode_int sample_parse_ip
    ["192.168.5.200"%string; "456"%string; "70000"%string; "x"%string]
  = Some ([T_IP; T_SN], [PyStr (ipv4 192 168 5 200); PyInt 456], 2%nat) /\
  (2 <= 4)%nat.
Proof.
  assert (H : parse_arg_list sample_unicode_isdigit sample_unicode_int
                sample_parse_ip
                ["192.168.5.200"%string; "456"%string; "70000"%string; "x"%string]
              = Some ([T_IP; T_SN], [PyStr (ipv4 192 168 5 200); PyInt 456], 2%nat))
    by (vm_compute; reflexivity).
  split; [exact H|].
  exact (proj1 (proj2 (proj2 (parse_arg_list_targets sample_unicode_isdigit
                                sample_unicode_int sample_parse_ip _) _ _ _ H))).
Defined.


(** ** Firmware file names *)

Lemma twelve_pairs (n : nat) : ((n - 1) / 2 = 12 -> n = 25 \/ n = 26)%nat.
Proof.
  intros H. pose proof (Nat.div_mod_eq (n - 1) 2) as Hd.
  pose proof (Nat.mod_upper_bound (n - 1) 2 ltac:(lia)). lia.
Qed.

Section BinFileFacts.

Variable py_int : string -> option Z.
Variable py_int_16 : string -> option Z.

Lemma id_pairs_length id n : forall k arr,
  id_pairs py_int_16 id k n = Some arr -> length arr = n.
Proof.
  induction n as [|n IH]; intros k arr; cbn [id_pairs].
  - now intros [= <-].
  - destruct (py_int_16 _); [|discriminate].
    destruct (id_pairs py_int_16 id (S k) n) as [rest|] eqn:E; [|discriminate].
    intros [= <-]. cbn [length]. f_equal. eauto.
Qed.

Lemma read_bin_file_kept bin_file bin_data :
  read_bin_file py_int py_int_16 bin_file = Some (Some bin_data) ->
  length (split "_" bin_file) = 7%nat /\
  file_name bin_data = bin_file /\
  length (bd_fw_version bin_data) = 3%nat /\
  length (bd_sensor_id_arr bin_data) = id_pair_count (sensor_id bin_data).
Proof.
  unfold read_bin_file.
  destruct (Nat.eqb_spec (length (split "_" bin_file)) 7); [|discriminate].
  intros H. repeat next_let H. injection H as <-.
  cbn [file_name bd_fw_version bd_sensor_id_arr sensor_id length].
  repeat split; [assumption|]. eapply id_pairs_length; eassumption.
Qed.

Lemma read_bin_file_passed bin_file :
  read_bin_file py_int py_int_16 bin_file = Some None ->
  length (split "_" bin_file) <> 7%nat.
Proof.
  unfold read_bin_file.
  destruct (Nat.eqb_spec (length (split "_" bin_file)) 7); [|trivial].
  intros H. repeat next_let H. discriminate.
Qed.

(** The entries of [read_bin_files], when it returns. *)
Lemma read_bin_files_entries (bin_files : list string) items :
  read_bin_files py_int py_int_16 bin_files = Some items ->
  map file_name items
  = List.filter (fun f => (length (split "_" f) =? 7)%nat) bin_files /\
  Forall (fun bin_data =>
            length (bd_fw_version bin_data) = 3%nat /\
            length (bd_sensor_id_arr bin_data)
            = id_pair_count (sensor_id bin_data)) items.
Proof.
  revert items. induction bin_files as [|f rest IH]; intros items;
    cbn [read_bin_files List.filter].
  - intros [= <-]. split; [reflexivity | constructor].
  - destruct (read_bin_file py_int py_int_16 f) as [r|] eqn:Hf; [|discriminate].
    destruct (read_bin_files py_int py_int_16 rest) as [items'|];
      [|discriminate].
    destruct (IH items' eq_refl) as [Hnames Hall]. intros [= <-].
    destruct r as [bin_data|].
    + apply read_bin_file_kept in Hf as (H7 & Hname & Hv & Hid).
      rewrite H7. cbn [Nat.eqb map]. split; [congruence|].
      constructor; auto.
    + apply read_bin_file_passed in Hf.
      destruct (Nat.eqb_spec (length (split "_" f)) 7); [contradiction|].
      split; assumption.
Qed.


(** X15: the update compares the first 12 bytes of the sensor's hardware id
    with the id bytes of the file name.  So a file whose id is not two
    characters followed by 23 or 24 more is of no use: whichever sensor
    answers, it is never sent [cmd_flash_start] or a flash block and is
    never reported as updated. *)
Theorem bin_file_id_must_match_12_bytes
    (recvfrom : Z -> Z -> nat -> option datagram)
    (file_content : string -> list Z) bin_files items bin_data src info
    fuel forced_update arg_target_type arg_target_list sockets target_ip
    recv_sn s :
  read_bin_files py_int py_int_16 bin_files = Some items ->
  In bin_data items ->
  String.length (sensor_id bin_data) <> 25%nat ->
  String.length (sensor_id bin_data) <> 26%nat ->
  decode_info_v2 src = Some info ->
  (exists new,
     trace (final (update_sensor recvfrom fuel forced_update arg_target_type
                     arg_target_list sockets (bin_item file_content bin_data)
                     info target_ip recv_sn s))
     = trace s ++ new /\ Forall no_flash new) /\
  forall s',
    update_sensor recvfrom fuel forced_update arg_target_type
      arg_target_list sockets (bin_item file_content bin_data) info
      target_ip recv_sn s
    <> Done Updated s'.
Proof.
  intros Hread Hin H25 H26 Hdec.
  apply read_bin_files_entries in Hread as [_ Hall].
  rewrite List.Forall_forall in Hall. destruct (Hall _ Hin) as [_ Hid].
  assert (Hlen : (166 <= length src)%nat).
  { destruct (Nat.lt_ge_cases (length src) 166) as [Hlt|]; [|assumption].
    apply decode_info_v2_None in Hlt. congruence. }
  assert (Hhw : sensor_hw_id info = slice 2 32 src).
  { unfold decode_info_v2 in Hdec. repeat next_let Hdec.
    now injection Hdec as <-. }
  assert (Hne : slice 0 12 (sensor_hw_id info)
                <> sensor_id_arr (bin_item file_content bin_data)).
  { intros Heq. apply (f_equal length) in Heq.
    cbn [bin_item sensor_id_arr] in Heq. rewrite Hid, Hhw in Heq.
    unfold slice, id_pair_count in Heq.
    repeat (rewrite length_take in Heq || rewrite length_drop in Heq).
    replace ((12 - 0) `min` ((32 - 2) `min` (length src - 2) - 0))%nat
      with 12%nat in Heq by lia.
    symmetry in Heq. apply twelve_pairs in Heq. tauto. }
  assert (Hel : eligible forced_update arg_target_type arg_target_list
                  (bin_item file_content bin_data) info target_ip recv_sn
                = false).
  { unfold eligible. destruct (arg_target_type !! 0%nat); [|reflexivity].
    destruct (fw_ver_number _); [|reflexivity].
    rewrite (bool_decide_eq_false_2 _ Hne).
    now rewrite andb_false_r. }
  destruct (update_sensor_no_flash recvfrom fuel forced_update arg_target_type
              arg_target_list sockets (bin_item file_content bin_data) info
              target_ip recv_sn (or_introl Hel) s) as [Htr Hq].
  split; [exact Htr|]. intros s' Hrun. exact (Hq _ _ Hrun eq_refl).
Qed.

End BinFileFacts.


Lemma bin_file_id_must_match_12_bytes_witness :
  exists bin_data,
    read_bin_files int_of_digits (fun _ => Some 17) [sample_bin_name]
    = Some [bin_data] /\
    String.length (sensor_id bin_data) <> 25%nat /\
    String.length (sensor_id bin_data) <> 26%nat /\
    decode_info_v2 (sensor_bytes sample_info) = Some sample_info /\
    forall s',
      update_sensor cooperative 5 true [T_ALL] [PyInt 0] sockets_5
        (bin_item (fun _ => [1; 2; 3]) bin_data) sample_info sensor_ip_200 456
        start <> Done Updated s'.
Proof.
  assert (E : exists bin_data,
             read_bin_files int_of_digits (fun _ => Some 17) [sample_bin_name]
             = Some [bin_data] /\
             String.length (sensor_id bin_data) = 6%nat)
    by (eexists; split; vm_compute; reflexivity).
  destruct E as (bin_data & E & Hlen). exists bin_data.
  assert (H25 : String.length (sensor_id bin_data) <> 25%nat)
    by (rewrite Hlen; discriminate).
  assert (H26 : String.length (sensor_id bin_data) <> 26%nat)
    by (rewrite Hlen; discriminate).
  assert (Hdec : decode_info_v2 (sensor_bytes sample_info) = Some sample_info)
    by (vm_compute; reflexivity).
  split; [exact E|]. split; [exact H25|]. split; [exact H26|].
  split; [exact Hdec|].
  exact (proj2 (bin_file_id_must_match_12_bytes int_of_digits (fun _ => Some 17)
                  cooperative (fun _ => [1; 2; 3]) [sample_bin_name] [bin_data]
                  bin_data (sensor_bytes sample_info) sample_info 5 true
                  [T_ALL] [PyInt 0] sockets_5 sensor_ip_200 456 start E
                  (or_introl eq_refl) H25 H26 Hdec)).
Defined.

(** ** Flash blocks: the part of the file that is sent, and the check sum *)

(** The loop reads [n] chunks: what lies behind them in the file is never
    looked at. *)
Lemma flash_blocks_from_take hw_id fw_version n : forall f _o,
  flash_blocks_from hw_id fw_version f _o n
  = flash_blocks_from hw_id fw_version
      {| content := take (pos f + n * 1024) (content f); pos := pos f |} _o n.
Proof.
  induction n as [|n IH]; intros [c p] _o; [reflexivity|].
  cbn [flash_blocks_from file_read content pos].
  assert (Hdata : take 1024 (drop p (take (p + S n * 1024) c))
                  = take 1024 (drop p c)).
  { rewrite List.skipn_firstn_comm, List.firstn_firstn.
    f_equal. lia. }
  rewrite Hdata.
  set (data := take 1024 (drop p c)).
  assert (Hlen : (length data <= 1024)%nat)
    by (subst data; rewrite length_take; lia).
  destruct (build_flash_block hw_id fw_version _o data) as [blk|];
    [|reflexivity].
  cbn -[Nat.mul flash_blocks_from].
  rewrite (IH {| content := c; pos := (p + length data)%nat |}).
  rewrite (IH {| content := take (p + S n * 1024) c;
                 pos := (p + length data)%nat |}).
  cbn [content pos]. rewrite take_take.
  replace (Nat.min (p + length data + n * 1024) (p + S n * 1024))
    with (p + length data + n * 1024)%nat by lia.
  reflexivity.
Qed.

(** X16: [cmd_update_run] cuts the firmware file at 256 KiB: the frames built
    from a file are those built from its first 262144 bytes, and so is a
    failure to build them. *)
Theorem flash_blocks_cut_at_256_KiB (hw_id fw_version P : list Z) :
  flash_blocks hw_id fw_version P
  = flash_blocks hw_id fw_version (take (256 * 1024) P).
Proof.
  unfold flash_blocks.
  rewrite (flash_blocks_from_take hw_id fw_version 256
             {| content := P; pos := 0 |}).
  reflexivity.
Qed.

Lemma slice_app_r_exact (a b c : list Z) lo hi :
  length a = lo -> (lo + length b)%nat = hi ->
  slice lo hi (a ++ b ++ c) = b.
Proof.
  intros Ha Hb. unfold slice. subst lo hi.
  rewrite drop_app_length.
  replace (length a + length b - length a)%nat with (length b) by lia.
  apply take_app_length.
Qed.

(** X17: the check sum of a frame is the one [get_crc16] gives for its 1024
    payload bytes as sent, filling included; it follows the payload, low
    byte first, and the tail A5 5A ends the frame. *)
Theorem flash_block_crc_verifies (P hw_id fw_version : list Z)
    (blocks : list (list Z)) (i : nat) (blk : list Z) :
  forallb is_byte P = true ->
  bytes_of_len 30 hw_id = true ->
  bytes_of_len 3 fw_version = true ->
  flash_blocks hw_id fw_version P = Some blocks ->
  blocks !! i = Some blk ->
  exists crc,
    get_crc16 (slice 42 1066 blk) = Some crc /\
    0 <= crc < 65536 /\
    slice 1066 1070 blk = [crc mod 256; crc / 256; 0xA5; 0x5A].
Proof.
  intros HP Hhw Hfw Hblocks Hblk.
  destruct (flash_blocks_layout hw_id fw_version P Hhw Hfw HP)
    as (blocks' & Hb' & Hlen & Hnth).
  rewrite Hblocks in Hb'. injection Hb' as <-.
  assert (Hi : (i < 256)%nat)
    by (rewrite <- Hlen; eapply lookup_lt_Some; exact Hblk).
  rewrite (Hnth i Hi) in Hblk. injection Hblk as <-.
  set (chunk := slice (i * 1024) ((i + 1) * 1024) P).
  assert (Hchunk : (length chunk <= 1024)%nat).
  { subst chunk. unfold slice. rewrite length_take. lia. }
  assert (Hcb : forallb is_byte chunk = true).
  { subst chunk. unfold slice.
    apply forallb_is_byte_take, forallb_is_byte_drop, HP. }
  unfold bytes_of_len in Hhw, Hfw.
  apply andb_prop in Hhw as [Hhwl _]. apply andb_prop in Hfw as [Hfwl _].
  apply Nat.eqb_eq in Hhwl, Hfwl.
  pose proof (padded_length chunk Hchunk) as Hpl.
  pose proof (padded_bytes chunk Hcb) as Hpb.
  exists (crc16_ccitt_bitwise (padded chunk)).
  assert (Hrange : 0 <= crc16_ccitt_bitwise (padded chunk) < 65536)
    by (apply fold_crc_range; lia).
  unfold flash_block_layout.
  split; [|split; [exact Hrange|]].
  - replace (flash_block_headder ++ hw_id ++ [2; 2; Z.of_nat i] ++ fw_version
             ++ padded chunk ++ crc_bytes (padded chunk) ++ tail)
      with ((flash_block_headder ++ hw_id ++ [2; 2; Z.of_nat i] ++ fw_version)
            ++ padded chunk ++ crc_bytes (padded chunk) ++ tail)
      by (now rewrite <- !app_assoc).
    rewrite slice_app_r_exact.
    + unfold get_crc16. rewrite crc16_loop_bitwise by (try lia; assumption).
      reflexivity.
    + rewrite !length_app, Hhwl, Hfwl. reflexivity.
    + rewrite Hpl. reflexivity.
  - replace (flash_block_headder ++ hw_id ++ [2; 2; Z.of_nat i] ++ fw_version
             ++ padded chunk ++ crc_bytes (padded chunk) ++ tail)
      with ((flash_block_headder ++ hw_id ++ [2; 2; Z.of_nat i] ++ fw_version
             ++ padded chunk) ++ (crc_bytes (padded chunk) ++ tail) ++ [])
      by (rewrite app_nil_r; now rewrite <- !app_assoc).
    rewrite slice_app_r_exact.
    + unfold crc_bytes, tail, byte_at. cbn [app]. cbv zeta.
      set (crc := crc16_ccitt_bitwise (padded chunk)) in *.
      change 0xFF with (Z.ones 8). change 255 with (Z.ones 8).
      rewrite !Z.land_ones, Z.shiftr_div_pow2 by lia.
      f_equal. f_equal. clearbody crc. clear - Hrange. change (2 ^ 8) with 256.
      lia.
    + rewrite !length_app, Hhwl, Hfwl, Hpl. reflexivity.
    + reflexivity.
Qed.

Lemma flash_block_crc_verifies_witness :
  exists blocks blk crc,
    flash_blocks sample_hw_id sample_fw_version [1; 2; 3] = Some blocks /\
    blocks !! 0%nat = Some blk /\
    get_crc16 (slice 42 1066 blk) = Some crc /\
    0 <= crc < 65536 /\
    slice 1066 1070 blk = [crc mod 256; crc / 256; 0xA5; 0x5A].
Proof.
  destruct (flash_blocks_layout sample_hw_id sample_fw_version [1; 2; 3]
              eq_refl eq_refl eq_refl) as (blocks & Hb & _ & Hnth).
  pose proof (Hnth 0%nat ltac:(lia)) as Hblk.
  destruct (flash_block_crc_verifies [1; 2; 3] sample_hw_id sample_fw_version
              blocks 0 _ eq_refl eq_refl eq_refl Hb Hblk) as (crc & H).
  eexists blocks, _, crc. split; [exact Hb|]. split; [exact Hblk|]. exact H.
Defined.

(** ** The listening list *)

(** What holds before a loop and is kept by every round that does not
    raise holds after the loop, if it did not raise. *)
Lemma fold_raising_inv {A B} (f : A -> B -> option A) (I : A -> Prop)
    (P : B -> Prop) l :
  (forall a b a', I a -> P b -> f a b = Some a' -> I a') ->
  List.Forall P l -> forall a r, I a -> fold_raising f l a = Some r -> I r.
Proof.
  intros Hstep. induction 1 as [|b rest Hb _ IH]; intros a r Ha;
    cbn [fold_raising].
  - now intros [= <-].
  - destruct (f a b) as [a'|] eqn:E; [|discriminate].
    apply IH. exact (Hstep a b a' Ha Hb E).
Qed.

Section ListeningFacts.

Variable unicode_isdigit : string -> bool.
Variable unicode_int : string -> option Z.
Variable is_ip : string -> bool.
Variable host_ip_list : list string.
Variable get_subnet_mask : string -> string.
Variable get_broadcast_ip : string -> string -> option string.

(** An accepted option names a port in range, and an address only if it
    is one of the host's. *)
Lemma check_option_host arg ip port :
  check_option unicode_isdigit unicode_int is_ip host_ip_list arg
  = Some (true, ip, port) ->
  0 <= port <= 65535 /\ (ip <> EmptyString -> In ip host_ip_list).
Proof.
  unfold check_option.
  match goal with |- context [match ?p with Some _ => _ | None => _ end] =>
    destruct p as [[[i p']|]|] end; [|discriminate..].
  destruct (negb (String.eqb i EmptyString)
            && negb (existsb (String.eqb i) host_ip_list)) eqn:Hhost;
    [discriminate|].
  destruct ((p' <? 0) || (65535 <? p')) eqn:Hrange; [discriminate|].
  intros [= <- <-]. apply orb_false_elim in Hrange as [Hlo Hhi].
  apply Z.ltb_ge in Hlo, Hhi. split; [lia|]. intros Hne.
  destruct (String.eqb_spec i EmptyString) as [|_]; [contradiction|].
  cbn [negb andb] in Hhost. apply negb_false_iff in Hhost.
  apply existsb_exists in Hhost as (x & Hin & Hx).
  apply String.eqb_eq in Hx. now subst.
Qed.

Lemma append_port_entry_ok ip ll :
  List.Forall (entry_ok host_ip_list get_subnet_mask get_broadcast_ip) ll ->
  List.Forall (entry_ok host_ip_list get_subnet_mask get_broadcast_ip)
              (append_port ip 7256 ll).
Proof.
  induction 1 as [|[k item] rest Hk Hrest IH]; [constructor|].
  cbn [append_port]. destruct (String.eqb k ip); constructor; try assumption.
  destruct Hk as (H1 & H2 & H3 & H4). repeat split; try assumption.
  cbn [snd l_port]. apply Forall_app. split; [exact H4|].
  constructor; [lia|constructor].
Qed.

Lemma add_interface_entry_ok ll ll' ip port :
  add_interface get_subnet_mask get_broadcast_ip ll ip port = Some ll' ->
  NoDup (map fst ll) ->
  List.Forall (entry_ok host_ip_list get_subnet_mask get_broadcast_ip) ll ->
  In ip host_ip_list -> 0 <= port <= 65535 ->
  NoDup (map fst ll') /\
  List.Forall (entry_ok host_ip_list get_subnet_mask get_broadcast_ip) ll'.
Proof.
  unfold add_interface.
  destruct (get_broadcast_ip ip (get_subnet_mask ip)) as [bc|] eqn:Hbc;
    [|discriminate].
  destruct (listed ip ll) eqn:Hl; intros [= <-] Hnd Hok Hin Hport.
  - rewrite keys_append_port. split; [assumption|].
    now apply append_port_entry_ok.
  - split.
    + rewrite map_app. cbn [map fst]. apply NoDup_app. split; [assumption|].
      split; [|apply NoDup_singleton].
      intros k Hk Hk'. apply list_elem_of_In in Hk.
      apply list_elem_of_In in Hk'. destruct Hk' as [<-|[]].
      apply (listed_spec ip ll) in Hk. congruence.
    + apply List.Forall_app. split; [assumption|].
      constructor; [|constructor]. repeat split; try assumption.
      cbn [snd l_port]. constructor; [assumption|constructor].
Qed.

Lemma default_listening_list_ok ll :
  default_listening_list host_ip_list get_subnet_mask get_broadcast_ip
  = Some ll ->
  NoDup (map fst ll) /\
  List.Forall (entry_ok host_ip_list get_subnet_mask get_broadcast_ip) ll.
Proof.
  unfold default_listening_list.
  apply (fold_raising_inv _
           (fun ll => NoDup (map fst ll) /\
                      List.Forall (entry_ok host_ip_list get_subnet_mask
                                     get_broadcast_ip) ll)
           (fun ip => In ip host_ip_list)).
  - intros a ip a' [Hnd Hok] Hin Hstep.
    apply (add_interface_entry_ok a a' ip 7256 Hstep Hnd Hok Hin). lia.
  - apply List.Forall_forall. auto.
  - split; [apply NoDup_nil_2|constructor].
Qed.

Lemma sender_listening_list_ok sender ll :
  sender_listening_list unicode_isdigit unicode_int is_ip host_ip_list
    get_subnet_mask get_broadcast_ip sender = Some ll ->
  NoDup (map fst ll) /\
  List.Forall (entry_ok host_ip_list get_subnet_mask get_broadcast_ip) ll.
Proof.
  unfold sender_listening_list.
  apply (fold_raising_inv _
           (fun ll => NoDup (map fst ll) /\
                      List.Forall (entry_ok host_ip_list get_subnet_mask
                                     get_broadcast_ip) ll)
           (fun _ => True)).
  - intros a o a' [Hnd Hok] _. unfold add_sender.
    destruct (check_option unicode_isdigit unicode_int is_ip host_ip_list o)
      as [[[r ip] port]|] eqn:E; [|discriminate].
    destruct r; cbn [andb]; [|intros [= <-]; now split].
    destruct (String.eqb_spec ip EmptyString) as [|Hne]; cbn [negb];
      [intros [= <-]; now split|].
    destruct (check_option_host o ip port E) as [Hport Hhost].
    intros Hstep.
    exact (add_interface_entry_ok a a' ip port Hstep Hnd Hok (Hhost Hne) Hport).
  - apply List.Forall_forall. auto.
  - split; [apply NoDup_nil_2|constructor].
Qed.

(** The partial entries of [-I], [-P]. *)
Lemma keyed_spec ip (ll : list (string * (string * string))) :
  keyed ip ll = true <-> In ip (map fst ll).
Proof.
  unfold keyed. rewrite existsb_exists, in_map_iff. split.
  - intros ([k item] & Hin & Hk). apply String.eqb_eq in Hk.
    exists (k, item). auto.
  - intros ([k item] & Hk & Hin). exists (k, item).
    split; [assumption|]. now apply String.eqb_eq.
Qed.

Lemma add_keyed_ok ll ll' ip :
  add_keyed get_subnet_mask get_broadcast_ip ll ip = Some ll' ->
  partial_ok host_ip_list get_subnet_mask get_broadcast_ip ll ->
  In ip host_ip_list ->
  partial_ok host_ip_list get_subnet_mask get_broadcast_ip ll'.
Proof.
  unfold add_keyed.
  destruct (get_broadcast_ip ip (get_subnet_mask ip)) as [bc|] eqn:Hbc;
    [|discriminate].
  destruct (keyed ip ll) eqn:Hk; cbn [negb]; intros [= <-] [Hnd Hok] Hin;
    [now split|].
  split.
  - rewrite map_app. cbn [map fst]. apply NoDup_app. split; [assumption|].
    split; [|apply NoDup_singleton].
    intros k Hk1 Hk2. apply list_elem_of_In in Hk1.
    apply list_elem_of_In in Hk2. destruct Hk2 as [<-|[]].
    apply (keyed_spec ip ll) in Hk1. congruence.
  - apply List.Forall_app. split; [assumption|].
    constructor; [|constructor]. repeat split; assumption.
Qed.

Lemma sender_ip_partial_ok sender_ip ll :
  fold_raising (add_sender_ip unicode_isdigit unicode_int is_ip host_ip_list
                  get_subnet_mask get_broadcast_ip) sender_ip [] = Some ll ->
  partial_ok host_ip_list get_subnet_mask get_broadcast_ip ll.
Proof.
  apply (fold_raising_inv _
           (partial_ok host_ip_list get_subnet_mask get_broadcast_ip)
           (fun _ => True)).
  - intros a o a' Hok _. unfold add_sender_ip.
    destruct (check_option unicode_isdigit unicode_int is_ip host_ip_list o)
      as [[[r ip] port]|] eqn:E; [|discriminate].
    destruct r; cbn [andb]; [|now intros [= <-]].
    destruct (String.eqb_spec ip EmptyString) as [|Hne]; cbn [negb andb];
      [now intros [= <-]|].
    destruct (port =? 7256); [|now intros [= <-]].
    destruct (check_option_host o ip port E) as [_ Hhost].
    intros Hstep. exact (add_keyed_ok a a' ip Hstep Hok (Hhost Hne)).
  - apply List.Forall_forall. auto.
  - split; [apply NoDup_nil_2|constructor].
Qed.

Lemma host_ip_partial_ok ll :
  fold_raising (add_keyed get_subnet_mask get_broadcast_ip) host_ip_list []
  = Some ll ->
  partial_ok host_ip_list get_subnet_mask get_broadcast_ip ll.
Proof.
  apply (fold_raising_inv _
           (partial_ok host_ip_list get_subnet_mask get_broadcast_ip)
           (fun ip => In ip host_ip_list)).
  - intros a ip a' Hok Hin Hstep. exact (add_keyed_ok a a' ip Hstep Hok Hin).
  - apply List.Forall_forall. auto.
  - split; [apply NoDup_nil_2|constructor].
Qed.

Lemma add_sender_port_fold sender_port : forall port_list r,
  fold_raising (add_sender_port unicode_isdigit unicode_int is_ip host_ip_list)
    sender_port port_list = Some r ->
  r = port_list ++ bare_ports unicode_isdigit unicode_int is_ip host_ip_list
                     sender_port.
Proof.
  induction sender_port as [|o rest IH]; intros port_list r.
  - cbn. rewrite app_nil_r. now intros [= <-].
  - cbn [fold_raising bare_ports flat_map].
    fold (bare_ports unicode_isdigit unicode_int is_ip host_ip_list rest).
    unfold add_sender_port at 1.
    destruct (check_option unicode_isdigit unicode_int is_ip host_ip_list o)
      as [[[ok ip] port]|]; [|discriminate].
    destruct (ok && String.eqb ip EmptyString); intros Hrest;
      apply IH in Hrest as ->.
    + now rewrite <- app_assoc.
    + reflexivity.
Qed.

Lemma bare_ports_range sender_port :
  List.Forall (fun p => 0 <= p <= 65535)
              (bare_ports unicode_isdigit unicode_int is_ip host_ip_list
                 sender_port).
Proof.
  unfold bare_ports. apply List.Forall_forall. intros p Hp.
  apply in_flat_map in Hp as (o & _ & Hp).
  destruct (check_option unicode_isdigit unicode_int is_ip host_ip_list o)
    as [[[r ip] port]|] eqn:E; [|destruct Hp].
  destruct r; cbn [andb] in Hp; [|destruct Hp].
  destruct (String.eqb ip EmptyString); [|destruct Hp].
  destruct Hp as [<-|[]]. exact (proj1 (check_option_host o ip port E)).
Qed.

Lemma add_sender_ip_keys sender_ip : forall ll r ip,
  fold_raising (add_sender_ip unicode_isdigit unicode_int is_ip host_ip_list
                  get_subnet_mask get_broadcast_ip) sender_ip ll = Some r ->
  In ip (map fst r)
  <-> In ip (map fst ll)
      \/ In ip (interfaces_named unicode_isdigit unicode_int is_ip
                  host_ip_list sender_ip).
Proof.
  induction sender_ip as [|o rest IH]; intros ll r ip.
  - cbn. intros [= <-]. tauto.
  - cbn [fold_raising interfaces_named flat_map].
    fold (interfaces_named unicode_isdigit unicode_int is_ip host_ip_list rest).
    rewrite in_app_iff. unfold add_sender_ip at 1.
    destruct (check_option unicode_isdigit unicode_int is_ip host_ip_list o)
      as [[[ok oip] port]|]; [|discriminate].
    destruct (ok && negb (String.eqb oip EmptyString) && (port =? 7256)).
    2: { intros Hrest. rewrite (IH _ _ ip Hrest). cbn [In]. tauto. }
    unfold add_keyed.
    destruct (get_broadcast_ip oip (get_subnet_mask oip)) as [bc|];
      [|discriminate].
    destruct (keyed oip ll) eqn:Hk; cbn [negb]; intros Hrest;
      rewrite (IH _ _ ip Hrest).
    + apply keyed_spec in Hk. cbn [In]. intuition (subst; auto).
    + rewrite map_app, in_app_iff. cbn [map fst In]. tauto.
Qed.

Lemma add_keyed_keys l : forall ll r ip,
  fold_raising (add_keyed get_subnet_mask get_broadcast_ip) l ll = Some r ->
  In ip (map fst r) <-> In ip (map fst ll) \/ In ip l.
Proof.
  induction l as [|h rest IH]; intros ll r ip.
  - cbn. intros [= <-]. tauto.
  - cbn [fold_raising]. unfold add_keyed at 1.
    destruct (get_broadcast_ip h (get_subnet_mask h)) as [bc|];
      [|discriminate].
    destruct (keyed h ll) eqn:Hk; cbn [negb]; intros Hrest;
      rewrite (IH _ _ ip Hrest).
    + apply keyed_spec in Hk. cbn [In]. intuition (subst; auto).
    + rewrite map_app, in_app_iff. cbn [map fst In]. tauto.
Qed.

(** X18: whatever the options, a listening list that is built without an
    exception names every interface once, every interface in it is one
    of the host's addresses with that interface's subnet mask and
    broadcast address, and every port is between 0 and 65535. *)
Theorem listening_list_entries
    (sender sender_ip sender_port : option (list string)) ll :
  listening_list unicode_isdigit unicode_int is_ip host_ip_list
    get_subnet_mask get_broadcast_ip sender sender_ip sender_port = Some ll ->
  NoDup (map fst ll) /\
  List.Forall (entry_ok host_ip_list get_subnet_mask get_broadcast_ip) ll.
Proof.
  assert (Hip : forall sender_ip sender_port,
    ip_port_listening_list unicode_isdigit unicode_int is_ip host_ip_list
      get_subnet_mask get_broadcast_ip sender_ip sender_port = Some ll ->
    NoDup (map fst ll) /\
    List.Forall (entry_ok host_ip_list get_subnet_mask get_broadcast_ip) ll).
  { clear. intros sender_ip sender_port. unfold ip_port_listening_list.
    destruct (match sender_ip with Some _ => _ | None => _ end)
      as [partial|] eqn:Hpartial; [|discriminate].
    destruct (match sender_port with Some _ => _ | None => _ end)
      as [port_list|] eqn:Hport_list; [|discriminate].
    cbn. intros [= <-].
    assert (Hok : partial_ok host_ip_list get_subnet_mask
                    get_broadcast_ip partial).
    { destruct sender_ip as [l|];
        [exact (sender_ip_partial_ok l partial Hpartial)
        |exact (host_ip_partial_ok partial Hpartial)]. }
    assert (Hports : List.Forall (fun p => 0 <= p <= 65535) port_list).
    { destruct sender_port as [l|].
      - apply add_sender_port_fold in Hport_list as ->. apply bare_ports_range.
      - injection Hport_list as <-. constructor; [lia|constructor]. }
    destruct Hok as [Hnd Hok]. split.
    - rewrite map_map. cbn [fst]. exact Hnd.
    - apply List.Forall_map. revert Hok. apply List.Forall_impl.
      intros e (H1 & H2 & H3). repeat split; assumption. }
  unfold listening_list.
  destruct sender as [s|].
  - apply sender_listening_list_ok.
  - destruct sender_ip as [i|]; [apply Hip|].
    destruct sender_port as [p|]; [apply Hip|].
    apply default_listening_list_ok.
Qed.

(** X19: with [-I] or [-P], and no exception, every interface listens on
    the same ports: those the valid [-P] options name, in their order,
    or 7256 alone without [-P].  The interfaces are those the valid [-I]
    options name with no port or with port 7256, or all the host's
    without [-I]. *)
Theorem ip_port_listening_list_shares_ports
    (sender_ip sender_port : option (list string)) ll :
  ip_port_listening_list unicode_isdigit unicode_int is_ip host_ip_list
    get_subnet_mask get_broadcast_ip sender_ip sender_port = Some ll ->
  List.Forall
    (fun e => l_port (snd e)
              = match sender_port with
                | Some sender_port =>
                  bare_ports unicode_isdigit unicode_int is_ip host_ip_list
                    sender_port
                | None => [7256]
                end) ll /\
  forall ip,
    In ip (map fst ll)
    <-> In ip match sender_ip with
              | Some sender_ip =>
                interfaces_named unicode_isdigit unicode_int is_ip
                  host_ip_list sender_ip
              | None => host_ip_list
              end.
Proof.
  unfold ip_port_listening_list.
  destruct (match sender_ip with Some _ => _ | None => _ end)
    as [partial|] eqn:Hpartial; [|discriminate].
  destruct (match sender_port with Some _ => _ | None => _ end)
    as [port_list|] eqn:Hport_list; [|discriminate].
  cbn. intros [= <-]. split.
  - apply List.Forall_map, List.Forall_forall. intros e _. cbn [snd l_port].
    destruct sender_port as [l|].
    + now apply add_sender_port_fold in Hport_list as ->.
    + now injection Hport_list as <-.
  - intros ip. rewrite map_map. cbn [fst].
    change (map (fun x : string * (string * string) => fst x)) with
      (@map (string * (string * string)) string fst).
    destruct sender_ip as [l|].
    + rewrite (add_sender_ip_keys _ _ _ ip Hpartial). cbn [map In]. tauto.
    + rewrite (add_keyed_keys _ _ _ ip Hpartial). cbn [map In]. tauto.
Qed.

End ListeningFacts.

Lemma listening_list_entries_witness :
  NoDup (map fst [("192.168.5.2"%string,
                   {| l_port := [7256]; l_subnet := "255.255.255.0";
                      l_config := "192.168.5.255" |})]) /\
  List.Forall (entry_ok ["192.168.5.2"%string] (fun _ => "255.255.255.0"%string)
                 (fun _ _ => Some "192.168.5.255"%string))
    [("192.168.5.2"%string,
      {| l_port := [7256]; l_subnet := "255.255.255.0";
         l_config := "192.168.5.255" |})].
Proof.
  exact (listening_list_entries (fun _ => false) (fun _ => None)
           (fun s => String.eqb s "192.168.5.2") ["192.168.5.2"%string]
           (fun _ => "255.255.255.0"%string)
           (fun _ _ => Some "192.168.5.255"%string)
           None None None _ eq_refl).
Defined.

Lemma ip_port_listening_list_shares_ports_witness :
  List.Forall (fun e => l_port (snd e) = [8000; 9000])
    [("192.168.5.2"%string,
      {| l_port := [8000; 9000]; l_subnet := "255.255.255.0";
         l_config := "192.168.5.255" |})].
Proof.
  exact (proj1 (ip_port_listening_list_shares_ports (fun _ => false)
                  (fun _ => None)
                  (fun s => String.eqb s "192.168.5.2") ["192.168.5.2"%string]
                  (fun _ => "255.255.255.0"%string)
                  (fun _ _ => Some "192.168.5.255"%string)
                  None (Some ["8000"%string; "x"%string; "9000"%string])
                  _ eq_refl)).
Defined.

(** ** Subnet masks and file arguments *)

(** X20: a prefix length between 0 and 32 gives the dotted mask with that many
    leading one bits. *)
Theorem cidr_to_subnet_mask (cidr : Z) :
  0 <= cidr <= 32 ->
  exists a b c d,
    cidr_to_subnet cidr = Some (String.concat "." (map str [a; b; c; d])) /\
    forallb is_byte [a; b; c; d] = true /\
    ipv4 a b c d = 2 ^ 32 - 2 ^ (32 - cidr).
Proof.
  intros H.
  assert (E : exists n, (n <= 32)%nat /\ cidr = Z.of_nat n)
    by (exists (Z.to_nat cidr); lia).
  destruct E as (n & Hn & ->). clear H.
  set (mask := Z.shiftl (Z.shiftr 0xFFFFFFFF (32 - Z.of_nat n))
                        (32 - Z.of_nat n)).
  exists (Z.land (Z.shiftr mask 24) 0xFF), (Z.land (Z.shiftr mask 16) 0xFF),
         (Z.land (Z.shiftr mask 8) 0xFF), (Z.land (Z.shiftr mask 0) 0xFF).
  subst mask.
  do 33 (destruct n as [|n]; [vm_compute; repeat split; reflexivity|]).
  lia.
Qed.

Lemma cidr_to_subnet_mask_witness :
  cidr_to_subnet 24 = Some "255.255.255.0"%string /\
  exists a b c d,
    cidr_to_subnet 24 = Some (String.concat "." (map str [a; b; c; d])) /\
    forallb is_byte [a; b; c; d] = true /\
    ipv4 a b c d = 2 ^ 32 - 2 ^ (32 - 24).
Proof.
  split; [reflexivity|]. apply (cidr_to_subnet_mask 24). lia.
Defined.




Lemma filter_singleton {A} (f : A -> bool) (l : list A) x :
  List.filter f l = [x] ->
  exists mid post,
    l = mid ++ x :: post /\ f x = true /\
    List.Forall (fun a => f a = false) mid /\
    List.Forall (fun a => f a = false) post.
Proof.
  induction l as [|a l IH]; [discriminate|]. cbn [List.filter].
  destruct (f a) eqn:Hfa.
  - intros [= -> Hrest]. exists [], l. split; [reflexivity|].
    split; [assumption|]. split; [constructor|].
    apply List.Forall_forall. intros y Hy.
    destruct (f y) eqn:Hfy; [|reflexivity].
    assert (Hin : In y (List.filter f l)) by (apply filter_In; auto).
    rewrite Hrest in Hin. destruct Hin.
  - intros Hrest. destruct (IH Hrest) as (mid & post & -> & Hx & Hmid & Hpost).
    exists (a :: mid), post. split; [reflexivity|]. split; [assumption|].
    split; [constructor; assumption|assumption].
Qed.


Section FileArgumentFacts.

Variable getcwd : string.
Variable path_exists : string -> bool.
Variable isdir : string -> bool.
Variable listdir : string -> option (list string).


(** The state of the loop of [parse_cvt_list] after the arguments
    [done]. *)
Lemma cvt_loop_inv done :
  let '(file_list, csv_found) :=
    fold_left (cvt_step getcwd path_exists) done ([], false) in
  if csv_found then
    exists pre csv rest,
      done = pre ++ csv :: rest /\
      List.Forall (fun a => endswith ".csv" a
                            && path_exists (dir_path_for getcwd a ++ a)
                            = false) pre /\
      endswith ".csv" csv = true /\
      path_exists (dir_path_for getcwd csv ++ csv) = true /\
      file_list
      = (dir_path_for getcwd csv ++ csv)%string
        :: map (fun a => (dir_path_for getcwd a ++ a)%string)
               (List.filter (endswith ".json") rest)
  else
    file_list = [] /\
    List.Forall (fun a => endswith ".csv" a
                          && path_exists (dir_path_for getcwd a ++ a)
                          = false) done.
Proof.
  induction done as [|arg done IH] using rev_ind.
  - cbn. split; [reflexivity|constructor].
  - rewrite fold_left_app. cbn [fold_left].
    destruct (fold_left (cvt_step getcwd path_exists) done ([], false))
      as [file_list csv_found].
    unfold cvt_step. destruct csv_found; cbn [Bool.eqb andb].
    + destruct IH as (pre & csv & rest & -> & Hpre & Hcsv & Hex & ->).
      destruct (endswith ".json" arg) eqn:Hj.
      * exists pre, csv, (rest ++ [arg]).
        rewrite <- app_assoc. split; [reflexivity|].
        repeat (split; [assumption|]).
        rewrite List.filter_app, map_app. cbn [List.filter]. rewrite Hj.
        reflexivity.
      * exists pre, csv, (rest ++ [arg]).
        rewrite <- app_assoc. split; [reflexivity|].
        repeat (split; [assumption|]).
        rewrite List.filter_app. cbn [List.filter]. rewrite Hj.
        now rewrite app_nil_r.
    + destruct IH as [-> Hdone].
      destruct (endswith ".csv" arg) eqn:Hc.
      * destruct (path_exists (dir_path_for getcwd arg ++ arg)) eqn:Hex.
        -- exists done, arg, []. repeat (split; [assumption || reflexivity|]).
           reflexivity.
        -- split; [reflexivity|]. apply List.Forall_app. split; [assumption|].
           constructor; [|constructor]. now rewrite Hc, Hex.
      * split; [reflexivity|]. apply List.Forall_app. split; [assumption|].
        constructor; [|constructor]. now rewrite Hc.
Qed.

(** X21: [parse_cvt_list] gives two paths or none.  The two are, under the
    working directory, the first argument that ends in [.csv] and
    exists, and the one argument after it that ends in [.json]: when a
    second one follows, nothing is returned. *)
Theorem parse_cvt_list_result (arg_list files : list string) (n : nat) :
  parse_cvt_list getcwd path_exists arg_list = (files, n) ->
  (files = [] /\ n = 0%nat) \/
  exists pre csv mid json post,
    arg_list = pre ++ csv :: mid ++ json :: post /\
    files = [(dir_path_for getcwd csv ++ csv)%string;
             (dir_path_for getcwd json ++ json)%string] /\
    n = 2%nat /\
    endswith ".csv" csv = true /\
    path_exists (dir_path_for getcwd csv ++ csv) = true /\
    endswith ".json" json = true /\
    List.Forall (fun a => endswith ".csv" a
                          && path_exists (dir_path_for getcwd a ++ a)
                          = false) pre /\
    List.Forall (fun a => endswith ".json" a = false) (mid ++ post).
Proof.
  unfold parse_cvt_list. pose proof (cvt_loop_inv arg_list) as Hinv.
  destruct (fold_left (cvt_step getcwd path_exists) arg_list ([], false))
    as [file_list csv_found].
  destruct (Nat.eqb_spec (length file_list) 2) as [Hlen|_];
    [|intros [= <- <-]; now left].
  intros [= <- <-]. right.
  destruct csv_found; [|destruct Hinv as [-> _]; discriminate].
  destruct Hinv as (pre & csv & rest & -> & Hpre & Hcsv & Hex & ->).
  cbn [length] in Hlen. rewrite length_map in Hlen.
  destruct (List.filter (endswith ".json") rest) as [|json [|x l]] eqn:Hf;
    try discriminate.
  destruct (filter_singleton _ _ _ Hf) as (mid & post & -> & Hj & Hmid & Hpost).
  exists pre, csv, mid, json, post.
  split; [reflexivity|]. split; [reflexivity|]. split; [reflexivity|].
  repeat (split; [assumption|]).
  apply List.Forall_app. now split.
Qed.


End FileArgumentFacts.

Lemma parse_cvt_list_result_witness :
  exists pre csv mid json post,
    ["x.json"; "a.csv"; "b.csv"; "/out.json"]%string
    = pre ++ csv :: mid ++ json :: post /\
    ["/home/user/a.csv"; "/home/user/out.json"]%string
    = [(dir_path_for home_user csv ++ csv)%string;
       (dir_path_for home_user json ++ json)%string] /\
    2%nat = 2%nat /\
    endswith ".csv" csv = true /\
    any_path (dir_path_for home_user csv ++ csv) = true /\
    endswith ".json" json = true /\
    List.Forall (fun a => endswith ".csv" a
                          && any_path (dir_path_for home_user a ++ a)
                          = false) pre /\
    List.Forall (fun a => endswith ".json" a = false) (mid ++ post).
Proof.
  destruct (parse_cvt_list_result home_user any_path
              ["x.json"; "a.csv"; "b.csv"; "/out.json"]%string
              ["/home/user/a.csv"; "/home/user/out.json"]%string 2 eq_refl)
    as [[H _]|H]; [discriminate H|exact H].
Defined.


(** ** Parameter files *)

Lemma filter_nil_Forall {A} (f : A -> bool) (l : list A) :
  List.filter f l = [] -> List.Forall (fun x => f x = false) l.
Proof.
  induction l as [|x l IH]; [constructor|]. cbn [List.filter].
  destruct (f x) eqn:E; [discriminate|]. intros H. constructor; auto.
Qed.

Section JsonFacts.

Variable float : Type.
Variable float_is_zero : float -> bool.
Variable load : string -> option (json float).

Lemma validate_v1_5_x_spec (fields : list (string * json float)) :
  validate_v1_5_x fields = true ->
  List.Forall (fun key => has_key key fields = true) required_fields.
Proof.
  unfold validate_v1_5_x. generalize required_fields. intros l.
  destruct (List.filter _ l) eqn:Hf; [|discriminate]. intros _.
  apply filter_nil_Forall in Hf. revert Hf. apply List.Forall_impl.
  intros key Hk. now apply negb_false_iff in Hk.
Qed.

(** What [check_ilidar_param_version] accepts. *)
Lemma accepted_spec (data : json float) :
  check_ilidar_param_version float_is_zero data = Some true ->
  exists fields version,
    data = JObj fields /\
    dict_get "ilidar_version" fields = Some (JStr version) /\
    String.prefix "1.5" version = true /\
    List.Forall (fun key => has_key key fields = true) required_fields.
Proof.
  unfold check_ilidar_param_version.
  destruct data as [| | | | |items|fields]; try discriminate.
  destruct (dict_get "ilidar_version" fields) as [v|] eqn:Hget;
    [|discriminate].
  destruct (truthy float float_is_zero v); [|discriminate].
  destruct v as [| | | |s| |]; try discriminate.
  destruct (String.prefix "1.5" s) eqn:Hp; [|discriminate].
  intros [= Hv]. exists fields, s. repeat split; try assumption.
  now apply validate_v1_5_x_spec.
Qed.

Lemma append_checked_acc json_file data : forall acc,
  append_checked float float_is_zero json_file data acc
  = acc ++ append_checked float float_is_zero json_file data [].
Proof.
  induction data as [|d rest IH]; intros acc; cbn [append_checked].
  - now rewrite app_nil_r.
  - destruct (check_ilidar_param_version float_is_zero d) as [[|]|].
    + rewrite IH, (IH ([] ++ _)). now rewrite app_assoc.
    + apply IH.
    + now rewrite app_nil_r.
Qed.

Lemma read_json_file_acc acc json_file :
  read_json_file float float_is_zero load acc json_file
  = acc ++ read_json_file float float_is_zero load [] json_file.
Proof.
  unfold read_json_file.
  destruct (load json_file) as [data|]; [|now rewrite app_nil_r].
  destruct data; try now rewrite app_nil_r.
  - apply append_checked_acc.
  - destruct (check_ilidar_param_version _ _) as [[|]|];
      try now rewrite app_nil_r.
    reflexivity.
Qed.

Lemma read_json_files_fold json_files : forall acc,
  fold_left (read_json_file float float_is_zero load) json_files acc
  = acc ++ read_json_files float_is_zero load json_files.
Proof.
  unfold read_json_files.
  induction json_files as [|f rest IH]; intros acc; cbn [fold_left].
  - now rewrite app_nil_r.
  - rewrite IH, (IH (read_json_file _ _ _ [] f)), read_json_file_acc.
    now rewrite app_assoc.
Qed.

Lemma read_json_files_app a b :
  read_json_files float_is_zero load (a ++ b)
  = read_json_files float_is_zero load a
    ++ read_json_files float_is_zero load b.
Proof.
  unfold read_json_files at 1. rewrite fold_left_app.
  fold (read_json_files float_is_zero load a).
  apply read_json_files_fold.
Qed.

(** The entries kept of a list: the accepted ones up to the first that
    raises. *)
Lemma append_checked_good json_file good bad rest :
  List.Forall (fun d => check_ilidar_param_version float_is_zero d <> None)
              good ->
  check_ilidar_param_version float_is_zero bad = None ->
  append_checked float float_is_zero json_file (good ++ bad :: rest) []
  = map (pair json_file) (List.filter (accepted float_is_zero) good).
Proof.
  intros Hgood Hbad. induction Hgood as [|d good Hd _ IH].
  - cbn [app append_checked List.filter map]. now rewrite Hbad.
  - cbn [app append_checked List.filter]. unfold accepted at 1.
    destruct (check_ilidar_param_version float_is_zero d) as [[|]|];
      [| |contradiction].
    + rewrite append_checked_acc, IH. reflexivity.
    + exact IH.
Qed.

Lemma append_checked_all json_file items :
  List.Forall (fun d => check_ilidar_param_version float_is_zero d = Some true)
              items ->
  append_checked float float_is_zero json_file items []
  = map (pair json_file) items.
Proof.
  induction 1 as [|d items Hd _ IH]; [reflexivity|].
  cbn [append_checked map]. rewrite Hd, append_checked_acc, IH. reflexivity.
Qed.

Lemma append_checked_In json_file items : forall acc e,
  In e (append_checked float float_is_zero json_file items acc) ->
  In e acc
  \/ (fst e = json_file /\ In (snd e) items /\
      check_ilidar_param_version float_is_zero (snd e) = Some true).
Proof.
  induction items as [|d rest IH]; intros acc e; cbn [append_checked];
    [now left|].
  destruct (check_ilidar_param_version float_is_zero d) as [[|]|] eqn:Hd;
    [| |now left].
  - intros H. apply IH in H as [H|(H1 & H2 & H3)].
    + apply in_app_or in H as [H|[<-|[]]]; [now left|].
      right. cbn [fst snd]. repeat split; [now left|assumption].
    + right. repeat split; [assumption|now right|assumption].
  - intros H. apply IH in H as [H|(H1 & H2 & H3)]; [now left|].
    right. repeat split; [assumption|now right|assumption].
Qed.

(** X23: every entry [read_json_files] returns comes from one of the files,
    as the object of the file or as an entry of its list, and is an
    object whose [ilidar_version] is a string that starts with [1.5] and
    that has all the required fields. *)
Theorem read_json_files_accepts (json_files : list string) :
  List.Forall
    (fun e =>
       In (fst e) json_files /\
       (load (fst e) = Some (snd e)
        \/ exists items, load (fst e) = Some (JArr items) /\ In (snd e) items) /\
       exists fields version,
         snd e = JObj fields /\
         dict_get "ilidar_version" fields = Some (JStr version) /\
         String.prefix "1.5" version = true /\
         List.Forall (fun key => has_key key fields = true) required_fields)
    (read_json_files float_is_zero load json_files).
Proof.
  induction json_files as [|f done IH] using rev_ind; [constructor|].
  rewrite read_json_files_app. apply List.Forall_app. split.
  - revert IH. apply List.Forall_impl. intros e (H1 & H2 & H3).
    split; [apply in_or_app; now left|]. now split.
  - unfold read_json_files. cbn [fold_left]. unfold read_json_file.
    destruct (load f) as [data|] eqn:Hload; [|constructor].
    destruct data as [| | | | |items|fields]; try constructor.
    + apply List.Forall_forall. intros e He.
      apply append_checked_In in He as [[]|(H1 & H2 & H3)].
      split; [apply in_or_app; right; left; now symmetry|].
      split; [|now apply accepted_spec].
      right. exists items. rewrite H1. now split.
    + destruct (check_ilidar_param_version float_is_zero (JObj fields))
        as [[|]|] eqn:Hc; try constructor; [|constructor].
      cbn [fst snd]. split; [apply in_or_app; right; now left|].
      split; [now left|]. now apply accepted_spec.
Qed.

(** X24: of a file that holds a list, the entries behind the first one that
    is no object, or whose version is a true value other than a
    string, are not looked at: the accepted entries before it are kept,
    and reading goes on with the next file. *)
Theorem read_json_files_list_stops_at_error
    (before after : list string) (json_file : string)
    (good rest : list (json float)) (bad : json float) :
  load json_file = Some (JArr (good ++ bad :: rest)) ->
  List.Forall (fun d => check_ilidar_param_version float_is_zero d <> None)
              good ->
  check_ilidar_param_version float_is_zero bad = None ->
  read_json_files float_is_zero load (before ++ json_file :: after)
  = read_json_files float_is_zero load before
    ++ map (pair json_file) (List.filter (accepted float_is_zero) good)
    ++ read_json_files float_is_zero load after.
Proof.
  intros Hload Hgood Hbad.
  change (json_file :: after) with ([json_file] ++ after).
  rewrite !read_json_files_app. f_equal. f_equal.
  unfold read_json_files. cbn [fold_left]. unfold read_json_file.
  rewrite Hload. now apply append_checked_good.
Qed.

End JsonFacts.

Section ConvertFacts.

Variable float : Type.
Variable float_is_zero : float -> bool.
Variable py_int : string -> option Z.

Ltac next_field H :=
  match type of H with
  | match ?x with Some _ => _ | None => None end = Some _ =>
    let v := fresh "v" in
    let E := fresh "E" in
    destruct x as [v|] eqn:E; [|discriminate H]
  end.

(** A converted row gives an object with the row's name, version and
    serial number that [check_ilidar_param_version] accepts. *)
Lemma convert_row_converted row data :
  convert_row py_int row = Some (Some data) ->
  is_converted row = true /\
  check_ilidar_param_version float_is_zero data = Some true /\
  exists sn fields,
    data = JObj fields /\
    py_int (cell row 2) = Some sn /\
    dict_get "sensor_sn" fields = Some (JInt sn) /\
    dict_get "ilidar_name" fields = Some (JStr (cell row 0)).
Proof.
  unfold convert_row, is_converted.
  destruct (row !! 1%nat) as [version|] eqn:Hv; [|discriminate].
  assert (Hcell : cell row 1 = version).
  { unfold cell. destruct row as [|a [|b row']]; try discriminate.
    now injection Hv. }
  rewrite Hcell.
  destruct (String.prefix "1.4" version); [discriminate|].
  destruct (String.prefix "1.5" version) eqn:H15; [|discriminate].
  destruct (length row =? 44)%nat; [|discriminate].
  intros H. repeat next_field H. injection H as <-.
  split; [reflexivity|].
  match goal with |- context [JObj ?l] => set (fields := l) end.
  assert (Hversion : dict_get "ilidar_version" fields = Some (JStr version))
    by (vm_compute; reflexivity).
  assert (Hall : validate_v1_5_x fields = true) by (vm_compute; reflexivity).
  assert (Hsn : dict_get "sensor_sn" fields = Some (JInt v))
    by (vm_compute; reflexivity).
  assert (Hname : dict_get "ilidar_name" fields = Some (JStr (cell row 0)))
    by (vm_compute; reflexivity).
  clearbody fields. split.
  - unfold check_ilidar_param_version. rewrite Hversion.
    assert (Hne : String.eqb version EmptyString = false).
    { destruct version; [discriminate H15|reflexivity]. }
    cbn [truthy]. rewrite Hne, H15, Hall. reflexivity.
  - exists v, fields. repeat split; assumption.
Qed.

Lemma convert_row_passed row :
  convert_row (float := float) py_int row = Some None ->
  is_converted row = false.
Proof.
  unfold convert_row, is_converted.
  destruct (row !! 1%nat) as [version|] eqn:Hv; [|discriminate].
  assert (Hcell : cell row 1 = version).
  { unfold cell. destruct row as [|a [|b row']]; try discriminate.
    now injection Hv. }
  rewrite Hcell.
  destruct (String.prefix "1.4" version); [reflexivity|].
  destruct (String.prefix "1.5" version) eqn:H15; [|reflexivity].
  destruct (length row =? 44)%nat; [|reflexivity].
  intros H. exfalso. repeat next_field H. discriminate H.
Qed.

Lemma convert_row_length row (r : option (json float)) :
  convert_row py_int row = Some r -> (2 <= length row)%nat.
Proof.
  unfold convert_row.
  destruct (row !! 1%nat) as [version|] eqn:Hv; [|discriminate].
  intros _. apply lookup_lt_Some in Hv. lia.
Qed.

Lemma convert_rows_inv rows : forall store_data store,
  convert_rows py_int rows store_data = Some store ->
  List.Forall (fun row => (2 <= length row)%nat) rows /\
  exists new,
    store = store_data ++ new /\
    List.Forall
      (fun d => check_ilidar_param_version float_is_zero d = Some true) new /\
    List.Forall2
      (fun row data =>
         exists sn fields,
           data = JObj fields /\
           py_int (cell row 2) = Some sn /\
           dict_get "sensor_sn" fields = Some (JInt sn) /\
           dict_get "ilidar_name" fields = Some (JStr (cell row 0)))
      (List.filter is_converted rows) new.
Proof.
  induction rows as [|row rest IH]; intros store_data store;
    cbn [convert_rows].
  - intros [= <-]. split; [constructor|]. exists [].
    rewrite app_nil_r. repeat split; constructor.
  - destruct (convert_row py_int row) as [converted|] eqn:Hrow;
      [|discriminate].
    intros H. apply IH in H as (Hlen & new & -> & Hok & Hrows).
    split; [constructor; [now apply convert_row_length in Hrow|assumption]|].
    cbn [List.filter].
    destruct converted as [data|].
    + apply convert_row_converted in Hrow as (-> & Hc & Hdata).
      exists (data :: new). rewrite <- app_assoc. split; [reflexivity|].
      split; constructor; assumption.
    + apply convert_row_passed in Hrow as ->.
      exists new. repeat split; assumption.
Qed.

(** X25: what [cmd_convert_run] writes is read back in full: when the
    output file loads as the list that was stored, [read_json_files]
    keeps every entry of it, in order. *)
Theorem cmd_convert_run_output_is_read_back
    (load : string -> option (json float))
    (rows : list (list string)) (store_data : list (json float))
    (json_file : string) :
  cmd_convert_run py_int rows = Some store_data ->
  load json_file = Some (JArr store_data) ->
  read_json_files float_is_zero load [json_file]
  = map (pair json_file) store_data.
Proof.
  unfold cmd_convert_run. intros Hrun Hload.
  apply convert_rows_inv in Hrun as (_ & new & -> & Hok & _).
  unfold read_json_files. cbn [fold_left app]. unfold read_json_file.
  rewrite Hload. now apply append_checked_all.
Qed.

(** X26: a conversion that ends without an exception found at least two
    cells in every row, and stored one object for each row of version
    1.5 with 44 cells, in order, under the row's name and with the
    serial number [int] reads from the third cell. *)
Theorem cmd_convert_run_rows
    (rows : list (list string)) (store_data : list (json float)) :
  cmd_convert_run py_int rows = Some store_data ->
  List.Forall (fun row => (2 <= length row)%nat) rows /\
  List.Forall2
    (fun row data =>
       exists sn fields,
         data = JObj fields /\
         py_int (cell row 2) = Some sn /\
         dict_get "sensor_sn" fields = Some (JInt sn) /\
         dict_get "ilidar_name" fields = Some (JStr (cell row 0)))
    (List.filter is_converted rows) store_data.
Proof.
  unfold cmd_convert_run. intros Hrun.
  apply convert_rows_inv in Hrun as (Hlen & new & -> & _ & Hrows).
  split; assumption.
Qed.

End ConvertFacts.

Lemma read_json_files_list_stops_at_error_witness :
  read_json_files no_float_is_zero load_broken_list ([] ++ "a.json"%string :: [])
  = read_json_files no_float_is_zero load_broken_list []
    ++ map (pair "a.json"%string)
           (List.filter (accepted no_float_is_zero) [sample_param])
    ++ read_json_files no_float_is_zero load_broken_list [].
Proof.
  assert (Hgood : check_ilidar_param_version no_float_is_zero sample_param
                  <> None) by (vm_compute; discriminate).
  apply (read_json_files_list_stops_at_error no_float no_float_is_zero
           load_broken_list [] [] "a.json" [sample_param] [sample_param]
           (JInt 5)).
  - reflexivity.
  - constructor; [exact Hgood|constructor].
  - reflexivity.
Defined.

Lemma cmd_convert_run_output_is_read_back_witness :
  cmd_convert_run int_of_digits [sample_row] = Some [sample_param] /\
  read_json_files no_float_is_zero load_sample ["out.json"%string]
  = map (pair "out.json"%string) [sample_param].
Proof.
  assert (Hrun : cmd_convert_run int_of_digits [sample_row]
                 = Some [sample_param]) by (vm_compute; reflexivity).
  split; [exact Hrun|].
  apply (cmd_convert_run_output_is_read_back no_float no_float_is_zero
           int_of_digits load_sample [sample_row] [sample_param] "out.json"
           Hrun).
  reflexivity.
Defined.

Lemma cmd_convert_run_rows_witness :
  cmd_convert_run int_of_digits [["name"; "1.4.2"]%string; sample_row]
  = Some [sample_param] /\
  List.Forall (fun row => (2 <= length row)%nat)
              [["name"; "1.4.2"]%string; sample_row] /\
  List.Forall2
    (fun row data =>
       exists sn fields,
         data = JObj fields /\
         int_of_digits (cell row 2) = Some sn /\
         dict_get "sensor_sn" fields = Some (JInt sn) /\
         dict_get "ilidar_name" fields = Some (JStr (cell row 0)))
    (List.filter is_converted [["name"; "1.4.2"]%string; sample_row])
    [sample_param].
Proof.
  assert (Hrun : cmd_convert_run int_of_digits
                   [["name"; "1.4.2"]%string; sample_row]
                 = Some [sample_param]) by (vm_compute; reflexivity).
  split; [exact Hrun|].
  exact (cmd_convert_run_rows no_float no_float_is_zero int_of_digits
           [["name"; "1.4.2"]%string; sample_row] [sample_param] Hrun).
Defined.
